(** * Bill-management back end: the versioning core

    A shallow embedding of the Express routes of
    [backend/src/routes/{tenants,powerMeters,rentHistory,waterHistory,
    maintenanceHistory,monthlyReading}.js] and of [utils/dateUtil.js],
    followed by the general setup ([routes/generalSetup.js]) and the
    accounts ([middleware/auth.js], [routes/auth.js],
    [routes/invitations.js]), each over a store of its own.

    - The relational store is a record of row lists; a Supabase query is a
      [filter], an update is a [map], an insert appends.  The store accepts
      every write (no constraint of the schema is known), so the
      [500]-branches of the routes are never taken.
    - A route is a function from the store to a response and a store, written
      in a small monad with early return: a route that has already written
      when it answers with an error keeps what it wrote.
    - JavaScript [Date] values are milliseconds since the epoch.  A request
      runs in a [runtime]: the server's time zone, a fixed [offset] in minutes
      east of UTC (no daylight saving), the [clock], read once per request,
      and [Date_parse], the engine's reading of a date string.  Dates are
      printed as the engine prints them: [toISOString] in UTC with a
      four-digit year, [toLocaleDateString] for [en-CA] in the zone
      [Asia/Kolkata] as the tz database has it, the year not padded.
    - A request body is a [patch]: each column is present with a value or
      absent.  A body that carries a JSON [null] is outside the model: an
      absent column is JavaScript's [undefined], never [null].
    - The audit columns [created_at] and [updated_at] are left out: no route
      reads them. *)

From Stdlib Require Import ZArith List String Ascii Bool Lia.
Import ListNotations.
Open Scope string_scope.
Open Scope list_scope.
Open Scope Z_scope.

(** ** ECMAScript dates *)

Module JSDate.

Definition msPerDay : Z := 86400000.
Definition msPerMinute : Z := 60000.

(** Day number (days since 1970-01-01) of the civil date [y]-[m]-[d],
    [m] counted from 1, proleptic Gregorian calendar. *)
Definition days_from_civil (y m d : Z) : Z :=
  let y' := if m <=? 2 then y - 1 else y in
  let era := y' / 400 in
  let yoe := y' - era * 400 in
  let mp := (m + 9) mod 12 in
  let doy := (153 * mp + 2) / 5 + d - 1 in
  let doe := yoe * 365 + yoe / 4 - yoe / 100 + doy in
  era * 146097 + doe - 719468.

(** Civil date of a day number. *)
Definition civil_from_days (z : Z) : Z * Z * Z :=
  let z := z + 719468 in
  let era := z / 146097 in
  let doe := z - era * 146097 in
  let yoe := (doe - doe / 1460 + doe / 36524 - doe / 146096) / 365 in
  let doy := doe - (365 * yoe + yoe / 4 - yoe / 100) in
  let mp := (5 * doy + 2) / 153 in
  let d := doy - (153 * mp + 2) / 5 + 1 in
  let m := if mp <? 10 then mp + 3 else mp - 9 in
  let y := yoe + era * 400 in
  (if m <=? 2 then y + 1 else y, m, d).

(** [Day(t)], [TimeWithinDay(t)], [MakeDay], [MakeDate] of ECMA-262; the
    month of [MakeDay] counts from 0 and may overflow either way. *)
Definition Day (t : Z) : Z := t / msPerDay.
Definition TimeWithinDay (t : Z) : Z := t mod msPerDay.
Definition MakeDay (year month date : Z) : Z :=
  days_from_civil (year + month / 12) (month mod 12 + 1) 1 + date - 1.
Definition MakeDate (day time : Z) : Z := day * msPerDay + time.

Definition YearFromTime (t : Z) : Z := fst (fst (civil_from_days (Day t))).
Definition MonthFromTime (t : Z) : Z := snd (fst (civil_from_days (Day t))) - 1.
Definition DateFromTime (t : Z) : Z := snd (civil_from_days (Day t)).

(** *** Rendering *)

Definition digit (n : Z) : ascii :=
  ascii_of_nat (48 + Z.to_nat (n mod 10)).

Definition pad2 (n : Z) : string :=
  String (digit (n / 10)) (String (digit n) EmptyString).

Definition pad4 (n : Z) : string :=
  String (digit (n / 1000)) (String (digit (n / 100)) (pad2 n)).

(** [YYYY-MM-DD], the year padded to four digits: the date of
    [toISOString] for the years 0000 to 9999, the range of the date-only
    form. *)
Definition ymd (c : Z * Z * Z) : string :=
  let '(y, m, d) := c in
  (pad4 y ++ "-" ++ pad2 m ++ "-" ++ pad2 d)%string.

(** The decimal numeral of [n], not padded, for [0 <= n < 1000000] (the
    year of a JavaScript date has at most six digits): its leading digit,
    then the digits after it. *)
Definition leading_digit (n : Z) : ascii :=
  digit (if n <? 10 then n
         else if n <? 100 then n / 10
         else if n <? 1000 then n / 100
         else if n <? 10000 then n / 1000
         else if n <? 100000 then n / 10000
         else n / 100000).

Definition later_digits (n : Z) : string :=
  if n <? 10 then EmptyString
  else if n <? 100 then String (digit n) EmptyString
  else if n <? 1000 then pad2 n
  else if n <? 10000 then String (digit (n / 100)) (pad2 n)
  else if n <? 100000 then pad4 n
  else String (digit (n / 10000)) (pad4 n).

Definition numeral (n : Z) : string :=
  String (leading_digit n) (later_digits n).

(** A date as the locale [en-CA] prints it with a numeric year, month and
    day, pattern [y-MM-dd]: the year is not padded ([500-06-01]), and a year
    before 1 is printed as the year of its era, [1 - y] (ECMA-402,
    FormatDateTimePattern). *)
Definition enCA (c : Z * Z * Z) : string :=
  let '(y, m, d) := c in
  let year := if y <=? 0 then 1 - y else y in
  (numeral year ++ "-" ++ pad2 m ++ "-" ++ pad2 d)%string.

(** The offset of the zone [Asia/Kolkata] at the instant [t], in
    milliseconds east of UTC, after the tz database: local mean time
    (+05:53:28) until 1854, Howrah mean time (+05:53:20) until 1870, Madras
    time (+05:21:10) until 1906, then Indian Standard Time (+05:30), with
    +06:30 from 1941-10-01 to 1942-05-15 and from 1942-09-01 to
    1945-10-15. *)
Definition Kolkata_standard_since : Z := -764145000000. (* 1945-10-14T17:30Z *)

Definition Kolkata_offset (t : Z) : Z :=
  if t <? -3645237208000 then 21208000       (* before 1854-06-27T18:06:32Z *)
  else if t <? -3155694800000 then 21200000  (* before 1869-12-31T18:06:40Z *)
  else if t <? -2019705670000 then 19270000  (* before 1905-12-31T18:38:50Z *)
  else if t <? -891581400000 then 19800000   (* before 1941-09-30T18:30Z *)
  else if t <? -872058600000 then 23400000   (* before 1942-05-14T17:30Z *)
  else if t <? -862637400000 then 19800000   (* before 1942-08-31T18:30Z *)
  else if t <? Kolkata_standard_since then 23400000
  else 19800000.

(** *** The date-only form of [Date.parse]

    [YYYY-MM-DD] is read as midnight UTC.  V8 takes a month in 1..12 and a
    day in 1..31 and lets [MakeDay] carry a day past the end of the month. *)

Definition digit_val (c : ascii) : option Z :=
  let n := Z.of_nat (nat_of_ascii c) in
  if (48 <=? n) && (n <=? 57) then Some (n - 48) else None.

Definition num2 (a b : ascii) : option Z :=
  match digit_val a, digit_val b with
  | Some x, Some y => Some (10 * x + y)
  | _, _ => None
  end.

Definition num4 (a b c d : ascii) : option Z :=
  match num2 a b, num2 c d with
  | Some x, Some y => Some (100 * x + y)
  | _, _ => None
  end.

Definition parse_date_only (s : string) : option Z :=
  match s with
  | String y1 (String y2 (String y3 (String y4 (String "-"
      (String m1 (String m2 (String "-"
        (String d1 (String d2 EmptyString))))))))) =>
      match num4 y1 y2 y3 y4, num2 m1 m2, num2 d1 d2 with
      | Some y, Some m, Some d =>
          if (1 <=? m) && (m <=? 12) && (1 <=? d) && (d <=? 31)
          then Some (MakeDate (MakeDay y (m - 1) d) 0)
          else None
      | _, _, _ => None
      end
  | _ => None
  end.

Arguments days_from_civil : simpl never.
Arguments civil_from_days : simpl never.
Arguments ymd : simpl never.
Arguments enCA : simpl never.
Arguments Kolkata_offset : simpl never.
Arguments parse_date_only : simpl never.

End JSDate.

(** ** The runtime a request runs in *)

Record runtime : Type := {
  offset : Z;                          (* server time zone, minutes east of UTC *)
  clock : Z;                           (* [new Date()] *)
  Date_parse : string -> option Z      (* [new Date(s)]; [None] is Invalid Date *)
}.

Inductive result (A : Type) : Type :=
| Ok (a : A)
| Throw (message : string).
Arguments Ok {A} a.
Arguments Throw {A} message.

Section Dates.
Import JSDate.
Variable rt : runtime.

Definition LocalTime (t : Z) : Z := t + offset rt * msPerMinute.
Definition UTC (t : Z) : Z := t - offset rt * msPerMinute.

Definition getFullYear (t : Z) : Z := YearFromTime (LocalTime t).
Definition getMonth (t : Z) : Z := MonthFromTime (LocalTime t).

(** [new Date(year, month, date)]: midnight, server time; a year from 0 to
    99 counts from 1900. *)
Definition Date_of_fields (year month date : Z) : Z :=
  let yr := if (0 <=? year) && (year <=? 99) then 1900 + year else year in
  UTC (MakeDate (MakeDay yr month date) 0).

(** [d.setMonth(month)]: same day of month and time of day, server time. *)
Definition setMonth (t month : Z) : Z :=
  let lt := LocalTime t in
  UTC (MakeDate (MakeDay (YearFromTime lt) month (DateFromTime lt))
                (TimeWithinDay lt)).

(** [d.toISOString().split('T')[0]], for a date of the years 0000 to 9999
    (outside them [toISOString] prints a sign and six digits). *)
Definition toISODate (t : Z) : string := ymd (civil_from_days (Day t)).

(** [d.toLocaleDateString("en-CA", { timeZone: "Asia/Kolkata" })]: the
    calendar date of [d] in Kolkata, printed by [en-CA]. *)
Definition toLocaleDateString_enCA_Kolkata (t : Z) : string :=
  enCA (civil_from_days (Day (t + Kolkata_offset t))).

(** What [new Date(x)] is given by the routes: a string, [null] or
    [undefined]. *)
Inductive date_argument : Type :=
| date_string (s : string)
| date_null
| date_undefined.

(** [new Date(x)]: a string is parsed, [null] is the number 0, the epoch,
    and [undefined] gives Invalid Date. *)
Definition new_Date (x : date_argument) : option Z :=
  match x with
  | date_string s => Date_parse rt s
  | date_null => Some 0
  | date_undefined => None
  end.

(** A column of a request body as JavaScript reads it: a patch holds no
    [null], so a column is a string or [undefined]. *)
Definition body_field (x : option string) : date_argument :=
  match x with
  | Some s => date_string s
  | None => date_undefined
  end.

(** JavaScript truthiness of the values the routes test. *)
Definition truthy_string (x : option string) : bool :=
  match x with
  | Some s => negb (String.eqb s "")
  | None => false
  end.

Definition truthy_number (x : option Z) : bool :=
  match x with
  | Some n => negb (n =? 0)
  | None => false
  end.

Definition truthy_bool (x : option bool) : bool :=
  match x with
  | Some b => b
  | None => false
  end.

(** [x || 0] *)
Definition or_zero (x : option Z) : Z :=
  match x with
  | Some n => n
  | None => 0
  end.

(** [utils/dateUtil.js] *)
Definition getMonthStart (dateString : option string) : result string :=
  let baseDate :=
    if truthy_string dateString then new_Date (body_field dateString)
    else Some (clock rt) in
  match baseDate with
  | None => Throw "Invalid date format. Use YYYY-MM-DD."
  | Some baseDate =>
      let monthStart :=
        Date_of_fields (getFullYear baseDate) (getMonth baseDate) 1 in
      Ok (toLocaleDateString_enCA_Kolkata monthStart)
  end.

End Dates.

Arguments Date_of_fields : simpl never.
Arguments setMonth : simpl never.
Arguments toISODate : simpl never.
Arguments toLocaleDateString_enCA_Kolkata : simpl never.
Arguments getFullYear : simpl never.
Arguments getMonth : simpl never.
Arguments getMonthStart : simpl never.

(** ** Rows

    A row is a record of the columns the routes name.  A [patch] is a request
    body, or the [...updateFields] left of it: every column may be present, and
    [{ ...row, ...patch }] is [overlay patch row]. *)

Definition over {A : Type} (p : option A) (x : A) : A :=
  match p with
  | Some v => v
  | None => x
  end.

Definition over_null {A : Type} (p : option A) (x : option A) : option A :=
  match p with
  | Some v => Some v
  | None => x
  end.

Module Tenant.

Record t : Type := mk {
  tenant_id : Z;
  tenant_version : Z;
  status : string;
  start_date : string;
  end_date : option string;
  name : string;
  power_meter_count : option Z;
  rent_portion_count : option Z;
  water_required : option bool;
  maintenance_required : option bool
}.

Record patch : Type := mk_patch {
  p_tenant_id : option Z;
  p_tenant_version : option Z;
  p_status : option string;
  p_start_date : option string;
  p_end_date : option string;
  p_name : option string;
  p_power_meter_count : option Z;
  p_rent_portion_count : option Z;
  p_water_required : option bool;
  p_maintenance_required : option bool
}.

Definition no_fields : patch :=
  mk_patch None None None None None None None None None None.

Definition overlay (p : patch) (r : t) : t :=
  {| tenant_id := over (p_tenant_id p) (tenant_id r);
     tenant_version := over (p_tenant_version p) (tenant_version r);
     status := over (p_status p) (status r);
     start_date := over (p_start_date p) (start_date r);
     end_date := over_null (p_end_date p) (end_date r);
     name := over (p_name p) (name r);
     power_meter_count := over_null (p_power_meter_count p) (power_meter_count r);
     rent_portion_count := over_null (p_rent_portion_count p) (rent_portion_count r);
     water_required := over_null (p_water_required p) (water_required r);
     maintenance_required :=
       over_null (p_maintenance_required p) (maintenance_required r) |}.

(** The columns of an inserted row that the request leaves out. *)
Definition defaults : t := mk 0 0 "" "" None "" None None None None.

Definition set_tenant_id (v : Z) (r : t) : t :=
  mk v (tenant_version r) (status r) (start_date r) (end_date r) (name r)
     (power_meter_count r) (rent_portion_count r) (water_required r)
     (maintenance_required r).
Definition set_tenant_version (v : Z) (r : t) : t :=
  mk (tenant_id r) v (status r) (start_date r) (end_date r) (name r)
     (power_meter_count r) (rent_portion_count r) (water_required r)
     (maintenance_required r).
Definition set_status (v : string) (r : t) : t :=
  mk (tenant_id r) (tenant_version r) v (start_date r) (end_date r) (name r)
     (power_meter_count r) (rent_portion_count r) (water_required r)
     (maintenance_required r).
Definition set_start_date (v : string) (r : t) : t :=
  mk (tenant_id r) (tenant_version r) (status r) v (end_date r) (name r)
     (power_meter_count r) (rent_portion_count r) (water_required r)
     (maintenance_required r).
Definition set_end_date (v : option string) (r : t) : t :=
  mk (tenant_id r) (tenant_version r) (status r) (start_date r) v (name r)
     (power_meter_count r) (rent_portion_count r) (water_required r)
     (maintenance_required r).
Definition set_power_meter_count (v : Z) (r : t) : t :=
  mk (tenant_id r) (tenant_version r) (status r) (start_date r) (end_date r)
     (name r) (Some v) (rent_portion_count r) (water_required r)
     (maintenance_required r).
Definition set_rent_portion_count (v : Z) (r : t) : t :=
  mk (tenant_id r) (tenant_version r) (status r) (start_date r) (end_date r)
     (name r) (power_meter_count r) (Some v) (water_required r)
     (maintenance_required r).
Definition set_water_required (v : bool) (r : t) : t :=
  mk (tenant_id r) (tenant_version r) (status r) (start_date r) (end_date r)
     (name r) (power_meter_count r) (rent_portion_count r) (Some v)
     (maintenance_required r).
Definition set_maintenance_required (v : bool) (r : t) : t :=
  mk (tenant_id r) (tenant_version r) (status r) (start_date r) (end_date r)
     (name r) (power_meter_count r) (rent_portion_count r) (water_required r)
     (Some v).

End Tenant.

Module Meter.

Record t : Type := mk {
  meter_id : Z;
  tenant_id : Z;
  tenant_version : Z;
  status : string;
  start_date : string;
  end_date : option string;
  initial_reading : option Z
}.

Record patch : Type := mk_patch {
  p_meter_id : option Z;
  p_tenant_id : option Z;
  p_tenant_version : option Z;
  p_status : option string;
  p_start_date : option string;
  p_end_date : option string;
  p_initial_reading : option Z
}.

Definition no_fields : patch := mk_patch None None None None None None None.

Definition overlay (p : patch) (r : t) : t :=
  {| meter_id := over (p_meter_id p) (meter_id r);
     tenant_id := over (p_tenant_id p) (tenant_id r);
     tenant_version := over (p_tenant_version p) (tenant_version r);
     status := over (p_status p) (status r);
     start_date := over (p_start_date p) (start_date r);
     end_date := over_null (p_end_date p) (end_date r);
     initial_reading := over_null (p_initial_reading p) (initial_reading r) |}.

Definition set_meter_id (v : Z) (r : t) : t :=
  mk v (tenant_id r) (tenant_version r) (status r) (start_date r) (end_date r)
     (initial_reading r).
Definition set_status (v : string) (r : t) : t :=
  mk (meter_id r) (tenant_id r) (tenant_version r) v (start_date r)
     (end_date r) (initial_reading r).
Definition set_start_date (v : string) (r : t) : t :=
  mk (meter_id r) (tenant_id r) (tenant_version r) (status r) v (end_date r)
     (initial_reading r).
Definition set_end_date (v : option string) (r : t) : t :=
  mk (meter_id r) (tenant_id r) (tenant_version r) (status r) (start_date r)
     v (initial_reading r).

(** [{ ...p, start_date: v }] *)
Definition with_start_date (v : string) (p : patch) : patch :=
  mk_patch (p_meter_id p) (p_tenant_id p) (p_tenant_version p) (p_status p)
           (Some v) (p_end_date p) (p_initial_reading p).

(** [const { tenant_id, start_date, initial_reading, ...rest } = req.body] *)
Definition rest (p : patch) : patch :=
  mk_patch (p_meter_id p) None (p_tenant_version p) (p_status p) None
           (p_end_date p) None.

End Meter.

(** Rows of [rent_history], [water_history] and [maintenance_history]; [id]
    is the table's key ([rent_id], [water_id], [maintenance_id]). *)
Module History.

Record t : Type := mk {
  id : Z;
  tenant_id : Z;
  tenant_version : Z;
  status : string;
  start_date : string;
  end_date : option string
}.

Record patch : Type := mk_patch {
  p_id : option Z;
  p_tenant_id : option Z;
  p_tenant_version : option Z;
  p_status : option string;
  p_start_date : option string;
  p_end_date : option string
}.

Definition no_fields : patch := mk_patch None None None None None None.

Definition overlay (p : patch) (r : t) : t :=
  {| id := over (p_id p) (id r);
     tenant_id := over (p_tenant_id p) (tenant_id r);
     tenant_version := over (p_tenant_version p) (tenant_version r);
     status := over (p_status p) (status r);
     start_date := over (p_start_date p) (start_date r);
     end_date := over_null (p_end_date p) (end_date r) |}.

Definition set_id (v : Z) (r : t) : t :=
  mk v (tenant_id r) (tenant_version r) (status r) (start_date r) (end_date r).
Definition set_status (v : string) (r : t) : t :=
  mk (id r) (tenant_id r) (tenant_version r) v (start_date r) (end_date r).
Definition set_start_date (v : string) (r : t) : t :=
  mk (id r) (tenant_id r) (tenant_version r) (status r) v (end_date r).
Definition set_end_date (v : option string) (r : t) : t :=
  mk (id r) (tenant_id r) (tenant_version r) (status r) (start_date r) v.

(** [{ ...p, start_date: v }] *)
Definition with_start_date (v : string) (p : patch) : patch :=
  mk_patch (p_id p) (p_tenant_id p) (p_tenant_version p) (p_status p)
           (Some v) (p_end_date p).

(** [const { tenant_id, start_date, ...rest } = req.body] *)
Definition rest (p : patch) : patch :=
  mk_patch (p_id p) None (p_tenant_version p) (p_status p) None (p_end_date p).

End History.

Module Reading.

Record t : Type := mk {
  reading_id : Z;
  tenant_id : Z;
  tenant_version : Z;
  meter_id : Z;
  month : string;
  previous_reading : option Z;
  current_reading : option Z;
  rate_per_unit : option Z
}.

Record patch : Type := mk_patch {
  p_reading_id : option Z;
  p_tenant_id : option Z;
  p_tenant_version : option Z;
  p_meter_id : option Z;
  p_month : option string;
  p_previous_reading : option Z;
  p_current_reading : option Z;
  p_rate_per_unit : option Z
}.

Definition overlay (p : patch) (r : t) : t :=
  {| reading_id := over (p_reading_id p) (reading_id r);
     tenant_id := over (p_tenant_id p) (tenant_id r);
     tenant_version := over (p_tenant_version p) (tenant_version r);
     meter_id := over (p_meter_id p) (meter_id r);
     month := over (p_month p) (month r);
     previous_reading := over_null (p_previous_reading p) (previous_reading r);
     current_reading := over_null (p_current_reading p) (current_reading r);
     rate_per_unit := over_null (p_rate_per_unit p) (rate_per_unit r) |}.

Definition set_reading_id (v : Z) (r : t) : t :=
  mk v (tenant_id r) (tenant_version r) (meter_id r) (month r)
     (previous_reading r) (current_reading r) (rate_per_unit r).

(** [.update({ month, previous_reading, current_reading })] of the meter
    route. *)
Definition rebase (m : string) (reading : option Z) (r : t) : t :=
  mk (reading_id r) (tenant_id r) (tenant_version r) (meter_id r) m
     reading reading (rate_per_unit r).

End Reading.

(** ** The store *)

Record db : Type := mk_db {
  tenants : list Tenant.t;
  power_meters : list Meter.t;
  monthly_readings : list Reading.t;
  rent_history : list History.t;
  water_history : list History.t;
  maintenance_history : list History.t;
  serial : Z                     (* next key the store hands out *)
}.

(** [supabase.from(...)]: a table of the store, and how a row gets its key. *)
Record table (A : Type) : Type := mk_table {
  rows : db -> list A;
  with_rows : list A -> db -> db;
  with_key : Z -> A -> A
}.
Arguments rows {A} _ _.
Arguments with_rows {A} _ _ _.
Arguments with_key {A} _ _ _.

Definition from_tenants : table Tenant.t :=
  mk_table _ tenants
    (fun l s => mk_db l (power_meters s) (monthly_readings s) (rent_history s)
                      (water_history s) (maintenance_history s) (serial s))
    Tenant.set_tenant_id.

Definition from_power_meters : table Meter.t :=
  mk_table _ power_meters
    (fun l s => mk_db (tenants s) l (monthly_readings s) (rent_history s)
                      (water_history s) (maintenance_history s) (serial s))
    Meter.set_meter_id.

Definition from_monthly_readings : table Reading.t :=
  mk_table _ monthly_readings
    (fun l s => mk_db (tenants s) (power_meters s) l (rent_history s)
                      (water_history s) (maintenance_history s) (serial s))
    Reading.set_reading_id.

Definition from_rent_history : table History.t :=
  mk_table _ rent_history
    (fun l s => mk_db (tenants s) (power_meters s) (monthly_readings s) l
                      (water_history s) (maintenance_history s) (serial s))
    History.set_id.

Definition from_water_history : table History.t :=
  mk_table _ water_history
    (fun l s => mk_db (tenants s) (power_meters s) (monthly_readings s)
                      (rent_history s) l (maintenance_history s) (serial s))
    History.set_id.

Definition from_maintenance_history : table History.t :=
  mk_table _ maintenance_history
    (fun l s => mk_db (tenants s) (power_meters s) (monthly_readings s)
                      (rent_history s) (water_history s) l (serial s))
    History.set_id.

Definition next_serial (s : db) : db :=
  mk_db (tenants s) (power_meters s) (monthly_readings s) (rent_history s)
        (water_history s) (maintenance_history s) (serial s + 1).

(** ** Responses and routes *)

Inductive update_type : Type := type_inPlace | type_versioned.

(** What a route sends: [res.status(status).json({ error })], or the JSON
    object of its success branch, or an exception nobody catches. *)
Inductive response : Type :=
| Error (status : Z) (error : string)
| Unhandled (message : string)
| Json_tenant (tenant : Tenant.t)
| Json_tenant_update (type : update_type) (tenant : option Tenant.t)
| Json_tenant_delete (tenant : option Tenant.t)
| Json_meter_create (meter : Meter.t) (tenant : Tenant.t)
                    (initialMonthlyReading : Reading.t)
| Json_meter_update (type : update_type) (meter : option Meter.t)
| Json_meter_rebase (meter : Meter.t) (monthly_reading : option Reading.t)
| Json_meter_delete (updatedMeter : option Meter.t) (tenant : Tenant.t)
| Json_history_create (history : History.t) (tenant : Tenant.t)
| Json_history_update (type : update_type) (history : option History.t)
| Json_history_delete (history : option History.t) (tenant : Tenant.t)
| Json_reading (reading : Reading.t)
| Json_reading_update (reading : option Reading.t)
| Json_success.

Inductive step (A : Type) : Type :=
| Next (a : A)
| Sent (r : response).
Arguments Next {A} a.
Arguments Sent {A} r.

(** A route threads the store and stops at the first [return res...]. *)
Definition route (A : Type) : Type := db -> step A * db.

Definition pure {A : Type} (a : A) : route A := fun s => (Next a, s).

Definition bind {A B : Type} (m : route A) (k : A -> route B) : route B :=
  fun s =>
    match m s with
    | (Next a, s') => k a s'
    | (Sent r, s') => (Sent r, s')
    end.

Definition send {A : Type} (r : response) : route A := fun s => (Sent r, s).

Notation "x <- m ;; k" := (bind m (fun x => k))
  (at level 61, m at next level, right associativity).
Notation "m ;;; k" := (bind m (fun _ => k))
  (at level 61, right associativity).

Definition respond (h : route response) (s : db) : response * db :=
  match h s with
  | (Next r, s') => (r, s')
  | (Sent r, s') => (r, s')
  end.

(** [try { x = f() } catch (err) { return res.status(400).json(...) }] *)
Definition attempt {A : Type} (r : result A) : route A :=
  match r with
  | Ok a => pure a
  | Throw m => send (Error 400 m)
  end.

(** A call outside any [try]. *)
Definition must {A : Type} (r : result A) : route A :=
  match r with
  | Ok a => pure a
  | Throw m => send (Unhandled m)
  end.

(** [if (error || !data) return res.status(404).json({ error })] *)
Definition found {A : Type} (data : option A) (error : string) : route A :=
  match data with
  | Some a => pure a
  | None => send (Error 404 error)
  end.

(** *** Queries *)

Definition select {A : Type} (T : table A) (p : A -> bool) : route (list A) :=
  fun s => (Next (filter p (rows T s)), s).

(** [.update(f).eq(...)...select()]: the rows written, in table order. *)
Definition update {A : Type} (T : table A) (f : A -> A) (p : A -> bool)
  : route (list A) :=
  fun s =>
    (Next (map f (filter p (rows T s))),
     with_rows T (map (fun r => if p r then f r else r) (rows T s)) s).

(** [.insert([row]).select()]: [data[0]].  A row without a key gets the
    store's next one. *)
Definition insert {A : Type} (T : table A) (key : option Z) (row : A)
  : route A :=
  fun s =>
    match key with
    | Some k =>
        let row' := with_key T k row in
        (Next row', with_rows T (rows T s ++ [row']) s)
    | None =>
        let row' := with_key T (serial s) row in
        (Next row', with_rows T (rows T s ++ [row']) (next_serial s))
    end.

Definition delete {A : Type} (T : table A) (p : A -> bool) : route unit :=
  fun s => (Next tt, with_rows T (filter (fun r => negb (p r)) (rows T s)) s).

(** [.single()] *)
Definition single {A : Type} (l : list A) : option A :=
  match l with
  | [x] => Some x
  | _ => None
  end.

(** [.order('tenant_version', { ascending: false }).limit(1).single()] *)
Fixpoint latest (l : list Tenant.t) : option Tenant.t :=
  match l with
  | [] => None
  | t :: l' =>
      match latest l' with
      | Some u =>
          if Tenant.tenant_version t <? Tenant.tenant_version u
          then Some u else Some t
      | None => Some t
      end
  end.

Definition is_active (status : string) : bool := String.eqb status "active".

Definition active_tenant (tenant_id : Z) (t : Tenant.t) : bool :=
  (Tenant.tenant_id t =? tenant_id) && is_active (Tenant.status t).

Definition this_version (tenant_id tenant_version : Z) (t : Tenant.t) : bool :=
  (Tenant.tenant_id t =? tenant_id)
  && (Tenant.tenant_version t =? tenant_version)
  && is_active (Tenant.status t).

(** [.update({ status: 'inactive', end_date })] *)
Definition retire_tenant (end_date : string) (t : Tenant.t) : Tenant.t :=
  Tenant.set_end_date (Some end_date) (Tenant.set_status "inactive" t).
Definition retire_meter (end_date : string) (m : Meter.t) : Meter.t :=
  Meter.set_end_date (Some end_date) (Meter.set_status "inactive" m).
Definition retire_history (end_date : string) (h : History.t) : History.t :=
  History.set_end_date (Some end_date) (History.set_status "inactive" h).

(** A filter on a body field that is absent matches no row: the lookup
    answers [404]. *)
Definition param (x : option Z) (error : string) : route Z :=
  match x with
  | Some v => pure v
  | None => send (Error 404 error)
  end.

Section Routes.
Variable rt : runtime.

(** ** routes/tenants.js *)

(** [POST /tenants] *)
Definition post_tenants (body : Tenant.patch) : route response :=
  startDate <- attempt (getMonthStart rt (Tenant.p_start_date body)) ;;
  data <- insert from_tenants (Tenant.p_tenant_id body)
            (Tenant.set_start_date startDate
              (Tenant.set_tenant_version 1
                (Tenant.set_status "active"
                  (Tenant.overlay body Tenant.defaults)))) ;;
  send (Json_tenant data).

Definition currentTenant (id : Z) : route Tenant.t :=
  data <- select from_tenants (active_tenant id) ;;
  found (latest data) "Active tenant not found".

(** [GET /tenants/:id] *)
Definition get_tenant (id : Z) : route response :=
  data <- currentTenant id ;;
  send (Json_tenant data).

(** [PUT /tenants/:id] *)
Definition put_tenant (id : Z) (inPlace : bool) (updateFields : Tenant.patch)
  : route response :=
  currentTenant <- currentTenant id ;;
  currentMonthDate <- must (getMonthStart rt None) ;;
  if inPlace then
    newStartDate <-
      (if truthy_string (Tenant.p_start_date updateFields)
       then d <- attempt (getMonthStart rt (Tenant.p_start_date updateFields)) ;;
            pure (Some d)
       else pure None) ;;
    data <- update from_tenants
              (fun r => Tenant.set_start_date
                          (over newStartDate
                             (Tenant.start_date (Tenant.overlay updateFields r)))
                          (Tenant.overlay updateFields r))
              (this_version id (Tenant.tenant_version currentTenant)) ;;
    send (Json_tenant_update type_inPlace (hd_error data))
  else
    update from_tenants (retire_tenant currentMonthDate)
           (this_version id (Tenant.tenant_version currentTenant)) ;;;
    newStartDate <-
      attempt (if truthy_string (Tenant.p_start_date updateFields)
               then getMonthStart rt (Tenant.p_start_date updateFields)
               else Ok currentMonthDate) ;;
    let newTenant :=
      Tenant.set_end_date None
        (Tenant.set_start_date newStartDate
          (Tenant.set_status "active"
            (Tenant.set_tenant_version (Tenant.tenant_version currentTenant + 1)
              (Tenant.overlay updateFields currentTenant)))) in
    data <- insert from_tenants (Some (Tenant.tenant_id newTenant)) newTenant ;;
    send (Json_tenant_update type_versioned (Some data)).

(** [DELETE /tenants/:id] *)
Definition delete_tenant (id : Z) : route response :=
  currentTenant <- currentTenant id ;;
  currentMonthDate <- must (getMonthStart rt None) ;;
  data <- update from_tenants (retire_tenant currentMonthDate)
            (this_version id (Tenant.tenant_version currentTenant)) ;;
  send (Json_tenant_delete (hd_error data)).

(** ** The tenant lookup and version bump of the dependent routes *)

Definition activeTenant (tenant_id : Z) : route Tenant.t :=
  data <- select from_tenants (active_tenant tenant_id) ;;
  found (single data) "Active tenant not found".

(** [{ ...tenantWithoutVersion, tenant_id, tenant_version: tenant_version + 1 }] *)
Definition next_version (tenant_id : Z) (tenant : Tenant.t) : Tenant.t :=
  Tenant.set_tenant_version (Tenant.tenant_version tenant + 1)
    (Tenant.set_tenant_id tenant_id tenant).

(** ** routes/powerMeters.js *)

Definition activeMeter (id : Z) : route Meter.t :=
  data <- select from_power_meters
            (fun m => (Meter.meter_id m =? id) && is_active (Meter.status m)) ;;
  found (single data) "Active meter not found".

(** [prevMonth.setMonth(prevMonth.getMonth() - 1)], then
    [prevMonth.toISOString().split('T')[0]]. *)
Definition monthBefore (t : Z) : string :=
  toISODate (setMonth rt t (getMonth rt t - 1)).
Arguments monthBefore : simpl never.

(** [POST /power-meters] *)
Definition post_power_meters (body : Meter.patch) : route response :=
  currentMonthDate <- must (getMonthStart rt None) ;;
  startDate <- attempt (getMonthStart rt (Meter.p_start_date body)) ;;
  let start_date := Meter.p_start_date body in
  let initial_reading := Meter.p_initial_reading body in
  let meterFields := Meter.rest body in
  tenant_id <- param (Meter.p_tenant_id body) "Active tenant not found" ;;
  tenant <- activeTenant tenant_id ;;
  update from_tenants (retire_tenant currentMonthDate)
         (active_tenant tenant_id) ;;;
  let newTenant :=
    Tenant.set_status "active"
      (Tenant.set_power_meter_count
         (or_zero (Tenant.power_meter_count tenant) + 1)
         (Tenant.set_start_date currentMonthDate
            (next_version tenant_id tenant))) in
  newTenantRow <- insert from_tenants (Some (Tenant.tenant_id newTenant))
                    newTenant ;;
  newMeter <- insert from_power_meters (Meter.p_meter_id meterFields)
                (Meter.set_status "active"
                   (Meter.overlay meterFields
                      (Meter.mk 0 tenant_id (Tenant.tenant_version newTenantRow)
                                "" startDate None initial_reading))) ;;
  match new_Date rt (body_field start_date) with
  | None => send (Error 400 "Invalid month format. Use YYYY-MM-DD.")
  | Some inputMonth =>
      reading <- insert from_monthly_readings None
                   (Reading.mk 0 tenant_id (Tenant.tenant_version newTenantRow)
                      (Meter.meter_id newMeter) (monthBefore inputMonth)
                      initial_reading initial_reading None) ;;
      send (Json_meter_create newMeter newTenantRow reading)
  end.

(** [PUT /power-meters/:id] *)
Definition put_power_meter (id : Z) (inPlace : bool) (updateFields : Meter.patch)
  : route response :=
  currentMonthDate <- must (getMonthStart rt None) ;;
  currentMeter <- activeMeter id ;;
  if truthy_string (Meter.p_start_date updateFields) && negb inPlace then
    send (Error 400 "start_date update is only allowed for inPlace updates, not versioned updates")
  else if inPlace then
    if (truthy_string (Meter.p_start_date updateFields)
        && negb (String.eqb (over (Meter.p_start_date updateFields) "")
                            (Meter.start_date currentMeter)))
       || (truthy_number (Meter.p_initial_reading updateFields)
           && negb (match Meter.initial_reading currentMeter with
                    | Some v => or_zero (Meter.p_initial_reading updateFields) =? v
                    | None => false
                    end))
    then
      updateFields <-
        (if truthy_string (Meter.p_start_date updateFields)
         then d <- attempt (getMonthStart rt (Meter.p_start_date updateFields)) ;;
              pure (Meter.with_start_date d updateFields)
         else pure updateFields) ;;
      readings <- select from_monthly_readings
                    (fun r => Reading.meter_id r =? id) ;;
      if negb (Z.of_nat (List.length readings) =? 1) then
        send (Error 400 "start_date update only allowed when exactly 1 monthly_readings record exists for this meter")
      else
        updatedMeter <- update from_power_meters (Meter.overlay updateFields)
                          (fun m => Meter.meter_id m =? id) ;;
        match updatedMeter with
        | [] => send (Unhandled "Cannot read properties of undefined")
        | updatedMeter0 :: _ =>
            match new_Date rt (date_string (Meter.start_date updatedMeter0)) with
            | None =>
                send (Error 400 "Invalid start_date format. Use YYYY-MM-DD.")
            | Some newStart =>
                updatedReading <-
                  update from_monthly_readings
                    (Reading.rebase (monthBefore newStart)
                                    (Meter.initial_reading updatedMeter0))
                    (fun r => Reading.meter_id r =? id) ;;
                send (Json_meter_rebase updatedMeter0 (hd_error updatedReading))
            end
        end
    else
      data <- update from_power_meters (Meter.overlay updateFields)
                (fun m => (Meter.meter_id m =? id) && is_active (Meter.status m)) ;;
      send (Json_meter_update type_inPlace (hd_error data))
  else
    update from_power_meters (retire_meter currentMonthDate)
           (fun m => Meter.meter_id m =? id) ;;;
    let newMeter :=
      Meter.set_status "active"
        (Meter.set_start_date currentMonthDate
           (Meter.overlay updateFields currentMeter)) in
    data <- insert from_power_meters (Meter.p_meter_id updateFields) newMeter ;;
    send (Json_meter_update type_versioned (Some data)).

(** [DELETE /power-meters/:id] *)
Definition delete_power_meter (id : Z) : route response :=
  currentMonthDate <- must (getMonthStart rt None) ;;
  meter <- activeMeter id ;;
  update from_power_meters (retire_meter currentMonthDate)
         (fun m => Meter.meter_id m =? id) ;;;
  tenant <- activeTenant (Meter.tenant_id meter) ;;
  update from_tenants (retire_tenant currentMonthDate)
         (active_tenant (Tenant.tenant_id tenant)) ;;;
  updatedMeter <- select from_power_meters (fun m => Meter.meter_id m =? id) ;;
  let newTenant :=
    Tenant.set_status "active"
      (Tenant.set_start_date currentMonthDate
         (Tenant.set_power_meter_count
            (Z.max (or_zero (Tenant.power_meter_count tenant) - 1) 0)
            (next_version (Tenant.tenant_id tenant) tenant))) in
  newTenantRow <- insert from_tenants (Some (Tenant.tenant_id newTenant))
                    newTenant ;;
  send (Json_meter_delete (single updatedMeter) newTenantRow).

(** ** routes/rentHistory.js *)

Definition activeHistory (T : table History.t) (id : Z) (error : string)
  : route History.t :=
  data <- select T (fun h => (History.id h =? id) && is_active (History.status h)) ;;
  found (single data) error.

(** [POST /rent-history] *)
Definition post_rent_history (body : History.patch) : route response :=
  let start_date := History.p_start_date body in
  let rentFields := History.rest body in
  currentMonthDate <- must (getMonthStart rt None) ;;
  normalizedStart <- attempt (getMonthStart rt start_date) ;;
  tenant_id <- param (History.p_tenant_id body) "Active tenant not found" ;;
  tenant <- activeTenant tenant_id ;;
  update from_tenants (retire_tenant currentMonthDate)
         (active_tenant tenant_id) ;;;
  let newTenant :=
    Tenant.set_status "active"
      (Tenant.set_end_date None
         (Tenant.set_start_date currentMonthDate
            (Tenant.set_rent_portion_count
               (or_zero (Tenant.rent_portion_count tenant) + 1)
               (next_version tenant_id tenant)))) in
  newTenantRow <- insert from_tenants (Some (Tenant.tenant_id newTenant))
                    newTenant ;;
  rentHistory <- insert from_rent_history (History.p_id rentFields)
                   (History.set_status "active"
                      (History.overlay rentFields
                         (History.mk 0 tenant_id
                            (Tenant.tenant_version newTenantRow) ""
                            normalizedStart None))) ;;
  send (Json_history_create rentHistory newTenantRow).

(** [PUT /rent-history/:id] *)
Definition put_rent_history (id : Z) (inPlace : bool)
  (updateFields : History.patch) : route response :=
  currentMonthDate <- must (getMonthStart rt None) ;;
  currentRent <- activeHistory from_rent_history id
                   "Active rent history not found" ;;
  if inPlace then
    updateFields <-
      (if truthy_string (History.p_start_date updateFields)
       then d <- attempt (getMonthStart rt (History.p_start_date updateFields)) ;;
            pure (History.with_start_date d updateFields)
       else pure updateFields) ;;
    data <- update from_rent_history (History.overlay updateFields)
              (fun h => (History.id h =? id) && is_active (History.status h)) ;;
    send (Json_history_update type_inPlace (hd_error data))
  else
    update from_rent_history (retire_history currentMonthDate)
           (fun h => History.id h =? id) ;;;
    let newRent :=
      History.set_status "active"
        (History.set_end_date None
           (History.set_start_date currentMonthDate
              (History.overlay updateFields currentRent))) in
    data <- insert from_rent_history (History.p_id updateFields) newRent ;;
    send (Json_history_update type_versioned (Some data)).

(** [DELETE /rent-history/:id] *)
Definition delete_rent_history (id : Z) : route response :=
  currentMonthDate <- must (getMonthStart rt None) ;;
  rent <- activeHistory from_rent_history id "Active rent history not found" ;;
  update from_rent_history (retire_history currentMonthDate)
         (fun h => History.id h =? id) ;;;
  tenant <- activeTenant (History.tenant_id rent) ;;
  update from_tenants (retire_tenant currentMonthDate)
         (active_tenant (Tenant.tenant_id tenant)) ;;;
  let newTenant :=
    Tenant.set_status "active"
      (Tenant.set_end_date None
         (Tenant.set_start_date currentMonthDate
            (Tenant.set_rent_portion_count
               (Z.max (or_zero (Tenant.rent_portion_count tenant) - 1) 0)
               (next_version (Tenant.tenant_id tenant) tenant)))) in
  newTenantRow <- insert from_tenants (Some (Tenant.tenant_id newTenant))
                    newTenant ;;
  updatedRent <- select from_rent_history (fun h => History.id h =? id) ;;
  send (Json_history_delete (single updatedRent) newTenantRow).

(** ** routes/waterHistory.js and routes/maintenanceHistory.js

    The two files are the same text up to the words water and maintenance:
    one definition per route, indexed by the flag. *)

Inductive flag : Type := water | maintenance.

Definition from_history (f : flag) : table History.t :=
  match f with
  | water => from_water_history
  | maintenance => from_maintenance_history
  end.

Definition required (f : flag) (tenant : Tenant.t) : option bool :=
  match f with
  | water => Tenant.water_required tenant
  | maintenance => Tenant.maintenance_required tenant
  end.

Definition set_required (f : flag) (v : bool) (tenant : Tenant.t) : Tenant.t :=
  match f with
  | water => Tenant.set_water_required v tenant
  | maintenance => Tenant.set_maintenance_required v tenant
  end.

Definition already_exists (f : flag) : string :=
  match f with
  | water => "Water history already exists for this tenant"
  | maintenance => "Maintenance history already exists for this tenant"
  end.

Definition none_exists (f : flag) : string :=
  match f with
  | water => "No water history exists for this tenant"
  | maintenance => "No maintenance history exists for this tenant"
  end.

Definition not_found (f : flag) : string :=
  match f with
  | water => "Active water history not found"
  | maintenance => "Active maintenance history not found"
  end.

(** [POST /water-history], [POST /maintenance-history] *)
Definition post_history (f : flag) (body : History.patch) : route response :=
  let start_date := History.p_start_date body in
  let fields := History.rest body in
  currentMonthDate <- must (getMonthStart rt None) ;;
  normalizedStart <- attempt (getMonthStart rt start_date) ;;
  tenant_id <- param (History.p_tenant_id body) "Active tenant not found" ;;
  tenant <- activeTenant tenant_id ;;
  if truthy_bool (required f tenant) then
    send (Error 400 (already_exists f))
  else
    update from_tenants (retire_tenant currentMonthDate)
           (active_tenant tenant_id) ;;;
    let newTenant :=
      Tenant.set_status "active"
        (Tenant.set_end_date None
           (Tenant.set_start_date currentMonthDate
              (set_required f true (next_version tenant_id tenant)))) in
    newTenantRow <- insert from_tenants (Some (Tenant.tenant_id newTenant))
                      newTenant ;;
    history <- insert (from_history f) (History.p_id fields)
                 (History.set_status "active"
                    (History.overlay fields
                       (History.mk 0 tenant_id
                          (Tenant.tenant_version newTenantRow) ""
                          normalizedStart None))) ;;
    send (Json_history_create history newTenantRow).

(** [PUT /water-history/:id], [PUT /maintenance-history/:id] *)
Definition put_history (f : flag) (id : Z) (inPlace : bool)
  (updateFields : History.patch) : route response :=
  current <- activeHistory (from_history f) id (not_found f) ;;
  updateFields <-
    (if truthy_string (History.p_start_date updateFields)
     then d <- attempt (getMonthStart rt (History.p_start_date updateFields)) ;;
          pure (History.with_start_date d updateFields)
     else pure updateFields) ;;
  if inPlace then
    data <- update (from_history f) (History.overlay updateFields)
              (fun h => (History.id h =? id) && is_active (History.status h)) ;;
    send (Json_history_update type_inPlace (hd_error data))
  else
    end_date <- must (getMonthStart rt None) ;;
    update (from_history f) (retire_history end_date)
           (fun h => History.id h =? id) ;;;
    let newRow :=
      History.set_status "active"
        (History.set_end_date None (History.overlay updateFields current)) in
    data <- insert (from_history f) (History.p_id updateFields) newRow ;;
    send (Json_history_update type_versioned (Some data)).

(** [DELETE /water-history/:id], [DELETE /maintenance-history/:id] *)
Definition delete_history (f : flag) (id : Z) : route response :=
  currentMonthDate <- must (getMonthStart rt None) ;;
  history <- activeHistory (from_history f) id (not_found f) ;;
  tenant <- activeTenant (History.tenant_id history) ;;
  if negb (truthy_bool (required f tenant)) then
    send (Error 400 (none_exists f))
  else
    update (from_history f) (retire_history currentMonthDate)
           (fun h => History.id h =? id) ;;;
    update from_tenants (retire_tenant currentMonthDate)
           (active_tenant (Tenant.tenant_id tenant)) ;;;
    let newTenant :=
      Tenant.set_status "active"
        (Tenant.set_end_date None
           (Tenant.set_start_date currentMonthDate
              (set_required f false
                 (next_version (Tenant.tenant_id tenant) tenant)))) in
    newTenantRow <- insert from_tenants (Some (Tenant.tenant_id newTenant))
                      newTenant ;;
    updated <- select (from_history f) (fun h => History.id h =? id) ;;
    send (Json_history_delete (single updated) newTenantRow).

(** ** routes/monthlyReading.js *)

(** [POST /monthly-reading] *)
Definition post_monthly_reading (body : Reading.patch) : route response :=
  let month := Reading.p_month body in
  let current_reading := Reading.p_current_reading body in
  let rate_per_unit := Reading.p_rate_per_unit body in
  tenant_id <- param (Reading.p_tenant_id body) "Active tenant not found" ;;
  tenant <- activeTenant tenant_id ;;
  meter_id <- param (Reading.p_meter_id body) "Active meter not found" ;;
  meter <- activeMeter meter_id ;;
  match new_Date rt (body_field month) with
  | None => send (Error 400 "Invalid month format. Use YYYY-MM-DD.")
  | Some inputMonth =>
      let prevMonth :=
        Date_of_fields rt (getFullYear rt inputMonth)
                       (getMonth rt inputMonth - 1) 1 in
      let prevMonthStr := toISODate prevMonth in
      last <- select from_monthly_readings
                (fun r => (Reading.meter_id r =? meter_id)
                          && String.eqb (Reading.month r) prevMonthStr) ;;
      match single last with
      | None =>
          send (Error 400 ("Previous month (" ++ prevMonthStr
                           ++ ") reading not found. Please enter that first."))
      | Some lastReading =>
          let previous_reading := Reading.current_reading lastReading in
          data <- insert from_monthly_readings None
                    (Reading.mk 0 tenant_id (Tenant.tenant_version tenant)
                       meter_id (over month "") previous_reading
                       current_reading rate_per_unit) ;;
          send (Json_reading data)
      end
  end.

(** [PUT /monthly-reading/:id] *)
Definition put_monthly_reading (id : Z) (updateFields : Reading.patch)
  : route response :=
  current <- select from_monthly_readings (fun r => Reading.reading_id r =? id) ;;
  found (single current) "Monthly reading not found" ;;;
  data <- update from_monthly_readings (Reading.overlay updateFields)
            (fun r => Reading.reading_id r =? id) ;;
  send (Json_reading_update (hd_error data)).

(** [DELETE /monthly-reading/:id] *)
Definition delete_monthly_reading (id : Z) : route response :=
  delete from_monthly_readings (fun r => Reading.reading_id r =? id) ;;;
  send Json_success.

End Routes.

(** ** routes/generalSetup.js

    The general setup has a table and a router of its own.  [settings]
    stands for the columns the routes never name: they travel with the row
    and with [...req.body]. *)

Module Setup.

Record t : Type := mk {
  entry_id : Z;
  status : string;
  start_date : string;
  end_date : option string;
  settings : option string
}.

Record patch : Type := mk_patch {
  p_entry_id : option Z;
  p_status : option string;
  p_start_date : option string;
  p_end_date : option string;
  p_settings : option string
}.

Definition no_fields : patch := mk_patch None None None None None.

Definition overlay (p : patch) (r : t) : t :=
  {| entry_id := over (p_entry_id p) (entry_id r);
     status := over (p_status p) (status r);
     start_date := over (p_start_date p) (start_date r);
     end_date := over_null (p_end_date p) (end_date r);
     settings := over_null (p_settings p) (settings r) |}.

Definition defaults : t := mk 0 "" "" None None.

Definition set_entry_id (v : Z) (r : t) : t :=
  mk v (status r) (start_date r) (end_date r) (settings r).
Definition set_status (v : string) (r : t) : t :=
  mk (entry_id r) v (start_date r) (end_date r) (settings r).
Definition set_start_date (v : string) (r : t) : t :=
  mk (entry_id r) (status r) v (end_date r) (settings r).
Definition set_end_date (v : option string) (r : t) : t :=
  mk (entry_id r) (status r) (start_date r) v (settings r).

(** [{ ...p, start_date: v }] *)
Definition with_start_date (v : string) (p : patch) : patch :=
  mk_patch (p_entry_id p) (p_status p) (Some v) (p_end_date p) (p_settings p).

(** [.update({ status: 'inactive', end_date })] *)
Definition retire (end_date : string) (r : t) : t :=
  set_end_date (Some end_date) (set_status "inactive" r).

(** The store: the rows of [general_setup] and the next [entry_id]. *)
Record store : Type := mk_store {
  general_setup : list t;
  next_entry_id : Z
}.

Inductive response : Type :=
| Error (status : Z) (error : string)
| Unhandled (message : string)
| Json (setup : t)
| Json_update (type : update_type) (general_setup : option t)
| Json_delete (general_setup : t).

(** [.insert([row]).select()] *)
Definition insert (key : option Z) (row : t) (s : store) : t * store :=
  match key with
  | Some k =>
      let row' := set_entry_id k row in
      (row', mk_store (general_setup s ++ [row']) (next_entry_id s))
  | None =>
      let row' := set_entry_id (next_entry_id s) row in
      (row', mk_store (general_setup s ++ [row']) (next_entry_id s + 1))
  end.

(** [.update(f).eq(...)...select()] *)
Definition update (f : t -> t) (p : t -> bool) (s : store) : list t * store :=
  (map f (filter p (general_setup s)),
   mk_store (map (fun r => if p r then f r else r) (general_setup s))
            (next_entry_id s)).

(** [if (!includeInactive || includeInactive === 'false')
      query = query.eq('status', 'active')] *)
Definition listed (includeInactive : option string) (r : t) : bool :=
  if negb (truthy_string includeInactive)
     || String.eqb (over includeInactive "") "false"
  then is_active (status r) else true.

Section Routes.
Variable rt : runtime.

(** [POST /general-setup] *)
Definition post (body : patch) (s : store) : response * store :=
  match getMonthStart rt (p_start_date body) with
  | Throw message => (Error 400 message, s)
  | Ok normalizedStart =>
      let newSetup :=
        set_status "active"
          (set_end_date None
             (set_start_date normalizedStart (overlay body defaults))) in
      let (data, s') := insert (p_entry_id body) newSetup s in
      (Json data, s')
  end.

(** [GET /general-setup/:id] *)
Definition get (id : Z) (includeInactive : option string) (s : store)
  : response * store :=
  match single (filter (fun r => (entry_id r =? id) && listed includeInactive r)
                       (general_setup s)) with
  | Some data => (Json data, s)
  | None => (Error 404 "Setup not found", s)
  end.

(** [PUT /general-setup/:id] *)
Definition put (id : Z) (inPlace : bool) (updateFields : patch) (s : store)
  : response * store :=
  match getMonthStart rt None with
  | Throw message => (Unhandled message, s)
  | Ok currentMonthDate =>
      match single (filter (fun r => (entry_id r =? id) && is_active (status r))
                           (general_setup s)) with
      | None => (Error 404 "Active setup not found", s)
      | Some currentSetup =>
          if inPlace then
            let normalized :=
              if truthy_string (p_start_date updateFields)
              then match getMonthStart rt (p_start_date updateFields) with
                   | Ok d => Ok (with_start_date d updateFields)
                   | Throw message => Throw message
                   end
              else Ok updateFields in
            match normalized with
            | Throw message => (Error 400 message, s)
            | Ok updateFields =>
                let (data, s') :=
                  update (overlay updateFields)
                         (fun r => (entry_id r =? id) && is_active (status r))
                         s in
                (Json_update type_inPlace (hd_error data), s')
            end
          else
            let (_, s1) :=
              update (retire currentMonthDate) (fun r => entry_id r =? id) s in
            let newSetup :=
              set_status "active"
                (set_end_date None
                   (set_start_date currentMonthDate
                      (overlay updateFields currentSetup))) in
            let (data, s2) := insert (p_entry_id updateFields) newSetup s1 in
            (Json_update type_versioned (Some data), s2)
      end
  end.

(** [DELETE /general-setup/:id] *)
Definition delete (id : Z) (s : store) : response * store :=
  match getMonthStart rt None with
  | Throw message => (Unhandled message, s)
  | Ok currentMonthDate =>
      let (data, s') :=
        update (retire currentMonthDate) (fun r => entry_id r =? id) s in
      match data with
      | [] => (Error 404 "Setup not found", s')
      | data0 :: _ => (Json_delete data0, s')
      end
  end.

End Routes.

End Setup.

(** ** middleware/auth.js, routes/auth.js, routes/invitations.js *)

Module Accounts.

(** The payload of a session token, [req.user]. *)
Record payload : Type := mk_payload {
  sub : Z;
  role : option string;
  email : string;
  organization_id : option Z;
  owner_id : option Z;
  tenant_id : option Z
}.

(** What lies outside the program: [jwt.verify] with the server's secret
    ([None] when it throws), Google's check of an id token (the e-mail and
    the Google id, [None] when it throws), and [String.prototype.toLowerCase]. *)
Record platform : Type := {
  jwt_verify : string -> option payload;
  verifyGoogleToken : string -> option (string * string);
  toLowerCase : string -> string
}.

(** A middleware calls [next()] or answers. *)
Inductive middleware (A : Type) : Type :=
| Continue (a : A)
| Reply (status : Z) (error : string).
Arguments Continue {A} a.
Arguments Reply {A} status error.

(** [s.slice(n)] *)
Definition slice (n : nat) (s : string) : string :=
  substring n (String.length s - n) s.

(** [list.includes(x)] *)
Definition includes (l : list string) (x : option string) : bool :=
  match x with
  | Some v => existsb (String.eqb v) l
  | None => false
  end.

Definition is_role (x : option string) (r : string) : bool :=
  match x with
  | Some v => String.eqb v r
  | None => false
  end.

Section Middleware.
Variable P : platform.

Definition requireAuth (authorization : option string) : middleware payload :=
  let auth := if truthy_string authorization then over authorization "" else "" in
  let token := if String.prefix "Bearer " auth then Some (slice 7 auth) else None in
  if negb (truthy_string token) then Reply 401 "Unauthorized"
  else
    match jwt_verify P (over token "") with
    | Some decoded => Continue decoded
    | None => Reply 401 "Invalid token"
    end.

End Middleware.

Definition requireRole (allowed : list string) (user : option payload)
  : middleware unit :=
  let role := match user with Some u => role u | None => None end in
  if negb (truthy_string role) then Reply 403 "Forbidden"
  else if is_role role "superadmin" then Continue tt
  else if negb (includes allowed role) then Reply 403 "Forbidden"
  else Continue tt.

Definition requireOrgScope (user : payload) : middleware unit :=
  if is_role (role user) "superadmin" then Continue tt
  else if negb (truthy_number (organization_id user))
  then Reply 403 "No organization scope"
  else Continue tt.

Definition requireOwnerScope (user : payload) : middleware unit :=
  if is_role (role user) "superadmin" then Continue tt
  else if negb (truthy_number (organization_id user))
          || negb (truthy_number (owner_id user))
  then Reply 403 "No owner scope"
  else Continue tt.

Definition requireTenantScope (user : payload) : middleware unit :=
  if is_role (role user) "superadmin" then Continue tt
  else if negb (truthy_number (organization_id user))
          || negb (truthy_number (owner_id user))
          || negb (truthy_number (tenant_id user))
  then Reply 403 "No tenant scope"
  else Continue tt.

(** Rows of [users]. *)
Module User.
Record t : Type := mk {
  user_id : Z;
  google_id : string;
  email : string;
  role : string;
  organization_id : option Z;
  owner_id : option Z;
  tenant_id : option Z
}.
End User.

(** Rows of [invitations].  [expires_at] is the instant the stored ISO
    string denotes; [accepted] is false on insert, the column's default. *)
Module Invitation.
Record t : Type := mk {
  invite_id : Z;
  email : option string;
  role : string;
  organization_id : option Z;
  owner_id : option Z;
  tenant_id : option Z;
  token : string;
  expires_at : Z;
  accepted : bool;
  created_by : Z
}.

Definition accept (i : t) : t :=
  mk (invite_id i) (email i) (role i) (organization_id i) (owner_id i)
     (tenant_id i) (token i) (expires_at i) true (created_by i).
End Invitation.

(** The body of [POST /invite]. *)
Record invite_body : Type := mk_invite_body {
  b_role : option string;
  b_email : option string;
  b_organization_id : option Z;
  b_owner_id : option Z;
  b_tenant_id : option Z
}.

Record store : Type := mk_store {
  users : list User.t;
  invitations : list Invitation.t;
  next_id : Z
}.

Inductive response : Type :=
| Error (status : Z) (error : string)
| Unhandled (message : string)
| Json_login (token : payload) (user : User.t)
| Json_invite (invite : Invitation.t)
| Json_success.

(** [x || null] *)
Definition or_null (x : option Z) : option Z :=
  if truthy_number x then x else None.

(** The payload [jwt.sign] signs at login. *)
Definition payload_of (user : User.t) : payload :=
  {| sub := User.user_id user;
     role := Some (User.role user);
     email := User.email user;
     organization_id := or_null (User.organization_id user);
     owner_id := or_null (User.owner_id user);
     tenant_id := or_null (User.tenant_id user) |}.

(** [const updates = { role: invite.role }; if (invite.organization_id) ...] *)
Definition promote (invite : Invitation.t) (u : User.t) : User.t :=
  User.mk (User.user_id u) (User.google_id u) (User.email u)
    (Invitation.role invite)
    (if truthy_number (Invitation.organization_id invite)
     then Invitation.organization_id invite else User.organization_id u)
    (if truthy_number (Invitation.owner_id invite)
     then Invitation.owner_id invite else User.owner_id u)
    (if truthy_number (Invitation.tenant_id invite)
     then Invitation.tenant_id invite else User.tenant_id u).

Definition week : Z := 1000 * 60 * 60 * 24 * 7.

Section Routes.
Variable rt : runtime.
Variable P : platform.

(** [POST /login/google] *)
Definition post_login_google (id_token : option string) (a : store)
  : response * store :=
  if negb (truthy_string id_token) then (Error 400 "id_token required", a)
  else
    match verifyGoogleToken P (over id_token "") with
    | None => (Error 401 "Google login failed", a)
    | Some (email, google_id) =>
        match hd_error (filter (fun u => String.eqb (User.email u) email)
                               (users a)) with
        | Some user => (Json_login (payload_of user) user, a)
        | None =>
            let count := Z.of_nat (List.length (users a)) in
            let role := if count =? 0 then "superadmin" else "tenant" in
            let user := User.mk (next_id a) google_id email role None None None in
            (Json_login (payload_of user) user,
             mk_store (users a ++ [user]) (invitations a) (next_id a + 1))
        end
    end.

(** [POST /invite]; [token] is [crypto.randomBytes(32).toString('hex')]. *)
Definition post_invite (user : payload) (body : invite_body) (token : string)
    (a : store) : response * store :=
  let role := b_role body in
  let invokerRole := Accounts.role user in
  if negb (includes ["orgadmin"; "owner"; "tenant"] role) then
    (Error 400 "Invalid invite role", a)
  else if is_role role "orgadmin" && negb (is_role invokerRole "superadmin") then
    (Error 403 "Only superadmin can invite orgadmin", a)
  else if is_role role "owner"
          && negb (includes ["orgadmin"; "superadmin"] invokerRole) then
    (Error 403 "Only orgadmin/superadmin can invite owner", a)
  else if is_role role "tenant"
          && negb (includes ["owner"; "orgadmin"; "superadmin"] invokerRole) then
    (Error 403 "Only owner/orgadmin/superadmin can invite tenant", a)
  else if negb (is_role role "orgadmin")
          && negb (truthy_number (b_organization_id body)) then
    (Error 400 "organization_id required", a)
  else if is_role role "tenant" && negb (truthy_number (b_owner_id body)) then
    (Error 400 "owner_id required for tenant", a)
  else
    let expires_at := clock rt + week in
    let invite :=
      Invitation.mk (next_id a) (b_email body) (over role "")
        (or_null (b_organization_id body)) (or_null (b_owner_id body))
        (or_null (b_tenant_id body)) token expires_at false (sub user) in
    (Json_invite invite,
     mk_store (users a) (invitations a ++ [invite]) (next_id a + 1)).

(** [POST /accept] *)
Definition post_accept (user : payload) (token : option string) (a : store)
  : response * store :=
  if negb (truthy_string token) then (Error 400 "token required", a)
  else
    match hd_error
            (filter (fun i => String.eqb (Invitation.token i) (over token "")
                              && negb (Invitation.accepted i))
                    (invitations a)) with
    | None => (Error 400 "Invalid or used invite", a)
    | Some invite =>
        if Invitation.expires_at invite <? clock rt then
          (Error 400 "Invite expired", a)
        else
          match Invitation.email invite with
          | None => (Unhandled "Cannot read properties of null", a)
          | Some invited =>
              if negb (String.eqb (toLowerCase P invited)
                                  (toLowerCase P (email user)))
              then (Error 403 "Invite email mismatch", a)
              else
                (Json_success,
                 mk_store
                   (map (fun u => if String.eqb (User.email u) (email user)
                                  then promote invite u else u) (users a))
                   (map (fun i => if Invitation.invite_id i
                                     =? Invitation.invite_id invite
                                  then Invitation.accept i else i)
                        (invitations a))
                   (next_id a))
          end
    end.

End Routes.

End Accounts.

(** * Properties *)

(** The value of [getMonthStart()] during the request. *)
Definition currentMonthStart (rt : runtime) : string :=
  toLocaleDateString_enCA_Kolkata
    (Date_of_fields rt (getFullYear rt (clock rt)) (getMonth rt (clock rt)) 1).
Arguments currentMonthStart : simpl never.

(** The month key [POST /monthly-reading] looks up for a requested month
    that parsed to [t]. *)
Definition previousMonth (rt : runtime) (t : Z) : string :=
  toISODate (Date_of_fields rt (getFullYear rt t) (getMonth rt t - 1) 1).
Arguments previousMonth : simpl never.

(** The civil date of an instant on the server's clock. *)
Definition local_date (rt : runtime) (t : Z) : Z * Z * Z :=
  JSDate.civil_from_days (JSDate.Day (LocalTime rt t)).
Arguments local_date : simpl never.

(** The first day of a civil date's month, and of the month before. *)
Definition first_of_month (c : Z * Z * Z) : Z * Z * Z :=
  let '(y, m, _) := c in (y, m, 1).

Definition first_of_previous_month (c : Z * Z * Z) : Z * Z * Z :=
  let '(y, m, _) := c in
  if m =? 1 then (y - 1, 12, 1) else (y, m - 1, 1).

(** Leap years and month lengths of the Gregorian calendar. *)
Definition leap (y : Z) : bool :=
  ((y mod 4 =? 0) && negb (y mod 100 =? 0)) || (y mod 400 =? 0).
Arguments leap : simpl never.

Definition days_in_month (y m : Z) : Z :=
  if m =? 2 then (if leap y then 29 else 28)
  else if (m =? 4) || (m =? 6) || (m =? 9) || (m =? 11) then 30 else 31.

(** An engine that reads the date-only form of [c] as ECMA-262 has it:
    midnight UTC. *)
Definition reads_date_only (rt : runtime) (c : Z * Z * Z) : Prop :=
  let '(y, m, d) := c in
  Date_parse rt (JSDate.ymd c)
  = Some (JSDate.MakeDate (JSDate.MakeDay y (m - 1) d) 0).

(** ** The router of [index.js], over the mutating routes *)

Inductive request : Type :=
| POST_tenants (body : Tenant.patch)
| PUT_tenants (id : Z) (inPlace : bool) (updateFields : Tenant.patch)
| DELETE_tenants (id : Z)
| POST_power_meters (body : Meter.patch)
| PUT_power_meters (id : Z) (inPlace : bool) (updateFields : Meter.patch)
| DELETE_power_meters (id : Z)
| POST_rent_history (body : History.patch)
| PUT_rent_history (id : Z) (inPlace : bool) (updateFields : History.patch)
| DELETE_rent_history (id : Z)
| POST_history (f : flag) (body : History.patch)
| PUT_history (f : flag) (id : Z) (inPlace : bool) (updateFields : History.patch)
| DELETE_history (f : flag) (id : Z)
| POST_monthly_reading (body : Reading.patch)
| PUT_monthly_reading (id : Z) (updateFields : Reading.patch)
| DELETE_monthly_reading (id : Z).

Definition serve (rt : runtime) (q : request) : route response :=
  match q with
  | POST_tenants body => post_tenants rt body
  | PUT_tenants id inPlace updateFields => put_tenant rt id inPlace updateFields
  | DELETE_tenants id => delete_tenant rt id
  | POST_power_meters body => post_power_meters rt body
  | PUT_power_meters id inPlace updateFields =>
      put_power_meter rt id inPlace updateFields
  | DELETE_power_meters id => delete_power_meter rt id
  | POST_rent_history body => post_rent_history rt body
  | PUT_rent_history id inPlace updateFields =>
      put_rent_history rt id inPlace updateFields
  | DELETE_rent_history id => delete_rent_history rt id
  | POST_history f body => post_history rt f body
  | PUT_history f id inPlace updateFields =>
      put_history rt f id inPlace updateFields
  | DELETE_history f id => delete_history rt f id
  | POST_monthly_reading body => post_monthly_reading rt body
  | PUT_monthly_reading id updateFields => put_monthly_reading id updateFields
  | DELETE_monthly_reading id => delete_monthly_reading id
  end.

(** At most one active row per [tenant_id]. *)
Definition one_active (l : list Tenant.t) : Prop :=
  forall id, (List.length (filter (active_tenant id) l) <= 1)%nat.

Definition no_active (id : Z) (s : db) : Prop :=
  filter (active_tenant id) (tenants s) = [].

(** The [tenant_id] a tenant route writes is the tenant's own, or one without
    an active row: for a create, the id in the body or else the store's next
    key; for an update, the id among the fields, if any. *)
Definition tenant_id_free (s : db) (q : request) : Prop :=
  match q with
  | POST_tenants body => no_active (over (Tenant.p_tenant_id body) (serial s)) s
  | PUT_tenants id _ updateFields =>
      match Tenant.p_tenant_id updateFields with
      | Some j => j = id \/ no_active j s
      | None => True
      end
  | _ => True
  end.

(** ** Scenarios

    Servers whose engine reads the date-only form, at 2024-03-20T10:00Z. *)

Definition march_2024 : runtime :=
  {| offset := 0; clock := 1710928800000; Date_parse := JSDate.parse_date_only |}.

Definition utc_plus_9 : runtime :=
  {| offset := 540; clock := 1710928800000;
     Date_parse := JSDate.parse_date_only |}.

Definition utc_minus_8 : runtime :=
  {| offset := -480; clock := 1710928800000;
     Date_parse := JSDate.parse_date_only |}.

Definition utc_plus_6 : runtime :=
  {| offset := 360; clock := 1710928800000;
     Date_parse := JSDate.parse_date_only |}.

(** A UTC server whose clock stands at 0500-06-15T00:00Z. *)
Definition june_500 : runtime :=
  {| offset := 0; clock := -46374422400000; Date_parse := JSDate.parse_date_only |}.

Definition between_utc_and_ist (offset clock : Z) : runtime :=
  {| offset := offset; clock := clock; Date_parse := JSDate.parse_date_only |}.

(** Tenants. *)

Definition asha_v1 : Tenant.t :=
  Tenant.mk 1 1 "active" "2024-01-01" None "Asha" None None None None.

Definition asha_v2 : Tenant.t :=
  Tenant.mk 1 2 "active" "2024-02-01" None "Asha" None (Some 1) None None.

Definition asha_watered : Tenant.t :=
  Tenant.mk 1 2 "active" "2024-03-01" None "Asha" None None (Some true) None.

Definition asha_dry : Tenant.t :=
  Tenant.mk 1 2 "active" "2024-02-01" None "Asha" None None (Some false) None.

Definition bina_v1 : Tenant.t :=
  Tenant.mk 2 1 "active" "2024-01-01" None "Bina" None None None None.

Definition asha_db : db := mk_db [asha_v1] [] [] [] [] [] 2.

Definition two_tenants : db := mk_db [asha_v1; bina_v1] [] [] [] [] [] 3.

Definition junk_start_date : Tenant.patch :=
  Tenant.mk_patch None None None (Some "next month") None None None None None None.

Definition become_bina : Tenant.patch :=
  Tenant.mk_patch (Some 2) None None None None None None None None None.

(** Meters and readings. *)

Definition orphan_meter : Meter.t :=
  Meter.mk 7 1 1 "active" "2024-01-01" None (Some 40).

Definition orphan_db : db :=
  mk_db [Tenant.mk 1 1 "inactive" "2024-01-01" (Some "2024-02-01") "Asha"
                   (Some 1) None None None]
        [orphan_meter] [] [] [] [] 8.

Definition mid_march_meter : Meter.patch :=
  Meter.mk_patch None (Some 1) None None (Some "2024-03-15") None (Some 100).

Definition meter_2 : Meter.t := Meter.mk 2 1 2 "active" "2024-02-01" None (Some 100).

Definition february (reading_id : Z) (current : Z) : Reading.t :=
  Reading.mk reading_id 1 2 2 "2024-02-01" (Some 100) (Some current) (Some 5).

Definition march_body : Reading.patch :=
  Reading.mk_patch None (Some 1) None (Some 2) (Some "2024-03-01") (Some 7)
                   (Some 150) (Some 5).

Definition ledger (readings : list Reading.t) : db :=
  mk_db [asha_v2] [meter_2] readings [] [] [] 10.


Definition move_to_may : Meter.patch :=
  Meter.mk_patch None None None None (Some "2024-05-20") None (Some 90).

(** Histories. *)

Definition water_body (start_date : string) : History.patch :=
  History.mk_patch None (Some 1) None None (Some start_date) None.

Definition water_row : History.t :=
  History.mk 2 1 2 "active" "2024-03-01" None.

Definition dry_db : db :=
  mk_db [retire_tenant "2024-02-01" asha_v1; asha_dry] [] [] [] [water_row] [] 3.

Definition rent_row : History.t := History.mk 3 1 2 "active" "2024-02-01" None.

Definition rent_db : db :=
  mk_db [retire_tenant "2024-02-01" asha_v1; asha_v2] [] [] [rent_row] [] [] 4.

Definition repin_v1 : History.patch :=
  History.mk_patch None None (Some 1) None None None.

(** ** Further definitions for the properties *)

(** The last day of the month before a civil date's month. *)
Definition last_of_previous_month (c : Z * Z * Z) : Z * Z * Z :=
  let '(y, m, _) := first_of_previous_month c in (y, m, days_in_month y m).

(** The request arrives in the month [m] of the year [y] on the server's
    clock, a year from 1946 to 9999. *)
Definition clock_in_month (rt : runtime) (y m : Z) : Prop :=
  1946 <= y <= 9999 /\ fst (local_date rt (clock rt)) = (y, m).

(** A meter's readings all sit on the first day of a month. *)
Definition keyed_by_month_start (meter_id : Z) (l : list Reading.t) : Prop :=
  forall r, In r l -> Reading.meter_id r = meter_id ->
    exists y m, Reading.month r = JSDate.ymd (y, m, 1).

Definition active_meter (id : Z) (m : Meter.t) : bool :=
  (Meter.meter_id m =? id) && is_active (Meter.status m).

Definition february_ledger : db := ledger [february 3 120].

(** Fields that leave a tenant row's key, version and status alone. *)
Definition keeps_identity (fields : Tenant.patch) : Prop :=
  Tenant.p_tenant_id fields = None
  /\ Tenant.p_tenant_version fields = None
  /\ Tenant.p_status fields = None.

(** [{ ...updateFields, ...(newStartDate && { start_date: newStartDate }) }]
    laid over a row. *)
Definition revised (fields : Tenant.patch) (newStartDate : option string)
    (r : Tenant.t) : Tenant.t :=
  Tenant.set_start_date
    (over newStartDate (Tenant.start_date (Tenant.overlay fields r)))
    (Tenant.overlay fields r).

Definition rename_to (name : string) : Tenant.patch :=
  Tenant.mk_patch None None None None None (Some name) None None None None.

Definition inactive_version_7 : Tenant.patch :=
  Tenant.mk_patch None (Some 7) (Some "inactive") (Some "2024-03-15") None
                  (Some "Chitra") None None None None.

(** Every retired row of a tenant is an older version than the active one. *)
Definition newest_active (l : list Tenant.t) : Prop :=
  forall a r,
    In a l -> In r l ->
    Tenant.tenant_id r = Tenant.tenant_id a ->
    is_active (Tenant.status a) = true ->
    is_active (Tenant.status r) = false ->
    Tenant.tenant_version r < Tenant.tenant_version a.

(** A tenant create takes an id no row has yet; a tenant update leaves
    [tenant_id] and [tenant_version] out of its fields. *)
Definition version_safe (s : db) (q : request) : Prop :=
  match q with
  | POST_tenants body =>
      forall r, In r (tenants s) ->
                Tenant.tenant_id r <> over (Tenant.p_tenant_id body) (serial s)
  | PUT_tenants _ _ updateFields =>
      Tenant.p_tenant_id updateFields = None
      /\ Tenant.p_tenant_version updateFields = None
  | _ => True
  end.

(** The tenants table after the version bump of a dependent route. *)
Definition after_bump (tenant_id : Z) (end_date : string) (new : Tenant.t)
    (l : list Tenant.t) : list Tenant.t :=
  map (fun r => if active_tenant tenant_id r then retire_tenant end_date r
                else r) l
  ++ [new].

Definition meter_without_start_date : Meter.patch :=
  Meter.mk_patch None (Some 1) None None None None (Some 100).

Definition metered_db : db :=
  mk_db [Tenant.mk 1 2 "active" "2024-02-01" None "Asha" (Some 1) None None None]
        [meter_2] [february 3 120] [] [] [] 10.

Definition reading_zero : Meter.patch :=
  Meter.mk_patch None None None None None None (Some 0).

Definition active_history (id : Z) (h : History.t) : bool :=
  (History.id h =? id) && is_active (History.status h).

Definition rent_body (start_date : string) : History.patch :=
  History.mk_patch None (Some 1) None None (Some start_date) None.

Definition junk_history_start : History.patch :=
  History.mk_patch None None None None (Some "next month") None.

Definition orphan_history : History.t :=
  History.mk 5 1 1 "active" "2024-01-01" None.

(** A tenant whose only row is retired, with one history row of each kind
    still active. *)
Definition orphan_history_db : db :=
  mk_db [retire_tenant "2024-02-01" asha_v1] [] [] [orphan_history]
        [orphan_history] [orphan_history] 8.

Definition watered_db : db :=
  mk_db [retire_tenant "2024-02-01" asha_v1; asha_watered] [] [] []
        [water_row] [] 3.

(** General setups. *)

Definition tariff_2023 : Setup.t :=
  Setup.mk 4 "active" "2023-04-01" None (Some "rate 6").

Definition tariff_db : Setup.store := Setup.mk_store [tariff_2023] 5.

Definition junk_setup_start : Setup.patch :=
  Setup.mk_patch None None (Some "next month") None (Some "rate 7").

(** The same server a month later, at 2024-04-20T10:00Z. *)
Definition april_2024 : runtime :=
  {| offset := 0; clock := 1713607200000; Date_parse := JSDate.parse_date_only |}.

(** Accounts. *)

(** The standing of a role: an invitation is for a role below the
    inviter's. *)
Definition rank (role : option string) : Z :=
  if Accounts.is_role role "superadmin" then 4
  else if Accounts.is_role role "orgadmin" then 3
  else if Accounts.is_role role "owner" then 2
  else if Accounts.is_role role "tenant" then 1
  else 0.

(** A platform whose tokens are the e-mail addresses themselves. *)
Definition plain_tokens : Accounts.platform :=
  {| Accounts.jwt_verify := fun t =>
       if String.eqb t "asha@example.com"
       then Some (Accounts.mk_payload 1 (Some "owner") "asha@example.com"
                                     (Some 1) (Some 1) None)
       else None;
     Accounts.verifyGoogleToken := fun t => Some (t, "g-" ++ t)%string;
     Accounts.toLowerCase := fun s => s |}.

Definition root_user : Accounts.User.t :=
  Accounts.User.mk 1 "g-root" "root@example.com" "superadmin" None None None.

Definition bina_user : Accounts.User.t :=
  Accounts.User.mk 2 "g-bina" "bina@example.com" "tenant" None None None.

Definition people : Accounts.store :=
  Accounts.mk_store [root_user; bina_user] [] 3.

Definition root_session : Accounts.payload := Accounts.payload_of root_user.
Definition bina_session : Accounts.payload := Accounts.payload_of bina_user.

Definition invite_bina : Accounts.invite_body :=
  Accounts.mk_invite_body (Some "owner") (Some "bina@example.com") (Some 7)
                          None None.

(** ** The calendar *)

Ltac Zify.zify_post_hook ::= Z.to_euclidean_division_equations.

Lemma civil_month_range z :
  1 <= snd (fst (JSDate.civil_from_days z)) <= 12.
Proof.
  unfold JSDate.civil_from_days. cbv zeta. cbn [fst snd].
  set (doe := z + 719468 - (z + 719468) / 146097 * 146097).
  assert (Hdoe : 0 <= doe < 146097) by (subst doe; lia).
  clearbody doe.
  set (yoe := (doe - doe / 1460 + doe / 36524 - doe / 146096) / 365).
  set (doy := doe - (365 * yoe + yoe / 4 - yoe / 100)).
  assert (Hdoy : 0 <= doy <= 365) by (subst doy yoe; lia).
  clearbody doy.
  destruct ((5 * doy + 2) / 153 <? 10) eqn:H;
    [apply Z.ltb_lt in H | apply Z.ltb_ge in H]; lia.
Qed.

Lemma leap_spec y :
  leap y = true ->
  y mod 4 = 0 /\ (y mod 100 <> 0 \/ y mod 400 = 0).
Proof.
  unfold leap. intro H. apply orb_true_iff in H as [H|H].
  - apply andb_prop in H as [H4 H100]. apply Z.eqb_eq in H4.
    apply negb_true_iff, Z.eqb_neq in H100. auto.
  - apply Z.eqb_eq in H. lia.
Qed.

(** A date that exists, to a day number and back. *)
Lemma civil_round_trip y m d :
  1 <= m <= 12 -> 1 <= d <= days_in_month y m ->
  JSDate.civil_from_days (JSDate.days_from_civil y m d) = (y, m, d).
Proof.
  intros Hm Hd.
  assert (Hc : m = 1 \/ m = 2 \/ m = 3 \/ m = 4 \/ m = 5 \/ m = 6 \/ m = 7
               \/ m = 8 \/ m = 9 \/ m = 10 \/ m = 11 \/ m = 12) by lia.
  unfold JSDate.days_from_civil.
  set (y' := if m <=? 2 then y - 1 else y).
  set (era := y' / 400).
  set (yoe := y' - era * 400).
  assert (Hyoe : 0 <= yoe < 400) by (subst yoe era; lia).
  set (doy := (153 * ((m + 9) mod 12) + 2) / 5 + d - 1).
  set (doe := yoe * 365 + yoe / 4 - yoe / 100 + doy).
  cbv zeta.
  unfold JSDate.civil_from_days. cbv zeta.
  replace (era * 146097 + doe - 719468 + 719468) with (era * 146097 + doe)
    by lia.
  assert (Hdoy : 0 <= doy <= 365
                 /\ (doy = 365 ->
                     (yoe + 1) mod 4 = 0
                     /\ ((yoe + 1) mod 100 <> 0 \/ yoe = 399))
                 /\ (5 * doy + 2) / 153 = (m + 9) mod 12
                 /\ doy - (153 * ((5 * doy + 2) / 153) + 2) / 5 + 1 = d).
  { unfold days_in_month in Hd.
    repeat destruct Hc as [Hc|Hc]; subst m; cbn in Hd; subst doy;
      try lia.
    destruct (leap y) eqn:Hl; cbn in Hd; [|lia].
    apply leap_spec in Hl. subst yoe era y'.
    change (2 <=? 2) with true. cbv iota. lia. }
  destruct Hdoy as [Hdoy [Hlast [Hmp Hd']]].
  assert (Hdoe : 0 <= doe < 146097) by (subst doe; lia).
  replace ((era * 146097 + doe) / 146097) with era by lia.
  replace (era * 146097 + doe - era * 146097) with doe by lia.
  assert (Hy : (doe - doe / 1460 + doe / 36524 - doe / 146096) / 365 = yoe).
  { subst doe. clearbody doy yoe. clear - Hyoe Hdoy Hlast. lia. }
  rewrite Hy.
  replace (doe - (365 * yoe + yoe / 4 - yoe / 100)) with doy
    by (subst doe; lia).
  rewrite Hd', Hmp.
  assert (Hyear : yoe + era * 400 = y') by (subst yoe; lia).
  rewrite Hyear. subst y'. clear - Hc.
  repeat destruct Hc as [Hc|Hc]; subst m; cbn; f_equal; f_equal; lia.
Qed.

(** The first of a month, to a day number and back. *)
Lemma civil_first y m :
  1 <= m <= 12 ->
  JSDate.civil_from_days (JSDate.days_from_civil y m 1) = (y, m, 1).
Proof.
  intro Hm. apply civil_round_trip; [exact Hm|].
  unfold days_in_month.
  destruct (m =? 2); [destruct (leap y)|destruct (_ || _)]; lia.
Qed.

Lemma MakeDay_civil y m d :
  1 <= m <= 12 -> JSDate.MakeDay y (m - 1) d = JSDate.days_from_civil y m d.
Proof.
  intro Hm. unfold JSDate.MakeDay.
  replace ((m - 1) / 12) with 0 by lia.
  replace ((m - 1) mod 12 + 1) with m by lia.
  replace (y + 0) with y by lia.
  unfold JSDate.days_from_civil. lia.
Qed.

Lemma MakeDay_first y m :
  1 <= m <= 12 -> JSDate.MakeDay y (m - 1) 1 = JSDate.days_from_civil y m 1.
Proof. apply MakeDay_civil. Qed.

Lemma Day_within d r :
  0 <= r < JSDate.msPerDay -> JSDate.Day (d * JSDate.msPerDay + r) = d.
Proof. unfold JSDate.Day, JSDate.msPerDay. intro H. lia. Qed.

(** The locale [en-CA] prints a year of four digits as [toISOString]
    does. *)
Lemma enCA_ymd y m d :
  1000 <= y <= 9999 -> JSDate.enCA (y, m, d) = JSDate.ymd (y, m, d).
Proof.
  intro Hy.
  unfold JSDate.enCA, JSDate.ymd, JSDate.numeral, JSDate.leading_digit,
    JSDate.later_digits, JSDate.pad4.
  replace (y <=? 0) with false by (symmetry; apply Z.leb_gt; lia).
  replace (y <? 10) with false by (symmetry; apply Z.ltb_ge; lia).
  replace (y <? 100) with false by (symmetry; apply Z.ltb_ge; lia).
  replace (y <? 1000) with false by (symmetry; apply Z.ltb_ge; lia).
  replace (y <? 10000) with true by (symmetry; apply Z.ltb_lt; lia).
  reflexivity.
Qed.

(** Since 1945-10-14T17:30Z Kolkata keeps Indian Standard Time, UTC+05:30. *)
Lemma Kolkata_offset_standard t :
  JSDate.Kolkata_standard_since <= t ->
  JSDate.Kolkata_offset t = 330 * JSDate.msPerMinute.
Proof.
  unfold JSDate.Kolkata_offset, JSDate.Kolkata_standard_since. intro H.
  repeat match goal with
         | |- context [?a <? ?b] =>
             replace (a <? b) with false by (symmetry; apply Z.ltb_ge; lia)
         end.
  reflexivity.
Qed.

Lemma days_from_civil_since_1946 y m :
  1946 <= y -> 1 <= m <= 12 -> -8766 <= JSDate.days_from_civil y m 1.
Proof.
  intros Hy Hm. unfold JSDate.days_from_civil.
  destruct (m <=? 2) eqn:E; [apply Z.leb_le in E | apply Z.leb_gt in E];
    cbv zeta; lia.
Qed.

(** Midnight of a first of the month from 1946 on, on the clock of a server
    no further east than UTC+14:00, falls in Kolkata's standard time. *)
Lemma month_start_standard rt y m :
  offset rt <= 840 -> 1946 <= y -> 1 <= m <= 12 ->
  JSDate.Kolkata_offset
    (UTC rt (JSDate.MakeDate (JSDate.days_from_civil y m 1) 0))
  = 330 * JSDate.msPerMinute.
Proof.
  intros Hoff Hy Hm. apply Kolkata_offset_standard.
  assert (H := days_from_civil_since_1946 y m Hy Hm).
  unfold UTC, JSDate.MakeDate, JSDate.Kolkata_standard_since,
    JSDate.msPerDay, JSDate.msPerMinute.
  lia.
Qed.

(** Kolkata's date at the midnight that starts a month on the server's
    clock, on a server not east of UTC+05:30: that first of the month. *)
Lemma toLocaleDateString_month_start rt y m :
  -1110 < offset rt <= 330 -> 1946 <= y <= 9999 -> 1 <= m <= 12 ->
  toLocaleDateString_enCA_Kolkata
    (UTC rt (JSDate.MakeDate (JSDate.days_from_civil y m 1) 0))
  = JSDate.ymd (y, m, 1).
Proof.
  intros Hoff Hy Hm. unfold toLocaleDateString_enCA_Kolkata.
  rewrite month_start_standard by lia.
  unfold UTC, JSDate.MakeDate.
  replace (JSDate.days_from_civil y m 1 * JSDate.msPerDay + 0
           - offset rt * JSDate.msPerMinute + 330 * JSDate.msPerMinute)
    with (JSDate.days_from_civil y m 1 * JSDate.msPerDay
          + (330 - offset rt) * JSDate.msPerMinute) by lia.
  rewrite Day_within by (unfold JSDate.msPerDay, JSDate.msPerMinute; lia).
  rewrite civil_first by lia. apply enCA_ymd. lia.
Qed.

(** [new Date(y, m - 1, 1)] for a year outside 0 to 99. *)
Lemma Date_of_fields_first rt y m :
  ~ (0 <= y <= 99) -> 1 <= m <= 12 ->
  Date_of_fields rt y (m - 1) 1
  = UTC rt (JSDate.MakeDate (JSDate.days_from_civil y m 1) 0).
Proof.
  intros Hy Hm. unfold Date_of_fields.
  replace ((0 <=? y) && (y <=? 99)) with false
    by (symmetry; apply andb_false_iff; lia).
  now rewrite MakeDay_first.
Qed.

(** The month start [getMonthStart] builds from an instant: midnight of the
    first of that instant's month on the server's clock. *)
Lemma month_start_of_local_date rt t y m d :
  local_date rt t = (y, m, d) -> ~ (0 <= y <= 99) ->
  1 <= m <= 12
  /\ Date_of_fields rt (getFullYear rt t) (getMonth rt t) 1
     = UTC rt (JSDate.MakeDate (JSDate.days_from_civil y m 1) 0).
Proof.
  intros Hl Hy.
  assert (Hm := civil_month_range (JSDate.Day (LocalTime rt t))).
  fold (local_date rt t) in Hm. rewrite Hl in Hm. cbn [fst snd] in Hm.
  split; [exact Hm|].
  unfold getFullYear, getMonth, JSDate.YearFromTime, JSDate.MonthFromTime.
  fold (local_date rt t). rewrite Hl. cbn [fst snd].
  now apply Date_of_fields_first.
Qed.

(** [getMonthStart] on a server not east of UTC+05:30, for a date from 1946
    to 9999: the first day of the month the date falls in on the server's
    clock. *)
Lemma getMonthStart_between rt s t :
  -1110 < offset rt <= 330 ->
  s <> "" ->
  Date_parse rt s = Some t ->
  1946 <= fst (fst (local_date rt t)) <= 9999 ->
  getMonthStart rt (Some s) = Ok (JSDate.ymd (first_of_month (local_date rt t))).
Proof.
  intros Hoff Hne Hp Hy.
  unfold getMonthStart. cbn [truthy_string new_Date body_field].
  apply String.eqb_neq in Hne. rewrite Hne. cbn [negb]. rewrite Hp.
  destruct (local_date rt t) as [[y m] d] eqn:Hl. cbn [fst snd] in Hy.
  destruct (month_start_of_local_date rt t y m d Hl ltac:(lia)) as [Hm ->].
  cbn [first_of_month].
  now rewrite toLocaleDateString_month_start.
Qed.

(** The month start of the request's own instant, on such a server. *)
Lemma currentMonthStart_calendar rt y m d :
  -1110 < offset rt <= 330 ->
  local_date rt (clock rt) = (y, m, d) ->
  1946 <= y <= 9999 ->
  currentMonthStart rt = JSDate.ymd (y, m, 1).
Proof.
  intros Hoff Hl Hy. unfold currentMonthStart.
  destruct (month_start_of_local_date rt (clock rt) y m d Hl ltac:(lia))
    as [Hm ->].
  now apply toLocaleDateString_month_start.
Qed.

Lemma ymd_not_empty c : JSDate.ymd c <> "".
Proof.
  destruct c as [[y m] d]. unfold JSDate.ymd, JSDate.pad4.
  cbn [String.append]. discriminate.
Qed.

(** Applied to its own result it returns it, when the engine reads that
    result as the date it names. *)
Lemma getMonthStart_again rt y m :
  0 <= offset rt <= 330 ->
  1 <= m <= 12 ->
  1946 <= y <= 9999 ->
  reads_date_only rt (y, m, 1) ->
  getMonthStart rt (Some (JSDate.ymd (y, m, 1))) = Ok (JSDate.ymd (y, m, 1)).
Proof.
  intros Hoff Hm Hy Hread. unfold reads_date_only in Hread.
  assert (Hl : local_date rt (JSDate.MakeDate (JSDate.MakeDay y (m - 1) 1) 0)
               = (y, m, 1)).
  { unfold local_date, LocalTime, JSDate.MakeDate.
    rewrite MakeDay_first by lia.
    replace (JSDate.days_from_civil y m 1 * JSDate.msPerDay + 0
             + offset rt * JSDate.msPerMinute)
      with (JSDate.days_from_civil y m 1 * JSDate.msPerDay
            + offset rt * JSDate.msPerMinute) by lia.
    rewrite Day_within by (unfold JSDate.msPerDay, JSDate.msPerMinute; lia).
    now apply civil_first. }
  assert (H := getMonthStart_between rt _ _ ltac:(lia) (ymd_not_empty (y, m, 1))
                 Hread).
  rewrite Hl in H. apply H. exact Hy.
Qed.

Lemma digit_val_digit n : JSDate.digit_val (JSDate.digit n) = Some (n mod 10).
Proof.
  unfold JSDate.digit.
  assert (H : n mod 10 = 0 \/ n mod 10 = 1 \/ n mod 10 = 2 \/ n mod 10 = 3
              \/ n mod 10 = 4 \/ n mod 10 = 5 \/ n mod 10 = 6 \/ n mod 10 = 7
              \/ n mod 10 = 8 \/ n mod 10 = 9) by lia.
  repeat destruct H as [H|H]; rewrite H; reflexivity.
Qed.

Lemma num2_pad2 n :
  0 <= n <= 99 ->
  JSDate.num2 (JSDate.digit (n / 10)) (JSDate.digit n) = Some n.
Proof.
  intro H. unfold JSDate.num2. rewrite !digit_val_digit. f_equal. lia.
Qed.

Lemma num4_pad4 n :
  0 <= n <= 9999 ->
  JSDate.num4 (JSDate.digit (n / 1000)) (JSDate.digit (n / 100))
              (JSDate.digit (n / 10)) (JSDate.digit n) = Some n.
Proof.
  intro H. unfold JSDate.num4, JSDate.num2. rewrite !digit_val_digit.
  f_equal. lia.
Qed.

(** [parse_date_only] reads what [ymd] prints. *)
Lemma parse_date_only_ymd y m d :
  0 <= y <= 9999 -> 1 <= m <= 12 -> 1 <= d <= 31 ->
  JSDate.parse_date_only (JSDate.ymd (y, m, d))
  = Some (JSDate.MakeDate (JSDate.MakeDay y (m - 1) d) 0).
Proof.
  intros Hy Hm Hd.
  unfold JSDate.ymd, JSDate.pad4, JSDate.pad2. cbn [String.append].
  unfold JSDate.parse_date_only.
  rewrite num4_pad4, !num2_pad2 by lia.
  replace ((1 <=? m) && (m <=? 12) && (1 <=? d) && (d <=? 31)) with true;
    [reflexivity|].
  symmetry. repeat (apply andb_true_intro; split); lia.
Qed.


(** On a server between UTC and UTC+05:30 whose engine reads the date-only
    form, a date that exists (from 1946 on) is normalized to the first of
    its month, and normalizing again changes nothing. *)
Lemma getMonthStart_date_only off clock y m d :
  0 <= off <= 330 ->
  1946 <= y <= 9999 -> 1 <= m <= 12 -> 1 <= d <= days_in_month y m ->
  getMonthStart (between_utc_and_ist off clock) (Some (JSDate.ymd (y, m, d)))
  = Ok (JSDate.ymd (y, m, 1))
  /\ getMonthStart (between_utc_and_ist off clock) (Some (JSDate.ymd (y, m, 1)))
     = Ok (JSDate.ymd (y, m, 1)).
Proof.
  intros Hoff Hy Hm Hd.
  assert (Hd31 : d <= 31).
  { unfold days_in_month in Hd.
    destruct (m =? 2); [destruct (leap y)|destruct (_ || _)]; lia. }
  assert (Hl : local_date (between_utc_and_ist off clock)
                 (JSDate.MakeDate (JSDate.MakeDay y (m - 1) d) 0) = (y, m, d)).
  { unfold local_date, LocalTime, JSDate.MakeDate. cbn [offset between_utc_and_ist].
    rewrite MakeDay_civil by lia.
    replace (JSDate.days_from_civil y m d * JSDate.msPerDay + 0
             + off * JSDate.msPerMinute)
      with (JSDate.days_from_civil y m d * JSDate.msPerDay
            + off * JSDate.msPerMinute) by lia.
    rewrite Day_within by (unfold JSDate.msPerDay, JSDate.msPerMinute; lia).
    now apply civil_round_trip. }
  split.
  - assert (H := getMonthStart_between (between_utc_and_ist off clock)
                   (JSDate.ymd (y, m, d))
                   (JSDate.MakeDate (JSDate.MakeDay y (m - 1) d) 0)
                   ltac:(cbn [offset between_utc_and_ist]; lia)
                   (ymd_not_empty _)
                   (parse_date_only_ymd y m d ltac:(lia) Hm ltac:(lia))).
    rewrite Hl in H. apply H. cbn [fst]. lia.
  - apply getMonthStart_again; [exact Hoff | exact Hm | lia |].
    unfold reads_date_only. cbn [Date_parse between_utc_and_ist].
    apply parse_date_only_ymd; lia.
Qed.

Lemma MakeDay_previous y m :
  1 <= m <= 12 ->
  JSDate.civil_from_days (JSDate.MakeDay y (m - 1 - 1) 1)
  = first_of_previous_month (y, m, 1).
Proof.
  intro Hm. unfold JSDate.MakeDay, first_of_previous_month.
  destruct (Z.eqb_spec m 1) as [->|Hne].
  - change ((1 - 1 - 1) / 12) with (-1).
    change ((1 - 1 - 1) mod 12 + 1) with 12.
    replace (JSDate.days_from_civil (y + -1) 12 1 + 1 - 1)
      with (JSDate.days_from_civil (y - 1) 12 1)
      by (replace (y + -1) with (y - 1) by lia; lia).
    apply civil_first. lia.
  - replace ((m - 1 - 1) / 12) with 0 by lia.
    replace ((m - 1 - 1) mod 12 + 1) with (m - 1) by lia.
    replace (JSDate.days_from_civil (y + 0) (m - 1) 1 + 1 - 1)
      with (JSDate.days_from_civil y (m - 1) 1)
      by (replace (y + 0) with y by lia; lia).
    apply civil_first. lia.
Qed.

(** On a server on UTC or east of it, the month before the first of a month
    is the first of the month before. *)
Lemma monthBefore_first_of_month rt y m :
  0 <= offset rt <= 840 ->
  1 <= m <= 12 ->
  monthBefore rt (JSDate.MakeDate (JSDate.days_from_civil y m 1) 0)
  = JSDate.ymd (first_of_previous_month (y, m, 1)).
Proof.
  intros Hoff Hm.
  unfold monthBefore, setMonth, getMonth, toISODate, JSDate.MonthFromTime,
    JSDate.YearFromTime, JSDate.DateFromTime, LocalTime, UTC, JSDate.MakeDate.
  replace (JSDate.days_from_civil y m 1 * JSDate.msPerDay + 0
           + offset rt * JSDate.msPerMinute)
    with (JSDate.days_from_civil y m 1 * JSDate.msPerDay
          + offset rt * JSDate.msPerMinute) by lia.
  rewrite Day_within by (unfold JSDate.msPerDay, JSDate.msPerMinute; lia).
  rewrite civil_first by lia. cbn [fst snd].
  assert (Htime : JSDate.TimeWithinDay
                    (JSDate.days_from_civil y m 1 * JSDate.msPerDay
                     + offset rt * JSDate.msPerMinute)
                  = offset rt * JSDate.msPerMinute).
  { unfold JSDate.TimeWithinDay, JSDate.msPerDay, JSDate.msPerMinute. lia. }
  rewrite Htime.
  replace (JSDate.MakeDay y (m - 1 - 1) 1 * JSDate.msPerDay
           + offset rt * JSDate.msPerMinute - offset rt * JSDate.msPerMinute)
    with (JSDate.MakeDay y (m - 1 - 1) 1 * JSDate.msPerDay + 0) by lia.
  rewrite Day_within by (unfold JSDate.msPerDay; lia).
  now rewrite MakeDay_previous.
Qed.

(** On a UTC server, the month key [POST /monthly-reading] looks up for a
    date that exists, outside the years 0 to 99, is the first of the month before. *)
Lemma previousMonth_utc rt y m d :
  offset rt = 0 ->
  ~ (0 <= y <= 99) ->
  1 <= m <= 12 -> 1 <= d <= days_in_month y m ->
  previousMonth rt (JSDate.MakeDate (JSDate.days_from_civil y m d) 0)
  = JSDate.ymd (first_of_previous_month (y, m, d)).
Proof.
  intros Hoff Hy Hm Hd.
  unfold previousMonth, getFullYear, getMonth, toISODate, Date_of_fields,
    JSDate.MonthFromTime, JSDate.YearFromTime, LocalTime, UTC, JSDate.MakeDate.
  rewrite Hoff.
  replace (JSDate.days_from_civil y m d * JSDate.msPerDay + 0
           + 0 * JSDate.msPerMinute)
    with (JSDate.days_from_civil y m d * JSDate.msPerDay + 0) by lia.
  rewrite Day_within by (unfold JSDate.msPerDay; lia).
  rewrite civil_round_trip by assumption. cbn [fst snd].
  replace ((0 <=? y) && (y <=? 99)) with false
    by (symmetry; apply andb_false_iff; lia).
  replace (JSDate.MakeDay y (m - 1 - 1) 1 * JSDate.msPerDay + 0
           - 0 * JSDate.msPerMinute)
    with (JSDate.MakeDay y (m - 1 - 1) 1 * JSDate.msPerDay + 0) by lia.
  rewrite Day_within by (unfold JSDate.msPerDay; lia).
  now rewrite MakeDay_previous.
Qed.

(** One month before 2024-03-15T00:00Z, as [POST /power-meters] computes it,
    in any time zone. *)
Lemma monthBefore_mid_march rt :
  -720 <= offset rt <= 840 ->
  monthBefore rt 1710460800000 = "2024-02-15".
Proof.
  intro Hoff.
  unfold monthBefore, setMonth, getMonth, toISODate, JSDate.MonthFromTime,
    JSDate.YearFromTime, JSDate.DateFromTime, LocalTime, UTC.
  set (lt := 1710460800000 + offset rt * JSDate.msPerMinute).
  assert (H : JSDate.Day lt = 19797
                /\ JSDate.TimeWithinDay lt = offset rt * JSDate.msPerMinute
              \/ JSDate.Day lt = 19796
                 /\ JSDate.TimeWithinDay lt
                    = JSDate.msPerDay + offset rt * JSDate.msPerMinute).
  { subst lt.
    unfold JSDate.Day, JSDate.TimeWithinDay, JSDate.msPerDay,
      JSDate.msPerMinute.
    lia. }
  destruct H as [[Hday Htime]|[Hday Htime]]; rewrite Hday, Htime.
  - change (JSDate.civil_from_days 19797) with (2024, 3, 15).
    cbn [fst snd].
    change (JSDate.MakeDay 2024 (3 - 1 - 1) 15) with 19768.
    unfold JSDate.MakeDate.
    replace (19768 * JSDate.msPerDay + offset rt * JSDate.msPerMinute
             - offset rt * JSDate.msPerMinute)
      with (19768 * JSDate.msPerDay + 0) by lia.
    rewrite Day_within by (unfold JSDate.msPerDay; lia).
    reflexivity.
  - change (JSDate.civil_from_days 19796) with (2024, 3, 14).
    cbn [fst snd].
    change (JSDate.MakeDay 2024 (3 - 1 - 1) 14) with 19767.
    unfold JSDate.MakeDate.
    replace (19767 * JSDate.msPerDay
             + (JSDate.msPerDay + offset rt * JSDate.msPerMinute)
             - offset rt * JSDate.msPerMinute)
      with (19768 * JSDate.msPerDay + 0) by lia.
    rewrite Day_within by (unfold JSDate.msPerDay; lia).
    reflexivity.
Qed.

(** 2024-03-15T00:00Z falls in March 2024 on every server's clock. *)
Lemma local_month_mid_march rt :
  -720 <= offset rt <= 840 ->
  first_of_month (local_date rt 1710460800000) = (2024, 3, 1).
Proof.
  intro Hoff. unfold local_date, LocalTime.
  assert (H : JSDate.Day (1710460800000 + offset rt * JSDate.msPerMinute) = 19797
              \/ JSDate.Day (1710460800000 + offset rt * JSDate.msPerMinute)
                 = 19796).
  { unfold JSDate.Day, JSDate.msPerDay, JSDate.msPerMinute. lia. }
  destruct H as [-> | ->]; reflexivity.
Qed.

Ltac Zify.zify_post_hook ::= idtac.

(** ** The date normalizer *)

(** C4.  [getMonthStart] takes the month on the server's clock and prints the
    server's midnight in Indian time, so the result moves with the server.
    On a server at UTC+09:00, 2024-03-15 gives 2024-02-29, not a first of
    month; on a server at UTC-08:00, 2024-03-01 gives 2024-02-01 and that gives
    2024-01-01, so normalizing twice is not normalizing once.  On a UTC server
    both dates give 2024-03-01 (see [getMonthStart_date_only] for the servers
    where the normalizer is right), and a string that does not parse throws. *)
Theorem getMonthStart_server_zone :
  getMonthStart utc_plus_9 (Some "2024-03-15") = Ok "2024-02-29"
  /\ getMonthStart utc_minus_8 (Some "2024-03-01") = Ok "2024-02-01"
  /\ getMonthStart utc_minus_8 (Some "2024-02-01") = Ok "2024-01-01"
  /\ getMonthStart march_2024 (Some "2024-03-15") = Ok "2024-03-01"
  /\ getMonthStart march_2024 (Some "2024-03-01") = Ok "2024-03-01"
  /\ getMonthStart march_2024 (Some "15/03/2024")
     = Throw "Invalid date format. Use YYYY-MM-DD.".
Proof. repeat split; vm_compute; reflexivity. Qed.

(** A non-empty string the engine cannot read throws. *)
Lemma getMonthStart_unparsable rt s :
  s <> "" -> Date_parse rt s = None ->
  getMonthStart rt (Some s) = Throw "Invalid date format. Use YYYY-MM-DD.".
Proof.
  intros Hne Hp. unfold getMonthStart. simpl.
  apply String.eqb_neq in Hne. rewrite Hne. simpl. now rewrite Hp.
Qed.

(** ** The calendar, east and west *)

Ltac Zify.zify_post_hook ::= Z.to_euclidean_division_equations.

Lemma leap_false_spec y :
  leap y = false ->
  y mod 4 <> 0 \/ (y mod 100 = 0 /\ y mod 400 <> 0).
Proof.
  unfold leap. intro H. apply orb_false_iff in H as [H H400].
  apply Z.eqb_neq in H400.
  apply andb_false_iff in H as [H|H].
  - apply Z.eqb_neq in H. auto.
  - apply negb_false_iff, Z.eqb_eq in H. auto.
Qed.

Lemma days_in_month_range y m : 28 <= days_in_month y m <= 31.
Proof.
  unfold days_in_month.
  destruct (m =? 2); [destruct (leap y)|destruct (_ || _)]; lia.
Qed.

Lemma day_before_first y m :
  1 <= m <= 12 ->
  JSDate.civil_from_days (JSDate.days_from_civil y m 1 - 1)
  = last_of_previous_month (y, m, 1).
Proof.
  intro Hm.
  assert (Hc : m = 1 \/ m = 2 \/ m = 3 \/ m = 4 \/ m = 5 \/ m = 6 \/ m = 7
               \/ m = 8 \/ m = 9 \/ m = 10 \/ m = 11 \/ m = 12) by lia.
  unfold last_of_previous_month, first_of_previous_month.
  destruct (Z.eqb_spec m 1) as [->|Hne].
  - replace (JSDate.days_from_civil y 1 1 - 1)
      with (JSDate.days_from_civil (y - 1) 12 (days_in_month (y - 1) 12)).
    + apply civil_round_trip; [lia|]. unfold days_in_month. cbn. lia.
    + unfold JSDate.days_from_civil, days_in_month. cbn. lia.
  - replace (JSDate.days_from_civil y m 1 - 1)
      with (JSDate.days_from_civil y (m - 1) (days_in_month y (m - 1))).
    + apply civil_round_trip; [lia|].
      pose proof (days_in_month_range y (m - 1)). lia.
    + destruct Hc as [Hc|Hc]; [lia|].
      destruct Hc as [Hc|Hc];
        [subst m; unfold JSDate.days_from_civil, days_in_month; cbn; lia|].
      destruct Hc as [Hc|Hc].
      * subst m. unfold JSDate.days_from_civil, days_in_month.
        change (3 - 1 =? 2) with true. change (3 - 1 <=? 2) with true.
        change (3 <=? 2) with false. cbv iota.
        destruct (leap y) eqn:Hl.
        -- apply leap_spec in Hl. cbn. lia.
        -- apply leap_false_spec in Hl. cbn. lia.
      * repeat destruct Hc as [Hc|Hc]; subst m;
          unfold JSDate.days_from_civil, days_in_month; cbn; lia.
Qed.
Lemma Day_before d r :
  - JSDate.msPerDay <= r < 0 -> JSDate.Day (d * JSDate.msPerDay + r) = d - 1.
Proof. unfold JSDate.Day, JSDate.msPerDay. lia. Qed.

(** The server's civil date at midnight UTC of a day. *)
Lemma local_date_east rt y m d :
  0 <= offset rt < 1440 ->
  1 <= m <= 12 -> 1 <= d <= days_in_month y m ->
  local_date rt (JSDate.MakeDate (JSDate.MakeDay y (m - 1) d) 0) = (y, m, d).
Proof.
  intros Hoff Hm Hd.
  unfold local_date, LocalTime, JSDate.MakeDate.
  rewrite MakeDay_civil by lia.
  replace (JSDate.days_from_civil y m d * JSDate.msPerDay + 0
           + offset rt * JSDate.msPerMinute)
    with (JSDate.days_from_civil y m d * JSDate.msPerDay
          + offset rt * JSDate.msPerMinute) by lia.
  rewrite Day_within by (unfold JSDate.msPerDay, JSDate.msPerMinute; lia).
  now apply civil_round_trip.
Qed.

Lemma local_date_west_first rt y m :
  -1440 <= offset rt < 0 ->
  1 <= m <= 12 ->
  local_date rt (JSDate.MakeDate (JSDate.MakeDay y (m - 1) 1) 0)
  = last_of_previous_month (y, m, 1).
Proof.
  intros Hoff Hm.
  unfold local_date, LocalTime, JSDate.MakeDate.
  rewrite MakeDay_first by lia.
  replace (JSDate.days_from_civil y m 1 * JSDate.msPerDay + 0
           + offset rt * JSDate.msPerMinute)
    with (JSDate.days_from_civil y m 1 * JSDate.msPerDay
          + offset rt * JSDate.msPerMinute) by lia.
  rewrite Day_before by (unfold JSDate.msPerDay, JSDate.msPerMinute; lia).
  now apply day_before_first.
Qed.

Lemma first_of_previous_month_range y m :
  1 <= m <= 12 ->
  exists y' m', first_of_previous_month (y, m, 1) = (y', m', 1)
                /\ 1 <= m' <= 12 /\ y - 1 <= y' <= y.
Proof.
  intro Hm. unfold first_of_previous_month.
  destruct (Z.eqb_spec m 1); eexists; eexists; (split; [reflexivity|lia]).
Qed.

Ltac Zify.zify_post_hook ::= idtac.

Ltac Zify.zify_post_hook ::= Z.to_euclidean_division_equations.

Lemma last_of_previous_month_range y m :
  1 <= m <= 12 ->
  exists y' m' d', last_of_previous_month (y, m, 1) = (y', m', d')
                   /\ y - 1 <= y' <= y.
Proof.
  intro Hm. unfold last_of_previous_month, first_of_previous_month.
  destruct (Z.eqb_spec m 1); do 3 eexists; (split; [reflexivity|lia]).
Qed.

(** Kolkata's date at the midnight that starts a month on the clock of a
    server east of UTC+05:30: still the day before, the last of the month
    before. *)
Lemma toLocaleDateString_month_start_east rt y m :
  330 < offset rt <= 840 -> 1946 <= y <= 9999 -> 1 <= m <= 12 ->
  toLocaleDateString_enCA_Kolkata
    (UTC rt (JSDate.MakeDate (JSDate.days_from_civil y m 1) 0))
  = JSDate.ymd (last_of_previous_month (y, m, 1)).
Proof.
  intros Hoff Hy Hm. unfold toLocaleDateString_enCA_Kolkata.
  rewrite month_start_standard by lia.
  unfold UTC, JSDate.MakeDate.
  replace (JSDate.days_from_civil y m 1 * JSDate.msPerDay + 0
           - offset rt * JSDate.msPerMinute + 330 * JSDate.msPerMinute)
    with (JSDate.days_from_civil y m 1 * JSDate.msPerDay
          + (330 - offset rt) * JSDate.msPerMinute) by lia.
  rewrite Day_before by (unfold JSDate.msPerDay, JSDate.msPerMinute; lia).
  rewrite day_before_first by lia.
  destruct (last_of_previous_month_range y m Hm) as [y' [m' [d' [-> Hy']]]].
  apply enCA_ymd. lia.
Qed.

Ltac Zify.zify_post_hook ::= idtac.

(** The month start of the request's own instant east of UTC+05:30. *)
Lemma currentMonthStart_east rt y m d :
  330 < offset rt <= 840 ->
  local_date rt (clock rt) = (y, m, d) ->
  1946 <= y <= 9999 ->
  currentMonthStart rt = JSDate.ymd (last_of_previous_month (y, m, 1)).
Proof.
  intros Hoff Hl Hy. unfold currentMonthStart.
  destruct (month_start_of_local_date rt (clock rt) y m d Hl ltac:(lia))
    as [Hm ->].
  now apply toLocaleDateString_month_start_east.
Qed.

(** The month on the clock of the request, in either form. *)
Lemma clock_in_month_date rt y m :
  clock_in_month rt y m ->
  1946 <= y <= 9999 /\ exists d, local_date rt (clock rt) = (y, m, d).
Proof.
  intros [Hy Hl]. split; [exact Hy|].
  destruct (local_date rt (clock rt)) as [[y0 m0] d0]. cbn [fst] in Hl.
  inversion Hl; subst. now exists d0.
Qed.

(** What [getMonthStart()] returns during a request, by the server's zone:
    up to UTC+05:30 the first day of the month on the server's clock, east
    of it the day before that. *)
Lemma currentMonthStart_by_zone rt y m :
  clock_in_month rt y m ->
  (-720 <= offset rt <= 330 -> currentMonthStart rt = JSDate.ymd (y, m, 1))
  /\ (330 < offset rt <= 840 ->
      currentMonthStart rt = JSDate.ymd (last_of_previous_month (y, m, 1))).
Proof.
  intro H. destruct (clock_in_month_date rt y m H) as [Hy [d Hl]]. split.
  - intro Hoff. apply (currentMonthStart_calendar rt y m d); [lia|exact Hl|exact Hy].
  - intro Hoff. now apply (currentMonthStart_east rt y m d).
Qed.

(** Outside the years 1946 to 9999 the rendering shows: a year below 1000
    is printed without padding, and in 1942 Kolkata was at UTC+06:30, so
    that the midnight of a server at UTC+06:00 was already the same day
    there. *)
Lemma getMonthStart_early_years :
  getMonthStart march_2024 (Some "0500-06-15") = Ok "500-06-01"
  /\ local_date june_500 (clock june_500) = (500, 6, 15)
  /\ getMonthStart june_500 None = Ok "500-06-01"
  /\ getMonthStart utc_plus_6 (Some "1942-01-15") = Ok "1942-01-01"
  /\ getMonthStart utc_plus_6 (Some "2024-03-15") = Ok "2024-02-29"
  /\ JSDate.enCA (2024, 3, 1) = "2024-03-01"
  /\ JSDate.enCA (12024, 3, 1) = "12024-03-01"
  /\ JSDate.enCA (-1, 6, 1) = "2-06-01".
Proof. repeat split; vm_compute; reflexivity. Qed.

Lemma getMonthStart_now rt : getMonthStart rt None = Ok (currentMonthStart rt).
Proof. unfold getMonthStart, currentMonthStart. cbn [truthy_string]. reflexivity. Qed.

(** ** Lists and queries *)

Lemma single_some {A : Type} (l : list A) (x : A) :
  single l = Some x <-> l = [x].
Proof.
  split.
  - destruct l as [|a [|b l]]; simpl; intro H; try discriminate.
    now inversion H.
  - intros ->. reflexivity.
Qed.

Lemma filter_update_none {A : Type} (p q : A -> bool) (f : A -> A) (l : list A) :
  (forall r, In r l -> q r = true -> p (f r) = false) ->
  (forall r, In r l -> q r = false -> p r = false) ->
  filter p (map (fun r => if q r then f r else r) l) = [].
Proof.
  induction l as [|a l IH]; intros Hf Hr; simpl; [reflexivity|].
  destruct (q a) eqn:Hq.
  - rewrite (Hf a (or_introl eq_refl) Hq).
    apply IH; intros; [apply Hf | apply Hr]; simpl; auto.
  - rewrite (Hr a (or_introl eq_refl) Hq).
    apply IH; intros; [apply Hf | apply Hr]; simpl; auto.
Qed.

Lemma in_update {A : Type} (q : A -> bool) (f : A -> A) (l : list A) (x : A) :
  In x l -> q x = true -> In (f x) (map (fun r => if q r then f r else r) l).
Proof.
  intros Hin Hq. apply in_map_iff. exists x. now rewrite Hq.
Qed.

Lemma retire_tenant_inactive d t id :
  active_tenant id (retire_tenant d t) = false.
Proof. unfold active_tenant. simpl. apply andb_false_r. Qed.

Lemma in_singleton_filter {A : Type} (p : A -> bool) (l : list A) (x y : A) :
  filter p l = [x] -> In y l -> p y = true -> y = x.
Proof.
  intros H Hin Hp.
  assert (Hy : In y (filter p l)) by (apply filter_In; auto).
  rewrite H in Hy. destruct Hy as [<-|[]]. reflexivity.
Qed.

Lemma singleton_filter_in {A : Type} (p : A -> bool) (l : list A) (x : A) :
  filter p l = [x] -> In x l /\ p x = true.
Proof.
  intro H. apply filter_In. rewrite H. now left.
Qed.

Ltac run :=
  unfold respond, bind, must, attempt, found, param, select, update, insert,
    delete, send, pure;
  cbn [fst snd rows with_rows with_key from_tenants from_power_meters
       from_monthly_readings from_rent_history from_water_history
       from_maintenance_history tenants power_meters monthly_readings
       rent_history water_history maintenance_history serial next_serial].

(** ** Revising a tenant *)

Lemma overlay_no_fields t : Tenant.overlay Tenant.no_fields t = t.
Proof. now destruct t. Qed.

Lemma latest_in l t : latest l = Some t -> In t l.
Proof.
  revert t. induction l as [|a l IH]; simpl; intros t H; [discriminate|].
  destruct (latest l) as [u|].
  - destruct (Tenant.tenant_version a <? Tenant.tenant_version u);
      inversion H; subst; auto.
  - inversion H. now left.
Qed.

Lemma latest_max l t :
  latest l = Some t ->
  forall u, In u l -> Tenant.tenant_version u <= Tenant.tenant_version t.
Proof.
  revert t. induction l as [|a l IH]; simpl; intros t H u Hu; [contradiction|].
  destruct (latest l) as [w|] eqn:Hw.
  - specialize (IH w eq_refl).
    destruct (Tenant.tenant_version a <? Tenant.tenant_version w) eqn:Hlt;
      inversion H; subst; clear H.
    + apply Z.ltb_lt in Hlt. destruct Hu as [<-|Hu]; [lia|auto].
    + apply Z.ltb_ge in Hlt. destruct Hu as [<-|Hu]; [lia|].
      specialize (IH u Hu). lia.
  - inversion H; subst. destruct Hu as [<-|Hu]; [lia|].
    destruct l; [contradiction|]. simpl in Hw.
    destruct (latest l); [destruct (_ <? _)|]; discriminate.
Qed.

Lemma latest_newest l n :
  (forall u, In u l -> Tenant.tenant_version u < Tenant.tenant_version n) ->
  latest (l ++ [n]) = Some n.
Proof.
  induction l as [|a l IH]; intro H; simpl; [reflexivity|].
  rewrite IH by (intros; apply H; now right).
  assert (Ha := H a (or_introl eq_refl)).
  apply Z.ltb_lt in Ha. now rewrite Ha.
Qed.

Lemma latest_singleton l t : l = [t] -> latest l = Some t.
Proof. now intros ->. Qed.

Lemma this_version_active id v t :
  this_version id v t = true -> active_tenant id t = true.
Proof.
  unfold this_version, active_tenant. intro H.
  apply andb_prop in H as [H ->]. apply andb_prop in H as [-> _]. reflexivity.
Qed.

Lemma latest_this_version id l cur :
  latest (filter (active_tenant id) l) = Some cur ->
  In cur l /\ this_version id (Tenant.tenant_version cur) cur = true.
Proof.
  intro H. apply latest_in, filter_In in H as [Hin Hp]. split; [assumption|].
  unfold active_tenant in Hp. unfold this_version.
  apply andb_prop in Hp as [-> ->]. now rewrite Z.eqb_refl.
Qed.

(** After the current version is retired, the rows of the tenant that are
    still active are older versions. *)
Lemma older_after_retire id d l cur u :
  latest (filter (active_tenant id) l) = Some cur ->
  In u (filter (active_tenant id)
          (map (fun r => if this_version id (Tenant.tenant_version cur) r
                         then retire_tenant d r else r) l)) ->
  Tenant.tenant_version u < Tenant.tenant_version cur.
Proof.
  intros Hcur Hu. apply filter_In in Hu as [Hu Hact].
  apply in_map_iff in Hu as [r [Hr Hin]].
  destruct (this_version id (Tenant.tenant_version cur) r) eqn:Hv; subst u.
  - now rewrite retire_tenant_inactive in Hact.
  - assert (Hle : Tenant.tenant_version r <= Tenant.tenant_version cur).
    { apply (latest_max _ _ Hcur). apply filter_In. auto. }
    assert (Tenant.tenant_version r <> Tenant.tenant_version cur); [|lia].
    intro Heq. unfold this_version in Hv. unfold active_tenant in Hact.
    apply andb_prop in Hact as [Hid Hst].
    rewrite Hid, Hst, Heq, Z.eqb_refl in Hv. discriminate.
Qed.

(** A versioned revision with no fields, on a day [getMonthStart()] gives
    as [today]. *)
Lemma put_tenant_versioned_on rt s id cur today :
  getMonthStart rt None = Ok today ->
  latest (filter (active_tenant id) (tenants s)) = Some cur ->
  exists new s',
    respond (put_tenant rt id false Tenant.no_fields) s
      = (Json_tenant_update type_versioned (Some new), s')
    /\ respond (get_tenant id) s' = (Json_tenant new, s')
    /\ Tenant.tenant_version new = Tenant.tenant_version cur + 1
    /\ Tenant.status new = "active"
    /\ Tenant.end_date new = None
    /\ In new (tenants s')
    /\ In (retire_tenant today cur) (tenants s')
    /\ ~ In cur (tenants s').
Proof.
  intros Hnow Hcur.
  destruct (latest_this_version _ _ _ Hcur) as [Hin Hv].
  assert (Hact := this_version_active _ _ _ Hv).
  assert (Hid : Tenant.tenant_id cur = id).
  { unfold active_tenant in Hact. apply andb_prop in Hact as [H _].
    now apply Z.eqb_eq in H. }
  pose (new := Tenant.set_end_date None
                 (Tenant.set_start_date today
                    (Tenant.set_status "active"
                       (Tenant.set_tenant_version
                          (Tenant.tenant_version cur + 1) cur)))).
  assert (Hnew : active_tenant id new = true).
  { unfold active_tenant, new. simpl. now rewrite Hid, Z.eqb_refl. }
  exists new.
  exists (with_rows from_tenants
            (map (fun r => if this_version id (Tenant.tenant_version cur) r
                           then retire_tenant today r else r)
                 (tenants s) ++ [new]) s).
  unfold put_tenant, get_tenant, currentTenant. run.
  rewrite Hcur, Hnow. cbn. rewrite overlay_no_fields.
  split; [reflexivity|].
  repeat split.
  - cbn. rewrite filter_app. simpl. rewrite Hnew.
    rewrite latest_newest; [reflexivity|].
    intros u Hu. apply (older_after_retire _ _ _ _ _ Hcur) in Hu.
    unfold new. simpl. lia.
  - apply in_or_app. right. now left.
  - apply in_or_app. left.
    now apply (in_update (this_version id (Tenant.tenant_version cur))).
  - intro H. apply in_app_or in H as [H|[H|[]]].
    + apply in_map_iff in H as [r [Hr _]].
      destruct (this_version id (Tenant.tenant_version cur) r) eqn:Hr'.
      * rewrite <- Hr, retire_tenant_inactive in Hact. discriminate.
      * subst r. rewrite Hv in Hr'. discriminate.
    + apply (f_equal Tenant.tenant_version) in H. unfold new in H.
      simpl in H. lia.
Qed.

(** C5.  A versioned revision with no fields, read back, in the month [m]
    of the year [y] on the server's clock: the new row is the tenant's
    current one, one version up, active, without end date; the row it
    replaces is in the table with its version, inactive and ended.  On a
    server from UTC-12:00 to UTC+05:30 its [end_date] is the first day of
    that month, the current month's start; on a server east of UTC+05:30 it
    is the day before, the last day of the month before (the defect of
    [getMonthStart], C4). *)
Theorem put_tenant_versioned_round_trip rt s id cur y m :
  latest (filter (active_tenant id) (tenants s)) = Some cur ->
  clock_in_month rt y m ->
  exists new end_date s',
    respond (put_tenant rt id false Tenant.no_fields) s
      = (Json_tenant_update type_versioned (Some new), s')
    /\ respond (get_tenant id) s' = (Json_tenant new, s')
    /\ Tenant.tenant_version new = Tenant.tenant_version cur + 1
    /\ Tenant.status new = "active"
    /\ Tenant.end_date new = None
    /\ In new (tenants s')
    /\ In (retire_tenant end_date cur) (tenants s')
    /\ Tenant.tenant_version (retire_tenant end_date cur)
       = Tenant.tenant_version cur
    /\ Tenant.status (retire_tenant end_date cur) = "inactive"
    /\ Tenant.end_date (retire_tenant end_date cur) = Some end_date
    /\ ~ In cur (tenants s')
    /\ (-720 <= offset rt <= 330 -> end_date = JSDate.ymd (y, m, 1))
    /\ (330 < offset rt <= 840 ->
        end_date = JSDate.ymd (last_of_previous_month (y, m, 1))).
Proof.
  intros Hcur Hclock.
  destruct (put_tenant_versioned_on rt s id cur _ (getMonthStart_now rt) Hcur)
    as [new [s' [Hput [Hget [Hv [Hs [He [Hnew [Hold Hgone]]]]]]]]].
  exists new, (currentMonthStart rt), s'.
  repeat (split; [assumption || reflexivity|]).
  apply currentMonthStart_by_zone, Hclock.
Qed.

Lemma put_tenant_versioned_round_trip_witness :
  (exists new s',
      respond (put_tenant march_2024 1 false Tenant.no_fields) asha_db
        = (Json_tenant_update type_versioned (Some new), s')
      /\ respond (get_tenant 1) s' = (Json_tenant new, s')
      /\ Tenant.tenant_version new = 2
      /\ In (Tenant.mk 1 1 "inactive" "2024-01-01" (Some "2024-03-01") "Asha"
                       None None None None) (tenants s'))
  /\ (exists new s',
         respond (put_tenant utc_plus_9 1 false Tenant.no_fields) asha_db
           = (Json_tenant_update type_versioned (Some new), s')
         /\ respond (get_tenant 1) s' = (Json_tenant new, s')
         /\ Tenant.tenant_version new = 2
         /\ In (Tenant.mk 1 1 "inactive" "2024-01-01" (Some "2024-02-29") "Asha"
                          None None None None) (tenants s')).
Proof.
  split.
  - destruct (put_tenant_versioned_round_trip march_2024 asha_db 1 asha_v1
                2024 3)
      as (new & d & s' & Hput & Hget & Hv & _ & _ & _ & Hold & _ & _ & _ & _ & Hd & _);
      [reflexivity | split; [lia | reflexivity] |].
    rewrite (Hd ltac:(cbn; lia)) in Hold.
    exists new, s'. repeat split; assumption.
  - destruct (put_tenant_versioned_round_trip utc_plus_9 asha_db 1 asha_v1
                2024 3)
      as (new & d & s' & Hput & Hget & Hv & _ & _ & _ & Hold & _ & _ & _ & _ & _ & Hd);
      [reflexivity | split; [lia | reflexivity] |].
    rewrite (Hd ltac:(cbn; lia)) in Hold.
    exists new, s'. repeat split; assumption.
Defined.

(** A versioned revision whose [start_date] does not parse, on a day
    [getMonthStart()] gives as [today]. *)
Lemma put_tenant_versioned_bad_start_date_on rt s id cur fields sd today :
  getMonthStart rt None = Ok today ->
  Tenant.p_start_date fields = Some sd ->
  sd <> "" ->
  Date_parse rt sd = None ->
  filter (active_tenant id) (tenants s) = [cur] ->
  exists s',
    respond (put_tenant rt id false fields) s
      = (Error 400 "Invalid date format. Use YYYY-MM-DD.", s')
    /\ tenants s'
       = map (fun r => if this_version id (Tenant.tenant_version cur) r
                       then retire_tenant today r else r)
             (tenants s)
    /\ In (retire_tenant today cur) (tenants s')
    /\ List.length (tenants s') = List.length (tenants s)
    /\ filter (active_tenant id) (tenants s') = []
    /\ serial s' = serial s.
Proof.
  intros Hnow Hsd Hne Hparse Hone.
  assert (Hcur := latest_singleton _ _ Hone).
  destruct (latest_this_version _ _ _ Hcur) as [Hin Hv].
  unfold put_tenant, currentTenant. run.
  rewrite Hcur, Hnow. cbn.
  unfold getMonthStart. rewrite Hsd. cbn.
  apply String.eqb_neq in Hne. rewrite Hne. cbn. rewrite Hparse. cbn.
  eexists. split; [reflexivity|]. cbn.
  repeat split.
  - now apply (in_update (this_version id (Tenant.tenant_version cur))).
  - apply length_map.
  - apply filter_update_none.
    + intros. apply retire_tenant_inactive.
    + intros r Hr Hv'. destruct (active_tenant id r) eqn:Hact; [|reflexivity].
      rewrite (in_singleton_filter _ _ _ _ Hone Hr Hact), Hv in Hv'.
      discriminate.
Qed.

(** C9.  A versioned revision whose [start_date] does not parse answers 400
    with the date error after the tenant's active row has been retired: the
    row is inactive and ended, nothing is inserted, and the tenant is left
    without an active row.  In the month [m] of the year [y] on the server's
    clock, the [end_date] written is the first day of that month on a server
    from UTC-12:00 to UTC+05:30, and the last day of the month before on a
    server east of UTC+05:30 (the defect of [getMonthStart], C4). *)
Theorem put_tenant_versioned_bad_start_date rt s id cur fields sd y m :
  Tenant.p_start_date fields = Some sd ->
  sd <> "" ->
  Date_parse rt sd = None ->
  filter (active_tenant id) (tenants s) = [cur] ->
  clock_in_month rt y m ->
  exists end_date s',
    respond (put_tenant rt id false fields) s
      = (Error 400 "Invalid date format. Use YYYY-MM-DD.", s')
    /\ tenants s'
       = map (fun r => if this_version id (Tenant.tenant_version cur) r
                       then retire_tenant end_date r else r)
             (tenants s)
    /\ In (retire_tenant end_date cur) (tenants s')
    /\ Tenant.status (retire_tenant end_date cur) = "inactive"
    /\ Tenant.end_date (retire_tenant end_date cur) = Some end_date
    /\ List.length (tenants s') = List.length (tenants s)
    /\ filter (active_tenant id) (tenants s') = []
    /\ serial s' = serial s
    /\ (-720 <= offset rt <= 330 -> end_date = JSDate.ymd (y, m, 1))
    /\ (330 < offset rt <= 840 ->
        end_date = JSDate.ymd (last_of_previous_month (y, m, 1))).
Proof.
  intros Hsd Hne Hparse Hone Hclock.
  destruct (put_tenant_versioned_bad_start_date_on rt s id cur fields sd _
              (getMonthStart_now rt) Hsd Hne Hparse Hone)
    as [s' [Hput [Hrows [Hold [Hlen [Hnone Hserial]]]]]].
  exists (currentMonthStart rt), s'.
  repeat (split; [assumption || reflexivity|]).
  apply currentMonthStart_by_zone, Hclock.
Qed.

Lemma put_tenant_versioned_bad_start_date_witness :
  (exists s',
      respond (put_tenant march_2024 1 false junk_start_date) asha_db
        = (Error 400 "Invalid date format. Use YYYY-MM-DD.", s')
      /\ tenants s'
         = [Tenant.mk 1 1 "inactive" "2024-01-01" (Some "2024-03-01") "Asha"
                      None None None None]
      /\ filter (active_tenant 1) (tenants s') = [])
  /\ (exists s',
         respond (put_tenant utc_plus_9 1 false junk_start_date) asha_db
           = (Error 400 "Invalid date format. Use YYYY-MM-DD.", s')
         /\ tenants s'
            = [Tenant.mk 1 1 "inactive" "2024-01-01" (Some "2024-02-29") "Asha"
                         None None None None]
         /\ filter (active_tenant 1) (tenants s') = []).
Proof.
  split.
  - destruct (put_tenant_versioned_bad_start_date march_2024 asha_db 1 asha_v1
                junk_start_date "next month" 2024 3)
      as (d & s' & Hput & Hrows & _ & _ & _ & _ & Hnone & _ & Hd & _);
      [reflexivity | discriminate | reflexivity | reflexivity
      | split; [lia | reflexivity] |].
    rewrite (Hd ltac:(cbn; lia)) in Hrows.
    exists s'. repeat split; assumption.
  - destruct (put_tenant_versioned_bad_start_date utc_plus_9 asha_db 1 asha_v1
                junk_start_date "next month" 2024 3)
      as (d & s' & Hput & Hrows & _ & _ & _ & _ & Hnone & _ & _ & Hd);
      [reflexivity | discriminate | reflexivity | reflexivity
      | split; [lia | reflexivity] |].
    rewrite (Hd ltac:(cbn; lia)) in Hrows.
    exists s'. repeat split; assumption.
Defined.
(** ** Creating a power meter *)

(** C2.  A meter created with [start_date] 2024-03-15 and [initial_reading]
    100, on a server anywhere from UTC-12:00 to UTC+05:30: the meter starts on
    2024-03-01, the tenant's new version counts one meter more, and the
    baseline reading holds 100 twice, but its month is 2024-02-15, one month
    before the date as sent, not 2024-02-01. *)
Theorem post_power_meters_mid_month rt s tenant :
  -720 <= offset rt <= 330 ->
  Date_parse rt "2024-03-15" = Some 1710460800000 ->
  single (filter (active_tenant 1) (tenants s)) = Some tenant ->
  exists meter new reading s',
    respond (post_power_meters rt mid_march_meter) s
      = (Json_meter_create meter new reading, s')
    /\ Meter.start_date meter = "2024-03-01"
    /\ Reading.month reading = "2024-02-15"
    /\ Reading.month reading <> "2024-02-01"
    /\ Reading.meter_id reading = Meter.meter_id meter
    /\ Reading.previous_reading reading = Some 100
    /\ Reading.current_reading reading = Some 100
    /\ Tenant.power_meter_count new
       = Some (or_zero (Tenant.power_meter_count tenant) + 1)
    /\ Tenant.tenant_version new = Tenant.tenant_version tenant + 1
    /\ Tenant.status new = "active"
    /\ In meter (power_meters s') /\ In new (tenants s')
    /\ In reading (monthly_readings s').
Proof.
  intros Hoff Hparse Ht.
  assert (Hstart : getMonthStart rt (Some "2024-03-15") = Ok "2024-03-01").
  { assert (Hne : "2024-03-15" <> "") by discriminate.
    assert (Hl := local_month_mid_march rt ltac:(lia)).
    assert (H := getMonthStart_between rt _ _ ltac:(lia) Hne Hparse).
    rewrite Hl in H. apply H.
    destruct (local_date rt 1710460800000) as [[y m] d].
    inversion Hl; subst. cbn. lia. }
  assert (Hmonth := monthBefore_mid_march rt ltac:(lia)).
  unfold post_power_meters, activeTenant. run.
  rewrite getMonthStart_now. cbn. rewrite Hstart. cbn. rewrite Ht. cbn.
  rewrite Hparse. cbn. rewrite Hmonth.
  do 4 eexists. split; [reflexivity|]. cbn.
  repeat split;
    [ discriminate
    | apply in_or_app; right; left; reflexivity .. ].
Qed.

Lemma post_power_meters_mid_month_witness :
  exists meter new reading s',
    respond (post_power_meters march_2024 mid_march_meter) asha_db
      = (Json_meter_create meter new reading, s')
    /\ Meter.start_date meter = "2024-03-01"
    /\ Reading.month reading = "2024-02-15"
    /\ Reading.month reading <> "2024-02-01"
    /\ Reading.meter_id reading = Meter.meter_id meter
    /\ Reading.previous_reading reading = Some 100
    /\ Reading.current_reading reading = Some 100
    /\ Tenant.power_meter_count new
       = Some (or_zero (Tenant.power_meter_count asha_v1) + 1)
    /\ Tenant.tenant_version new = Tenant.tenant_version asha_v1 + 1
    /\ Tenant.status new = "active"
    /\ In meter (power_meters s') /\ In new (tenants s')
    /\ In reading (monthly_readings s').
Proof.
  apply (post_power_meters_mid_month march_2024 asha_db asha_v1);
    [simpl; lia | reflexivity | reflexivity].
Defined.

(** ** Moving a power meter's start date *)

Lemma filter_weaken {A : Type} (p q : A -> bool) (l : list A) (x : A) :
  In x (filter (fun r => p r && q r) l) -> In x (filter p l).
Proof.
  intro H. apply filter_In in H as [Hin Hp]. apply andb_prop in Hp as [Hp _].
  apply filter_In. auto.
Qed.

Lemma changed_start_date (cur : Meter.t) fields sd :
  Meter.p_start_date fields = Some sd -> sd <> "" ->
  sd <> Meter.start_date cur ->
  truthy_string (Meter.p_start_date fields) = true
  /\ String.eqb sd (Meter.start_date cur) = false.
Proof.
  intros Hsd Hne Hchg. split.
  - rewrite Hsd. simpl. apply String.eqb_neq in Hne. now rewrite Hne.
  - now apply String.eqb_neq.
Qed.

(** The in-place move of a start date, in the route's own terms: [d] is the
    normalized date and [t] the instant it parses to. *)
Lemma put_power_meter_rebase rt s id cur fields sd baseline d t :
  single (filter (fun m => (Meter.meter_id m =? id)
                           && is_active (Meter.status m))
                 (power_meters s)) = Some cur ->
  Meter.p_start_date fields = Some sd ->
  sd <> "" ->
  sd <> Meter.start_date cur ->
  filter (fun r => Reading.meter_id r =? id) (monthly_readings s)
    = [baseline] ->
  getMonthStart rt (Some sd) = Ok d ->
  Date_parse rt d = Some t ->
  exists first meter s',
    respond (put_power_meter rt id true fields) s
      = (Json_meter_rebase meter
           (Some (Reading.rebase (monthBefore rt t)
                                 (Meter.initial_reading meter) baseline)),
         s')
    /\ In first (power_meters s) /\ Meter.meter_id first = id
    /\ meter = Meter.overlay (Meter.with_start_date d fields) first
    /\ Meter.start_date meter = d
    /\ power_meters s'
       = map (fun m => if Meter.meter_id m =? id
                       then Meter.overlay (Meter.with_start_date d fields) m
                       else m)
             (power_meters s)
    /\ monthly_readings s'
       = map (fun r => if Reading.meter_id r =? id
                       then Reading.rebase (monthBefore rt t)
                              (Meter.initial_reading meter) r
                       else r)
             (monthly_readings s)
    /\ In (Reading.rebase (monthBefore rt t)
                          (Meter.initial_reading meter) baseline)
          (monthly_readings s')
    /\ tenants s' = tenants s.
Proof.
  intros Hcur Hsd Hne Hchg Hone Hd Ht.
  destruct (changed_start_date cur fields sd Hsd Hne Hchg) as [Htruthy Hdiff].
  assert (Hc := Hcur). apply single_some in Hc.
  assert (Hin : In cur (filter (fun m => Meter.meter_id m =? id)
                               (power_meters s))).
  { apply (filter_weaken _ (fun m => is_active (Meter.status m))).
    rewrite Hc. now left. }
  unfold put_power_meter, activeMeter. run.
  rewrite getMonthStart_now, Hcur. cbn. rewrite Htruthy. cbn.
  rewrite Hsd. cbn. rewrite Hdiff. cbn. rewrite Hd. cbn.
  rewrite !Hone. cbn.
  destruct (filter (fun m => Meter.meter_id m =? id) (power_meters s))
    as [|first rest] eqn:Hfirst; [contradiction|].
  assert (Hf : In first (power_meters s) /\ (Meter.meter_id first =? id) = true).
  { apply (filter_In (fun m => Meter.meter_id m =? id)).
    rewrite Hfirst. now left. }
  destruct Hf as [Hf1 Hf2]. apply Z.eqb_eq in Hf2.
  cbn. rewrite Ht. cbn. rewrite ?Hone. cbn.
  destruct (singleton_filter_in _ _ _ Hone) as [Hb1 Hb2].
  exists first, (Meter.overlay (Meter.with_start_date d fields) first).
  eexists. split; [reflexivity|]. cbn.
  repeat split; try assumption.
  now apply (in_update (fun r => Reading.meter_id r =? id)).
Qed.

(** C6.  An in-place update of an active meter with a [start_date] other than
    the stored one: unless exactly one reading row references the meter the
    answer is 400 (the conflict) and nothing is written.  With exactly one
    row, on a server from UTC to UTC+05:30 and for a date that falls in the
    month [month] of the year [y] on the server's clock, the meter rows get
    the first day of that month as [start_date], and the one reading row gets
    the first day of the month before as [month] and the meter's initial
    reading as both readings.  A versioned update that carries a
    [start_date] is always refused, with nothing written.  Off those servers
    the baseline does not follow the new start date: at UTC-08:00 a move to
    2024-05-20 puts the meter on 2024-05-01 and the baseline on 2024-03-31,
    at UTC+09:00 the meter on 2024-04-30 and the baseline on 2024-03-30. *)
Theorem put_power_meter_start_date rt :
  (forall s id cur fields sd,
      single (filter (fun m => (Meter.meter_id m =? id)
                               && is_active (Meter.status m))
                     (power_meters s)) = Some cur ->
      Meter.p_start_date fields = Some sd ->
      sd <> "" ->
      sd <> Meter.start_date cur ->
      List.length (filter (fun r => Reading.meter_id r =? id)
                          (monthly_readings s)) <> 1%nat ->
      exists msg,
        respond (put_power_meter rt id true fields) s = (Error 400 msg, s)
        /\ ((exists d, getMonthStart rt (Some sd) = Ok d) ->
            msg = "start_date update only allowed when exactly 1 monthly_readings record exists for this meter"))
  /\ (forall s id cur fields sd baseline t y month day,
         0 <= offset rt <= 330 ->
         single (filter (fun m => (Meter.meter_id m =? id)
                                  && is_active (Meter.status m))
                        (power_meters s)) = Some cur ->
         Meter.p_start_date fields = Some sd ->
         sd <> "" ->
         sd <> Meter.start_date cur ->
         filter (fun r => Reading.meter_id r =? id) (monthly_readings s)
           = [baseline] ->
         Date_parse rt sd = Some t ->
         local_date rt t = (y, month, day) ->
         1946 <= y <= 9999 ->
         reads_date_only rt (y, month, 1) ->
         exists first meter row s',
           respond (put_power_meter rt id true fields) s
             = (Json_meter_rebase meter (Some row), s')
           /\ In first (power_meters s) /\ Meter.meter_id first = id
           /\ meter
              = Meter.overlay
                  (Meter.with_start_date (JSDate.ymd (y, month, 1)) fields)
                  first
           /\ Meter.start_date meter = JSDate.ymd (y, month, 1)
           /\ power_meters s'
              = map (fun m => if Meter.meter_id m =? id
                              then Meter.overlay
                                     (Meter.with_start_date
                                        (JSDate.ymd (y, month, 1)) fields) m
                              else m)
                    (power_meters s)
           /\ row = Reading.rebase
                      (JSDate.ymd (first_of_previous_month (y, month, 1)))
                      (Meter.initial_reading meter) baseline
           /\ Reading.month row
              = JSDate.ymd (first_of_previous_month (y, month, 1))
           /\ Reading.previous_reading row = Meter.initial_reading meter
           /\ Reading.current_reading row = Meter.initial_reading meter
           /\ monthly_readings s'
              = map (fun r => if Reading.meter_id r =? id
                              then Reading.rebase
                                     (JSDate.ymd
                                        (first_of_previous_month (y, month, 1)))
                                     (Meter.initial_reading meter) r
                              else r)
                    (monthly_readings s)
           /\ In row (monthly_readings s')
           /\ tenants s' = tenants s)
  /\ (forall s id fields,
         truthy_string (Meter.p_start_date fields) = true ->
         respond (put_power_meter rt id false fields) s
         = (match single (filter (fun m => (Meter.meter_id m =? id)
                                           && is_active (Meter.status m))
                                 (power_meters s)) with
            | Some _ =>
                Error 400 "start_date update is only allowed for inPlace updates, not versioned updates"
            | None => Error 404 "Active meter not found"
            end, s))
  /\ (exists meter s',
         respond (put_power_meter utc_minus_8 2 true move_to_may)
                 (ledger [february 3 120])
         = (Json_meter_rebase meter
              (Some (Reading.mk 3 1 2 2 "2024-03-31" (Some 90) (Some 90)
                                (Some 5))), s')
         /\ Meter.start_date meter = "2024-05-01")
  /\ (exists meter s',
         respond (put_power_meter utc_plus_9 2 true move_to_may)
                 (ledger [february 3 120])
         = (Json_meter_rebase meter
              (Some (Reading.mk 3 1 2 2 "2024-03-30" (Some 90) (Some 90)
                                (Some 5))), s')
         /\ Meter.start_date meter = "2024-04-30").
Proof.
  split; [|split; [|split; [|split]]].
  - intros s id cur fields sd Hcur Hsd Hne Hchg Hcount.
    destruct (changed_start_date cur fields sd Hsd Hne Hchg) as [Htruthy Hdiff].
    unfold put_power_meter, activeMeter. run.
    rewrite getMonthStart_now, Hcur. cbn. rewrite Htruthy. cbn.
    rewrite Hsd. cbn. rewrite Hdiff. cbn.
    destruct (getMonthStart rt (Some sd)) as [d|m] eqn:Hd; cbn.
    + destruct (Z.of_nat _ =? 1) eqn:Hone.
      * apply Z.eqb_eq in Hone. lia.
      * cbn. eexists. split; [reflexivity|]. reflexivity.
    + eexists. split; [reflexivity|]. intros [d Hd']. discriminate.
  - intros s id cur fields sd baseline t y month day Hoff Hcur Hsd Hne Hchg
           Hone Hparse Hlocal Hy Hread.
    assert (Hmonth := civil_month_range (JSDate.Day (LocalTime rt t))).
    fold (local_date rt t) in Hmonth. rewrite Hlocal in Hmonth.
    cbn [fst snd] in Hmonth.
    assert (Hd : getMonthStart rt (Some sd) = Ok (JSDate.ymd (y, month, 1))).
    { assert (H := getMonthStart_between rt sd t ltac:(lia) Hne Hparse).
      rewrite Hlocal in H. apply H. exact Hy. }
    unfold reads_date_only in Hread. rewrite MakeDay_first in Hread by lia.
    destruct (put_power_meter_rebase rt s id cur fields sd baseline _ _
                Hcur Hsd Hne Hchg Hone Hd Hread)
      as (first & meter & s' & Hput & Hfirst & Hid & Hmeter & Hstart & Hrows
          & Hreadings & Hrow & Htenants).
    rewrite (monthBefore_first_of_month rt y month ltac:(lia) Hmonth)
      in Hput, Hreadings, Hrow.
    exists first, meter,
      (Reading.rebase (JSDate.ymd (first_of_previous_month (y, month, 1)))
                      (Meter.initial_reading meter) baseline), s'.
    repeat (split; [assumption || reflexivity|]). exact Htenants.
  - intros s id fields Htruthy.
    unfold put_power_meter, activeMeter. run. rewrite getMonthStart_now. cbn.
    destruct (single _); cbn; [rewrite Htruthy|]; reflexivity.
  - eexists. eexists. split; vm_compute; reflexivity.
  - eexists. eexists. split; vm_compute; reflexivity.
Qed.

Lemma put_power_meter_start_date_witness :
  (exists msg,
      respond (put_power_meter march_2024 2 true move_to_may)
              (ledger [february 3 120; february 4 125])
      = (Error 400 msg, ledger [february 3 120; february 4 125])
      /\ msg = "start_date update only allowed when exactly 1 monthly_readings record exists for this meter")
  /\ (exists meter s',
         respond (put_power_meter march_2024 2 true move_to_may)
                 (ledger [february 3 120])
         = (Json_meter_rebase meter
              (Some (Reading.mk 3 1 2 2 "2024-04-01" (Some 90) (Some 90) (Some 5))),
            s')
         /\ Meter.start_date meter = "2024-05-01"
         /\ monthly_readings s'
            = [Reading.mk 3 1 2 2 "2024-04-01" (Some 90) (Some 90) (Some 5)])
  /\ respond (put_power_meter march_2024 2 false move_to_may)
             (ledger [february 3 120])
     = (Error 400 "start_date update is only allowed for inPlace updates, not versioned updates",
        ledger [february 3 120]).
Proof.
  destruct (put_power_meter_start_date march_2024) as (Hbad & Hgood & Hver & _).
  split; [|split].
  - destruct (Hbad (ledger [february 3 120; february 4 125]) 2 meter_2
                move_to_may "2024-05-20" eq_refl eq_refl)
      as [msg [Hr Hm]]; [discriminate | discriminate | vm_compute; lia |].
    exists msg. split; [exact Hr|]. apply Hm. eexists. reflexivity.
  - destruct (Hgood (ledger [february 3 120]) 2 meter_2 move_to_may
                "2024-05-20" (february 3 120) 1716163200000 2024 5 20)
      as (first & meter & row & s' & Hr & _ & _ & Hm & Hs & _ & Hrow & _ & _
          & _ & Hrd & _);
      [cbn; lia | reflexivity | reflexivity | discriminate | discriminate
      | reflexivity | reflexivity | reflexivity | lia | reflexivity |].
    exists meter, s'. subst row meter. split; [exact Hr|]. split; [exact Hs|].
    rewrite Hrd. reflexivity.
  - apply (Hver (ledger [february 3 120]) 2 move_to_may). reflexivity.
Defined.
(** ** Deleting a power meter *)

(** Deleting a meter whose tenant has no active row, on a day
    [getMonthStart()] gives as [today]. *)
Lemma delete_power_meter_without_tenant_on rt s id meter today :
  getMonthStart rt None = Ok today ->
  single (filter (fun m => (Meter.meter_id m =? id) && is_active (Meter.status m))
                 (power_meters s)) = Some meter ->
  filter (active_tenant (Meter.tenant_id meter)) (tenants s) = [] ->
  exists s',
    respond (delete_power_meter rt id) s
      = (Error 404 "Active tenant not found", s')
    /\ tenants s' = tenants s
    /\ power_meters s'
       = map (fun m => if Meter.meter_id m =? id
                       then retire_meter today m else m)
             (power_meters s)
    /\ In (retire_meter today meter) (power_meters s')
    /\ filter (fun m => (Meter.meter_id m =? id) && is_active (Meter.status m))
              (power_meters s') = []
    /\ monthly_readings s' = monthly_readings s
    /\ serial s' = serial s.
Proof.
  intros Hnow Hm Ht.
  apply single_some in Hm.
  destruct (singleton_filter_in _ _ _ Hm) as [Hin Hp].
  apply andb_prop in Hp as [Hid _].
  unfold delete_power_meter, activeMeter, activeTenant. run.
  rewrite Hnow, Hm. cbn. rewrite Ht. cbn.
  eexists. split; [reflexivity|]. cbn.
  repeat split.
  - now apply (in_update (fun m => Meter.meter_id m =? id)).
  - apply filter_update_none.
    + intros r _ _. simpl. apply andb_false_r.
    + intros r _ Hr. now rewrite Hr.
Qed.

(** C10.  [DELETE /power-meters/:id] retires the meter before it looks the
    tenant up: when the meter's tenant has no active row the answer is 404
    "Active tenant not found", every row of that meter is already inactive
    and ended, and the tenants table is as it was (no new version, no
    [power_meter_count] change).  In the month [month] of the year [y] on
    the server's clock, the [end_date] written is the first day of that month on
    a server from UTC-12:00 to UTC+05:30, and the last day of the month
    before on a server east of UTC+05:30 (the defect of [getMonthStart],
    C4). *)
Theorem delete_power_meter_without_tenant rt s id meter y month :
  single (filter (fun m => (Meter.meter_id m =? id) && is_active (Meter.status m))
                 (power_meters s)) = Some meter ->
  filter (active_tenant (Meter.tenant_id meter)) (tenants s) = [] ->
  clock_in_month rt y month ->
  exists end_date s',
    respond (delete_power_meter rt id) s
      = (Error 404 "Active tenant not found", s')
    /\ tenants s' = tenants s
    /\ power_meters s'
       = map (fun m => if Meter.meter_id m =? id
                       then retire_meter end_date m else m)
             (power_meters s)
    /\ In (retire_meter end_date meter) (power_meters s')
    /\ Meter.status (retire_meter end_date meter) = "inactive"
    /\ Meter.end_date (retire_meter end_date meter) = Some end_date
    /\ filter (fun m => (Meter.meter_id m =? id) && is_active (Meter.status m))
              (power_meters s') = []
    /\ monthly_readings s' = monthly_readings s
    /\ serial s' = serial s
    /\ (-720 <= offset rt <= 330 -> end_date = JSDate.ymd (y, month, 1))
    /\ (330 < offset rt <= 840 ->
        end_date = JSDate.ymd (last_of_previous_month (y, month, 1))).
Proof.
  intros Hm Ht Hclock.
  destruct (delete_power_meter_without_tenant_on rt s id meter _
              (getMonthStart_now rt) Hm Ht)
    as (s' & Hdel & Htenants & Hrows & Hold & Hnone & Hreadings & Hserial).
  exists (currentMonthStart rt), s'.
  repeat (split; [assumption || reflexivity|]).
  apply currentMonthStart_by_zone, Hclock.
Qed.

Lemma delete_power_meter_without_tenant_witness :
  (exists s',
      respond (delete_power_meter march_2024 7) orphan_db
        = (Error 404 "Active tenant not found", s')
      /\ tenants s' = tenants orphan_db
      /\ power_meters s'
         = [Meter.mk 7 1 1 "inactive" "2024-01-01" (Some "2024-03-01") (Some 40)])
  /\ (exists s',
         respond (delete_power_meter utc_plus_9 7) orphan_db
           = (Error 404 "Active tenant not found", s')
         /\ tenants s' = tenants orphan_db
         /\ power_meters s'
            = [Meter.mk 7 1 1 "inactive" "2024-01-01" (Some "2024-02-29")
                        (Some 40)]).
Proof.
  split.
  - destruct (delete_power_meter_without_tenant march_2024 orphan_db 7
                orphan_meter 2024 3)
      as (d & s' & Hdel & Htenants & Hrows & _ & _ & _ & _ & _ & _ & Hd & _);
      [reflexivity | reflexivity | split; [lia | reflexivity] |].
    rewrite (Hd ltac:(cbn; lia)) in Hrows.
    exists s'. repeat split; assumption.
  - destruct (delete_power_meter_without_tenant utc_plus_9 orphan_db 7
                orphan_meter 2024 3)
      as (d & s' & Hdel & Htenants & Hrows & _ & _ & _ & _ & _ & _ & _ & Hd);
      [reflexivity | reflexivity | split; [lia | reflexivity] |].
    rewrite (Hd ltac:(cbn; lia)) in Hrows.
    exists s'. repeat split; assumption.
Defined.
(** ** Water and maintenance history *)

Lemma retire_all_active tenant_id d l :
  filter (active_tenant tenant_id)
    (map (fun r => if active_tenant tenant_id r then retire_tenant d r else r) l)
  = [].
Proof.
  apply filter_update_none.
  - intros. apply retire_tenant_inactive.
  - auto.
Qed.

(** C7.  Creating a water (or maintenance) history for a tenant whose flag is
    already set is refused with 400 (the conflict) and writes nothing; so is a
    second create straight after a first one that succeeded; so is a delete
    for a tenant whose flag is not set.  The create's message is the "already
    exists" one whenever its [start_date] is absent or parses. *)
Theorem history_flag_guards rt f :
  (forall s body tenant_id tenant,
      History.p_tenant_id body = Some tenant_id ->
      single (filter (active_tenant tenant_id) (tenants s)) = Some tenant ->
      truthy_bool (required f tenant) = true ->
      exists msg,
        respond (post_history rt f body) s = (Error 400 msg, s)
        /\ ((exists d, getMonthStart rt (History.p_start_date body) = Ok d) ->
            msg = already_exists f))
  /\ (forall s first history tenant s1 second,
         respond (post_history rt f first) s
           = (Json_history_create history tenant, s1) ->
         History.p_tenant_id second = History.p_tenant_id first ->
         exists msg,
           respond (post_history rt f second) s1 = (Error 400 msg, s1)
           /\ ((exists d, getMonthStart rt (History.p_start_date second) = Ok d) ->
               msg = already_exists f))
  /\ (forall s id history tenant,
         single (filter (fun h => (History.id h =? id)
                                  && is_active (History.status h))
                        (rows (from_history f) s)) = Some history ->
         single (filter (active_tenant (History.tenant_id history)) (tenants s))
           = Some tenant ->
         truthy_bool (required f tenant) = false ->
         respond (delete_history rt f id) s = (Error 400 (none_exists f), s)).
Proof.
  assert (guard : forall s body tenant_id tenant,
      History.p_tenant_id body = Some tenant_id ->
      single (filter (active_tenant tenant_id) (tenants s)) = Some tenant ->
      truthy_bool (required f tenant) = true ->
      exists msg,
        respond (post_history rt f body) s = (Error 400 msg, s)
        /\ ((exists d, getMonthStart rt (History.p_start_date body) = Ok d) ->
            msg = already_exists f)).
  { intros s body tenant_id tenant Hid Ht Hreq.
    unfold post_history, activeTenant. run. rewrite getMonthStart_now.
    destruct (getMonthStart rt (History.p_start_date body)) as [d|m] eqn:Hd.
    - rewrite Hid. cbn. rewrite Ht, Hreq. cbn.
      eexists. split; [reflexivity|]. auto.
    - cbn. eexists. split; [reflexivity|]. intros [d Hd']. discriminate. }
  split; [exact guard|]. split.
  - intros s first history tenant s1 second Hfirst Hsame.
    unfold post_history, activeTenant in Hfirst. revert Hfirst. run.
    rewrite getMonthStart_now.
    destruct (getMonthStart rt (History.p_start_date first)) as [d|m];
      [|discriminate].
    destruct (History.p_tenant_id first) as [tenant_id|]; [|discriminate].
    cbn.
    destruct (single (filter (active_tenant tenant_id) (tenants s)))
      as [old|]; [|discriminate].
    destruct (truthy_bool (required f old)); [discriminate|].
    destruct f; cbn; destruct (History.p_id first); cbn;
      intro Hfirst; inversion Hfirst; subst; clear Hfirst;
      (eapply guard;
       [ exact Hsame
       | cbn; rewrite filter_app, retire_all_active; cbn;
         unfold active_tenant; cbn; rewrite Z.eqb_refl; reflexivity
       | reflexivity ]).
  - intros s id history tenant Hh Ht Hreq.
    unfold delete_history, activeHistory, activeTenant. run.
    rewrite getMonthStart_now, Hh. cbn. rewrite Ht, Hreq. reflexivity.
Qed.

Lemma history_flag_guards_witness :
  (exists msg,
      respond (post_history march_2024 water (water_body "2024-04-02"))
              (mk_db [asha_watered] [] [] [] [water_row] [] 3)
        = (Error 400 msg, mk_db [asha_watered] [] [] [] [water_row] [] 3)
      /\ ((exists d, getMonthStart march_2024 (Some "2024-04-02") = Ok d) ->
          msg = already_exists water))
  /\ (exists msg s1,
         respond (post_history march_2024 water (water_body "2024-04-02"))
                 s1 = (Error 400 msg, s1)
         /\ snd (respond (post_history march_2024 water (water_body "2024-03-09"))
                         asha_db) = s1
         /\ msg = already_exists water)
  /\ respond (delete_history march_2024 water 2) dry_db
     = (Error 400 (none_exists water), dry_db).
Proof.
  destruct (history_flag_guards march_2024 water) as [H1 [H2 H3]].
  split; [|split].
  - apply (H1 _ (water_body "2024-04-02") 1 asha_watered); reflexivity.
  - destruct (H2 asha_db (water_body "2024-03-09") _ _ _ (water_body "2024-04-02")
                eq_refl eq_refl) as [msg [Hr Hm]].
    exists msg. eexists. split; [exact Hr|]. split; [reflexivity|].
    apply Hm. eexists. reflexivity.
  - apply (H3 dry_db 2 water_row asha_dry); reflexivity.
Defined.

(** ** Versioned updates of rent, water and maintenance history *)

Ltac branches :=
  repeat match goal with
         | |- context [match ?x with _ => _ end] =>
             lazymatch x with
             | context [match _ with _ => _ end] => fail
             | _ => destruct x; cbn
             end
         end.

Lemma put_rent_history_tenants rt id inPlace fields s :
  tenants (snd (respond (put_rent_history rt id inPlace fields) s)) = tenants s.
Proof.
  unfold put_rent_history, activeHistory. run. rewrite getMonthStart_now.
  cbn. branches; reflexivity.
Qed.

Lemma put_history_tenants rt f id inPlace fields s :
  tenants (snd (respond (put_history rt f id inPlace fields) s)) = tenants s.
Proof.
  unfold put_history, activeHistory. run. rewrite getMonthStart_now.
  destruct f; cbn; branches; reflexivity.
Qed.

(** The fields of the update are spread over the copied row, so a
    [tenant_version] among them is what the new row carries: the pin of the
    superseded row is not kept for every request. *)
Lemma put_rent_history_repinned :
  ~ (forall rt s id fields cur new s',
        single (filter (fun h => (History.id h =? id)
                                 && is_active (History.status h))
                       (rent_history s)) = Some cur ->
        respond (put_rent_history rt id false fields) s
          = (Json_history_update type_versioned (Some new), s') ->
        tenants s' = tenants s
        /\ History.tenant_version new = History.tenant_version cur).
Proof.
  intro H.
  destruct (H march_2024 rent_db 3 repin_v1 rent_row _ _ eq_refl eq_refl)
    as [_ Hv].
  discriminate Hv.
Qed.

(** C8.  A versioned update of a rent, water or maintenance history row
    never touches the tenants table.  The row it inserts carries the
    [tenant_version] of the row it supersedes when the request's fields have
    none; a [tenant_version] among the fields is stored as given, where the
    routes' own description promises the same [tenant_version]: with
    [tenant_version] 1 among the fields, the copy of a row pinned to version
    2 is stored under version 1. *)
Theorem history_versioned_update rt :
  (forall s id inPlace fields,
      tenants (snd (respond (put_rent_history rt id inPlace fields) s))
        = tenants s)
  /\ (forall f s id inPlace fields,
         tenants (snd (respond (put_history rt f id inPlace fields) s))
           = tenants s)
  /\ (forall s id fields cur,
         single (filter (fun h => (History.id h =? id)
                                  && is_active (History.status h))
                        (rent_history s)) = Some cur ->
         exists new s',
           respond (put_rent_history rt id false fields) s
             = (Json_history_update type_versioned (Some new), s')
           /\ In new (rent_history s')
           /\ In (retire_history (currentMonthStart rt) cur) (rent_history s')
           /\ History.status new = "active"
           /\ History.tenant_version new
              = over (History.p_tenant_version fields)
                     (History.tenant_version cur))
  /\ (forall f s id fields cur,
         single (filter (fun h => (History.id h =? id)
                                  && is_active (History.status h))
                        (rows (from_history f) s)) = Some cur ->
         (truthy_string (History.p_start_date fields) = true ->
          exists d, getMonthStart rt (History.p_start_date fields) = Ok d) ->
         exists new s',
           respond (put_history rt f id false fields) s
             = (Json_history_update type_versioned (Some new), s')
           /\ In new (rows (from_history f) s')
           /\ In (retire_history (currentMonthStart rt) cur)
                 (rows (from_history f) s')
           /\ History.status new = "active"
           /\ History.tenant_version new
              = over (History.p_tenant_version fields)
                     (History.tenant_version cur)).
Proof.
  split; [intros; apply put_rent_history_tenants|].
  split; [intros; apply put_history_tenants|].
  split.
  - intros s id fields cur Hcur.
    assert (Hc := Hcur). apply single_some, singleton_filter_in in Hc.
    destruct Hc as [Hin Hp]. apply andb_prop in Hp as [Hid _].
    unfold put_rent_history, activeHistory. run.
    rewrite getMonthStart_now, Hcur. cbn.
    destruct (History.p_id fields); cbn;
      (eexists; eexists; split; [reflexivity|]; cbn; repeat split;
       [ apply in_or_app; right; now left
       | apply in_or_app; left;
         now apply (in_update (fun h => History.id h =? id)) ]).
  - intros f s id fields cur Hcur Hdate.
    assert (Hc := Hcur). apply single_some, singleton_filter_in in Hc.
    destruct Hc as [Hin Hp]. apply andb_prop in Hp as [Hid _].
    unfold put_history, activeHistory. run.
    rewrite getMonthStart_now, Hcur. cbn.
    destruct (truthy_string (History.p_start_date fields)).
    + destruct (Hdate eq_refl) as [d ->]. cbn.
      destruct f, (History.p_id fields); cbn;
        (eexists; eexists; split; [reflexivity|]; cbn; repeat split;
         [ apply in_or_app; right; now left
         | apply in_or_app; left;
           now apply (in_update (fun h => History.id h =? id)) ]).
    + cbn.
      destruct f, (History.p_id fields); cbn;
        (eexists; eexists; split; [reflexivity|]; cbn; repeat split;
         [ apply in_or_app; right; now left
         | apply in_or_app; left;
           now apply (in_update (fun h => History.id h =? id)) ]).
Qed.

Lemma history_versioned_update_witness :
  (exists new s',
      respond (put_rent_history march_2024 3 false repin_v1) rent_db
        = (Json_history_update type_versioned (Some new), s')
      /\ In new (rent_history s')
      /\ In (retire_history (currentMonthStart march_2024) rent_row)
            (rent_history s')
      /\ History.status new = "active"
      /\ History.tenant_version new = 1)
  /\ (exists new s',
         respond (put_history march_2024 water 2 false History.no_fields) dry_db
           = (Json_history_update type_versioned (Some new), s')
         /\ In new (water_history s')
         /\ In (retire_history (currentMonthStart march_2024) water_row)
               (water_history s')
         /\ History.status new = "active"
         /\ History.tenant_version new = 2).
Proof.
  destruct (history_versioned_update march_2024) as [_ [_ [Hrent Hflag]]].
  split.
  - apply (Hrent rent_db 3 repin_v1 rent_row). reflexivity.
  - apply (Hflag water dry_db 2 History.no_fields water_row);
      [reflexivity | discriminate].
Defined.

(** ** The monthly reading ledger *)

(** The create in the route's own terms: [t] is the instant the requested
    month parses to, and the row looked up is the one under
    [previousMonth rt t]. *)
Lemma post_monthly_reading_lookup rt s body tenant_id tenant meter_id meter
      month t :
  Reading.p_tenant_id body = Some tenant_id ->
  single (filter (active_tenant tenant_id) (tenants s)) = Some tenant ->
  Reading.p_meter_id body = Some meter_id ->
  single (filter (fun m => (Meter.meter_id m =? meter_id)
                           && is_active (Meter.status m))
                 (power_meters s)) = Some meter ->
  Reading.p_month body = Some month ->
  Date_parse rt month = Some t ->
  let previous :=
    filter (fun r => (Reading.meter_id r =? meter_id)
                     && String.eqb (Reading.month r) (previousMonth rt t))
           (monthly_readings s) in
  (previous = [] \/ (2 <= List.length previous)%nat ->
   respond (post_monthly_reading rt body) s
   = (Error 400 ("Previous month (" ++ previousMonth rt t
                 ++ ") reading not found. Please enter that first."), s))
  /\ (forall last,
         previous = [last] ->
         let row :=
           Reading.mk (serial s) tenant_id (Tenant.tenant_version tenant)
                      meter_id month (Reading.current_reading last)
                      (Reading.p_current_reading body)
                      (Reading.p_rate_per_unit body) in
         respond (post_monthly_reading rt body) s
         = (Json_reading row,
            next_serial (with_rows from_monthly_readings
                           (monthly_readings s ++ [row]) s))).
Proof.
  intros Htid Ht Hmid Hm Hmonth Hparse previous.
  unfold post_monthly_reading, activeTenant, activeMeter. run.
  rewrite Htid. cbn. rewrite Ht. cbn. rewrite Hmid. cbn. rewrite Hm. cbn.
  rewrite Hmonth. cbn. rewrite Hparse. cbn.
  fold (previousMonth rt t). fold previous.
  split.
  - intros [Hnone|Hmany].
    + rewrite Hnone. reflexivity.
    + destruct previous as [|a [|b l]]; simpl in Hmany; try lia. reflexivity.
  - intros last Hone. rewrite Hone. reflexivity.
Qed.



(** ** One active row per tenant *)

Lemma count_map {A : Type} (p q : A -> bool) (g : A -> A) (l : list A) :
  (forall r, In r l -> p (g r) = true -> q r = true) ->
  (List.length (filter p (map g l)) <= List.length (filter q l))%nat.
Proof.
  induction l as [|a l IH]; intro H; simpl; [lia|].
  assert (IH' := IH (fun r Hr => H r (or_intror Hr))).
  destruct (p (g a)) eqn:Hp.
  - rewrite (H a (or_introl eq_refl) Hp). simpl. lia.
  - destruct (q a); simpl; lia.
Qed.

Lemma one_active_map (g : Tenant.t -> Tenant.t) l :
  (forall r id, In r l -> active_tenant id (g r) = true ->
                active_tenant id r = true) ->
  one_active l -> one_active (map g l).
Proof.
  intros H Hl id. specialize (Hl id).
  assert (Hc := count_map (active_tenant id) (active_tenant id) g l
                  (fun r Hr => H r id Hr)).
  lia.
Qed.

Lemma one_active_retire (q : Tenant.t -> bool) d l :
  one_active l ->
  one_active (map (fun r => if q r then retire_tenant d r else r) l).
Proof.
  apply one_active_map. intros r id _.
  destruct (q r); [now rewrite retire_tenant_inactive | auto].
Qed.

Lemma active_tenant_id id t : active_tenant id t = true -> Tenant.tenant_id t = id.
Proof.
  unfold active_tenant. intro H. apply andb_prop in H as [H _].
  now apply Z.eqb_eq.
Qed.

Lemma one_active_insert l n :
  one_active l ->
  filter (active_tenant (Tenant.tenant_id n)) l = [] ->
  one_active (l ++ [n]).
Proof.
  intros Hl Hn id. rewrite filter_app, length_app. simpl.
  destruct (active_tenant id n) eqn:Ha.
  - apply active_tenant_id in Ha. subst id. rewrite Hn. simpl. lia.
  - specialize (Hl id). simpl. lia.
Qed.

(** The version bump of the dependent routes. *)
Lemma one_active_bump tenant_id d l n :
  one_active l ->
  Tenant.tenant_id n = tenant_id ->
  one_active
    (map (fun r => if active_tenant tenant_id r then retire_tenant d r else r) l
     ++ [n]).
Proof.
  intros Hl Hn. apply one_active_insert.
  - now apply one_active_retire.
  - rewrite Hn. apply retire_all_active.
Qed.

Lemma one_active_current id l cur :
  one_active l ->
  latest (filter (active_tenant id) l) = Some cur ->
  filter (active_tenant id) l = [cur].
Proof.
  intros Hl Hcur. specialize (Hl id). apply latest_in in Hcur.
  destruct (filter (active_tenant id) l) as [|a [|b r]]; simpl in *;
    [contradiction | | lia].
  destruct Hcur as [->|[]]. reflexivity.
Qed.

Lemma retire_current_none id d l cur :
  filter (active_tenant id) l = [cur] ->
  filter (active_tenant id)
    (map (fun r => if this_version id (Tenant.tenant_version cur) r
                   then retire_tenant d r else r) l) = [].
Proof.
  intro Hone.
  destruct (latest_this_version _ _ _ (latest_singleton _ _ Hone)) as [_ Hv].
  apply filter_update_none.
  - intros. apply retire_tenant_inactive.
  - intros r Hr Hv'. destruct (active_tenant id r) eqn:Hact; [|reflexivity].
    rewrite (in_singleton_filter _ _ _ _ Hone Hr Hact), Hv in Hv'.
    discriminate.
Qed.

Lemma filter_nil_length {A : Type} (l : list A) : List.length l = 0%nat -> l = [].
Proof. now destruct l. Qed.

Lemma none_active_map j (g : Tenant.t -> Tenant.t) l :
  (forall r, In r l -> active_tenant j (g r) = true -> active_tenant j r = true) ->
  filter (active_tenant j) l = [] ->
  filter (active_tenant j) (map g l) = [].
Proof.
  intros H Hn. apply filter_nil_length.
  assert (Hc := count_map (active_tenant j) (active_tenant j) g l H).
  rewrite Hn in Hc. simpl in Hc. lia.
Qed.

(** [PUT /tenants/:id], in place. *)
Lemma one_active_in_place id cur (upd : Tenant.t -> Tenant.t) j l :
  one_active l ->
  (forall r, this_version id cur r = true -> Tenant.tenant_id (upd r) = j) ->
  j = id \/ filter (active_tenant j) l = [] ->
  one_active (map (fun r => if this_version id cur r then upd r else r) l).
Proof.
  intros Hl Hupd Hfree k.
  destruct (Z.eq_dec k j) as [->|Hk].
  - destruct Hfree as [->|Hfree].
    + specialize (Hl id).
      assert (Hc := count_map (active_tenant id) (active_tenant id)
                      (fun r => if this_version id cur r then upd r else r) l).
      cbv beta in Hc.
      assert (List.length
                (filter (active_tenant id)
                   (map (fun r => if this_version id cur r then upd r else r) l))
              <= List.length (filter (active_tenant id) l))%nat; [|lia].
      apply Hc. intros r _. destruct (this_version id cur r) eqn:Hv; [|auto].
      intros _. eapply this_version_active; eauto.
    + specialize (Hl id).
      assert (Hc := count_map (active_tenant j) (active_tenant id)
                      (fun r => if this_version id cur r then upd r else r) l).
      cbv beta in Hc.
      assert (List.length
                (filter (active_tenant j)
                   (map (fun r => if this_version id cur r then upd r else r) l))
              <= List.length (filter (active_tenant id) l))%nat; [|lia].
      apply Hc. intros r Hr. destruct (this_version id cur r) eqn:Hv.
      * intros _. eapply this_version_active; eauto.
      * intro Ha.
        assert (In r (filter (active_tenant j) l)) by (apply filter_In; auto).
        rewrite Hfree in H. contradiction.
  - specialize (Hl k).
    assert (Hc := count_map (active_tenant k) (active_tenant k)
                    (fun r => if this_version id cur r then upd r else r) l).
    cbv beta in Hc.
    assert (List.length
              (filter (active_tenant k)
                 (map (fun r => if this_version id cur r then upd r else r) l))
            <= List.length (filter (active_tenant k) l))%nat; [|lia].
    apply Hc. intros r _. destruct (this_version id cur r) eqn:Hv; [|auto].
    intro Ha. apply active_tenant_id in Ha. rewrite (Hupd r Hv) in Ha.
    congruence.
Qed.

Lemma post_tenants_one_active rt body s :
  one_active (tenants s) ->
  no_active (over (Tenant.p_tenant_id body) (serial s)) s ->
  one_active (tenants (snd (respond (post_tenants rt body) s))).
Proof.
  intros Hl Hfree. unfold post_tenants. run.
  destruct (getMonthStart rt (Tenant.p_start_date body)); cbn; [|exact Hl].
  destruct (Tenant.p_tenant_id body); cbn in *;
    apply one_active_insert; assumption.
Qed.

Lemma put_tenant_one_active rt id inPlace fields s :
  one_active (tenants s) ->
  match Tenant.p_tenant_id fields with
  | Some j => j = id \/ no_active j s
  | None => True
  end ->
  one_active (tenants (snd (respond (put_tenant rt id inPlace fields) s))).
Proof.
  intros Hl Hfree. unfold put_tenant, currentTenant. run.
  destruct (latest (filter (active_tenant id) (tenants s))) as [cur|] eqn:Hcur;
    cbn; [|exact Hl].
  rewrite getMonthStart_now. cbn.
  assert (Hone := one_active_current _ _ _ Hl Hcur).
  assert (Hid : Tenant.tenant_id cur = id).
  { apply latest_in, filter_In in Hcur as [_ H]. now apply active_tenant_id. }
  assert (Hj : over (Tenant.p_tenant_id fields) id = id
               \/ filter (active_tenant (over (Tenant.p_tenant_id fields) id))
                         (tenants s) = []).
  { destruct (Tenant.p_tenant_id fields); simpl; [destruct Hfree|]; auto. }
  destruct inPlace.
  - assert (Hstep : forall newStartDate,
      one_active
        (map (fun r =>
                if this_version id (Tenant.tenant_version cur) r
                then Tenant.set_start_date
                       (over newStartDate
                             (Tenant.start_date (Tenant.overlay fields r)))
                       (Tenant.overlay fields r)
                else r) (tenants s))).
    { intro d.
      apply (one_active_in_place id _ _ (over (Tenant.p_tenant_id fields) id));
        [assumption | | assumption].
      intros r Hv. apply this_version_active, active_tenant_id in Hv.
      simpl. destruct (Tenant.p_tenant_id fields); simpl; auto. }
    destruct (truthy_string (Tenant.p_start_date fields)); cbn.
    + destruct (getMonthStart rt (Tenant.p_start_date fields)) as [d|m]; cbn;
        [exact (Hstep (Some d)) | exact Hl].
    + exact (Hstep None).
  - cbn.
    assert (Hret : one_active
                     (map (fun r =>
                             if this_version id (Tenant.tenant_version cur) r
                             then retire_tenant (currentMonthStart rt) r else r)
                          (tenants s)))
      by now apply one_active_retire.
    assert (Hnew : forall d,
      one_active
        (map (fun r =>
                if this_version id (Tenant.tenant_version cur) r
                then retire_tenant (currentMonthStart rt) r else r) (tenants s)
         ++ [Tenant.set_tenant_id
               (over (Tenant.p_tenant_id fields) (Tenant.tenant_id cur))
               (Tenant.set_end_date None
                  (Tenant.set_start_date d
                     (Tenant.set_status "active"
                        (Tenant.set_tenant_version
                           (Tenant.tenant_version cur + 1)
                           (Tenant.overlay fields cur)))))])).
    { intro d. apply one_active_insert; [assumption|]. simpl.
      rewrite Hid. destruct Hj as [->|Hj].
      - now apply retire_current_none.
      - apply none_active_map; [|assumption].
        intros r _. destruct (this_version id (Tenant.tenant_version cur) r);
          [now rewrite retire_tenant_inactive | auto]. }
    destruct (truthy_string (Tenant.p_start_date fields)); cbn.
    + destruct (getMonthStart rt (Tenant.p_start_date fields)) as [d|m]; cbn;
        [exact (Hnew d) | exact Hret].
    + exact (Hnew (currentMonthStart rt)).
Qed.

Lemma delete_tenant_one_active rt id s :
  one_active (tenants s) ->
  one_active (tenants (snd (respond (delete_tenant rt id) s))).
Proof.
  intro Hl. unfold delete_tenant, currentTenant. run.
  destruct (latest (filter (active_tenant id) (tenants s))); cbn; [|exact Hl].
  rewrite getMonthStart_now. cbn. now apply one_active_retire.
Qed.

Ltac bumped Hl :=
  cbn; branches;
  first [ exact Hl
        | apply one_active_bump; [exact Hl | reflexivity] ].

Lemma post_power_meters_one_active rt body s :
  one_active (tenants s) ->
  one_active (tenants (snd (respond (post_power_meters rt body) s))).
Proof.
  intro Hl. unfold post_power_meters, activeTenant. run.
  rewrite getMonthStart_now. bumped Hl.
Qed.

Lemma delete_power_meter_one_active rt id s :
  one_active (tenants s) ->
  one_active (tenants (snd (respond (delete_power_meter rt id) s))).
Proof.
  intro Hl. unfold delete_power_meter, activeTenant, activeMeter. run.
  rewrite getMonthStart_now. bumped Hl.
Qed.

Lemma post_rent_history_one_active rt body s :
  one_active (tenants s) ->
  one_active (tenants (snd (respond (post_rent_history rt body) s))).
Proof.
  intro Hl. unfold post_rent_history, activeTenant. run.
  rewrite getMonthStart_now. bumped Hl.
Qed.

Lemma delete_rent_history_one_active rt id s :
  one_active (tenants s) ->
  one_active (tenants (snd (respond (delete_rent_history rt id) s))).
Proof.
  intro Hl. unfold delete_rent_history, activeTenant, activeHistory. run.
  rewrite getMonthStart_now. bumped Hl.
Qed.

Lemma post_history_one_active rt f body s :
  one_active (tenants s) ->
  one_active (tenants (snd (respond (post_history rt f body) s))).
Proof.
  intro Hl. unfold post_history, activeTenant. run.
  rewrite getMonthStart_now. destruct f; bumped Hl.
Qed.

Lemma delete_history_one_active rt f id s :
  one_active (tenants s) ->
  one_active (tenants (snd (respond (delete_history rt f id) s))).
Proof.
  intro Hl. unfold delete_history, activeTenant, activeHistory. run.
  rewrite getMonthStart_now. destruct f; bumped Hl.
Qed.

Lemma put_power_meter_tenants rt id inPlace fields s :
  tenants (snd (respond (put_power_meter rt id inPlace fields) s)) = tenants s.
Proof.
  unfold put_power_meter, activeMeter. run. rewrite getMonthStart_now.
  cbn. branches; reflexivity.
Qed.

Lemma post_monthly_reading_tenants rt body s :
  tenants (snd (respond (post_monthly_reading rt body) s)) = tenants s.
Proof.
  unfold post_monthly_reading, activeTenant, activeMeter. run.
  cbn. branches; reflexivity.
Qed.

Lemma put_monthly_reading_tenants id fields s :
  tenants (snd (respond (put_monthly_reading id fields) s)) = tenants s.
Proof.
  unfold put_monthly_reading. run. cbn. branches; reflexivity.
Qed.

Lemma delete_monthly_reading_tenants id s :
  tenants (snd (respond (delete_monthly_reading id) s)) = tenants s.
Proof. reflexivity. Qed.

Lemma one_active_pair a b :
  Tenant.tenant_id a <> Tenant.tenant_id b -> one_active [a; b].
Proof.
  intros Hab id. cbn [filter].
  destruct (active_tenant id a) eqn:Ha; destruct (active_tenant id b) eqn:Hb;
    simpl; try lia.
  apply active_tenant_id in Ha, Hb. congruence.
Qed.

Lemma one_active_two_tenants : one_active (tenants two_tenants).
Proof. apply one_active_pair. discriminate. Qed.

(** C1, as stated, fails: a tenant update spreads the request's fields over
    the row, so a [tenant_id] among them puts the new version under another
    tenant, next to that tenant's active row. *)
Lemma one_active_counterexample :
  ~ (forall rt s q,
        one_active (tenants s) ->
        one_active (tenants (snd (respond (serve rt q) s)))).
Proof.
  intro H.
  specialize (H march_2024 two_tenants (PUT_tenants 1 false become_bina)
                one_active_two_tenants 2).
  vm_compute in H. lia.
Qed.

(** C1, amended.  Every mutating route keeps at most one active row per
    [tenant_id], provided a tenant create or update does not write the
    [tenant_id] of another tenant that has an active row. *)
Theorem one_active_preserved rt s q :
  one_active (tenants s) ->
  tenant_id_free s q ->
  one_active (tenants (snd (respond (serve rt q) s))).
Proof.
  intros Hl Hfree. destruct q; simpl in *.
  - now apply post_tenants_one_active.
  - now apply put_tenant_one_active.
  - now apply delete_tenant_one_active.
  - now apply post_power_meters_one_active.
  - now rewrite put_power_meter_tenants.
  - now apply delete_power_meter_one_active.
  - now apply post_rent_history_one_active.
  - now rewrite put_rent_history_tenants.
  - now apply delete_rent_history_one_active.
  - now apply post_history_one_active.
  - now rewrite put_history_tenants.
  - now apply delete_history_one_active.
  - now rewrite post_monthly_reading_tenants.
  - now rewrite put_monthly_reading_tenants.
  - exact Hl.
Qed.

Lemma one_active_preserved_witness :
  one_active
    (tenants (snd (respond (serve march_2024 (PUT_tenants 1 false Tenant.no_fields))
                           two_tenants)))
  /\ one_active
       (tenants (snd (respond (serve march_2024
                                 (POST_tenants (Tenant.mk_patch None None None
                                    (Some "2024-03-09") None (Some "Chitra")
                                    None None None None)))
                              two_tenants))).
Proof.
  split.
  - apply (one_active_preserved march_2024 two_tenants
             (PUT_tenants 1 false Tenant.no_fields)).
    + apply one_active_pair. simpl. lia.
    + simpl. exact I.
  - apply (one_active_preserved march_2024 two_tenants
             (POST_tenants (Tenant.mk_patch None None None (Some "2024-03-09")
                              None (Some "Chitra") None None None None))).
    + apply one_active_pair. simpl. lia.
    + reflexivity.
Defined.

(** ** The date normalizer on other servers *)

(** X1.  On a server whose time zone lies from UTC to UTC+05:30 and whose
    engine reads the date-only form as midnight UTC, [getMonthStart] of any
    date of the years 1946 to 9999 is the first day of that date's month, and
    [getMonthStart] of that result is the same string again. *)
Theorem getMonthStart_utc_to_ist rt y m d :
  0 <= offset rt <= 330 ->
  1946 <= y <= 9999 -> 1 <= m <= 12 -> 1 <= d <= days_in_month y m ->
  reads_date_only rt (y, m, d) ->
  reads_date_only rt (y, m, 1) ->
  getMonthStart rt (Some (JSDate.ymd (y, m, d))) = Ok (JSDate.ymd (y, m, 1))
  /\ getMonthStart rt (Some (JSDate.ymd (y, m, 1))) = Ok (JSDate.ymd (y, m, 1)).
Proof.
  intros Hoff Hy Hm Hd Hread Hread1.
  split.
  - unfold reads_date_only in Hread.
    assert (H := getMonthStart_between rt _ _ ltac:(lia) (ymd_not_empty _) Hread).
    rewrite local_date_east in H by (assumption || lia).
    apply H. cbn [fst]. lia.
  - apply getMonthStart_again; [exact Hoff | exact Hm | lia | exact Hread1].
Qed.

Lemma getMonthStart_utc_to_ist_witness :
  getMonthStart march_2024 (Some "2024-03-15") = Ok "2024-03-01"
  /\ getMonthStart march_2024 (Some "2024-03-01") = Ok "2024-03-01".
Proof.
  apply (getMonthStart_utc_to_ist march_2024 2024 3 15);
    (reflexivity || (cbn; lia)).
Defined.

(** X2.  On a server east of Indian Standard Time, up to UTC+14:00,
    [getMonthStart] of a date-only string of the years 1946 to 9999 is the
    last day of the month before the date's month: the server's midnight of
    the first is still the day before in Kolkata. *)
Theorem getMonthStart_east_of_ist rt y m d :
  330 < offset rt <= 840 ->
  1946 <= y <= 9999 -> 1 <= m <= 12 -> 1 <= d <= days_in_month y m ->
  reads_date_only rt (y, m, d) ->
  getMonthStart rt (Some (JSDate.ymd (y, m, d)))
  = Ok (JSDate.ymd (last_of_previous_month (y, m, 1))).
Proof.
  intros Hoff Hy Hm Hd Hread. unfold reads_date_only in Hread.
  unfold getMonthStart. cbn [truthy_string new_Date body_field].
  destruct (String.eqb_spec (JSDate.ymd (y, m, d)) "") as [He|_];
    [now apply ymd_not_empty in He|].
  cbn [negb]. rewrite Hread.
  destruct (month_start_of_local_date rt _ y m d
              (local_date_east rt y m d ltac:(lia) Hm Hd) ltac:(lia))
    as [_ ->].
  now rewrite toLocaleDateString_month_start_east.
Qed.

Lemma getMonthStart_east_of_ist_witness :
  getMonthStart utc_plus_9 (Some "2024-03-15") = Ok "2024-02-29".
Proof.
  apply (getMonthStart_east_of_ist utc_plus_9 2024 3 15);
    (reflexivity || (cbn; lia)).
Defined.

(** X3.  On a server west of UTC, down to UTC-12:00, the first day of a
    month reads as the evening before, so [getMonthStart] of YYYY-MM-01 (a
    year from 1947 to 9999) is the first day of the month before; every
    further application steps one more month back. *)
Theorem getMonthStart_west_of_utc rt y m :
  -720 <= offset rt < 0 ->
  1947 <= y <= 9999 -> 1 <= m <= 12 ->
  reads_date_only rt (y, m, 1) ->
  getMonthStart rt (Some (JSDate.ymd (y, m, 1)))
  = Ok (JSDate.ymd (first_of_previous_month (y, m, 1))).
Proof.
  intros Hoff Hy Hm Hread. unfold reads_date_only in Hread.
  assert (H := getMonthStart_between rt _ _ ltac:(lia) (ymd_not_empty _) Hread).
  rewrite local_date_west_first in H by (assumption || lia).
  unfold last_of_previous_month in H.
  destruct (first_of_previous_month_range y m Hm) as [y' [m' [E [Hm' Hy']]]].
  rewrite E in *. cbn [first_of_month fst] in H. apply H. lia.
Qed.

Lemma getMonthStart_west_of_utc_witness :
  getMonthStart utc_minus_8 (Some "2024-03-01") = Ok "2024-02-01"
  /\ getMonthStart utc_minus_8 (Some "2024-02-01") = Ok "2024-01-01".
Proof.
  split.
  - apply (getMonthStart_west_of_utc utc_minus_8 2024 3);
      (reflexivity || (cbn; lia)).
  - apply (getMonthStart_west_of_utc utc_minus_8 2024 2);
      (reflexivity || (cbn; lia)).
Defined.

(** X4.  Called without a date, or with the empty string, [getMonthStart]
    does not throw: on a server from UTC-18:29 to UTC+05:30 whose clock
    stands in a year from 1946 to 9999 it returns the first day of the month
    the server's clock is in. *)
Theorem getMonthStart_without_date rt y m d :
  -1110 < offset rt <= 330 ->
  local_date rt (clock rt) = (y, m, d) ->
  1946 <= y <= 9999 ->
  getMonthStart rt None = Ok (JSDate.ymd (y, m, 1))
  /\ getMonthStart rt (Some "") = Ok (JSDate.ymd (y, m, 1)).
Proof.
  intros Hoff Hl Hy.
  assert (H : getMonthStart rt None = Ok (JSDate.ymd (y, m, 1))).
  { rewrite getMonthStart_now. f_equal.
    now apply (currentMonthStart_calendar rt y m d). }
  split; [exact H|]. exact H.
Qed.

Lemma getMonthStart_without_date_witness :
  getMonthStart march_2024 None = Ok (JSDate.ymd (2024, 3, 1))
  /\ getMonthStart march_2024 (Some "") = Ok (JSDate.ymd (2024, 3, 1)).
Proof.
  apply (getMonthStart_without_date march_2024 2024 3 20);
    [cbn; lia | reflexivity | lia].
Defined.

Ltac Zify.zify_post_hook ::= Z.to_euclidean_division_equations.

Lemma MakeDay_previous_first y m :
  1 <= m <= 12 ->
  exists y' m',
    first_of_previous_month (y, m, 1) = (y', m', 1)
    /\ 1 <= m' <= 12
    /\ JSDate.MakeDay y (m - 1 - 1) 1 = JSDate.days_from_civil y' m' 1.
Proof.
  intro Hm. unfold JSDate.MakeDay, first_of_previous_month.
  destruct (Z.eqb_spec m 1) as [->|Hne].
  - exists (y - 1), 12. split; [reflexivity|]. split; [lia|].
    change ((1 - 1 - 1) / 12) with (-1).
    change ((1 - 1 - 1) mod 12 + 1) with 12.
    replace (y + -1) with (y - 1) by lia. lia.
  - exists y, (m - 1). split; [reflexivity|]. split; [lia|].
    replace ((m - 1 - 1) / 12) with 0 by lia.
    replace ((m - 1 - 1) mod 12 + 1) with (m - 1) by lia.
    replace (y + 0) with y by lia. lia.
Qed.

Lemma digit_inj a b : JSDate.digit a = JSDate.digit b -> a mod 10 = b mod 10.
Proof.
  intro H. apply (f_equal JSDate.digit_val) in H.
  rewrite !digit_val_digit in H. now inversion H.
Qed.

Lemma ymd_day y1 m1 d1 y2 m2 d2 :
  0 <= d1 <= 99 -> 0 <= d2 <= 99 ->
  JSDate.ymd (y1, m1, d1) = JSDate.ymd (y2, m2, d2) -> d1 = d2.
Proof.
  intros H1 H2 H. unfold JSDate.ymd, JSDate.pad4, JSDate.pad2 in H.
  cbn [append] in H. inversion H.
  repeat match goal with
         | Hx : JSDate.digit _ = JSDate.digit _ |- _ => apply digit_inj in Hx
         end.
  lia.
Qed.

Lemma ymd_month y1 m1 d1 y2 m2 d2 :
  0 <= y1 <= 9999 -> 0 <= y2 <= 9999 -> 0 <= m1 <= 99 -> 0 <= m2 <= 99 ->
  JSDate.ymd (y1, m1, d1) = JSDate.ymd (y2, m2, d2) -> y1 = y2 /\ m1 = m2.
Proof.
  intros Hy1 Hy2 Hm1 Hm2 H. unfold JSDate.ymd, JSDate.pad4, JSDate.pad2 in H.
  cbn [append] in H. inversion H.
  repeat match goal with
         | Hx : JSDate.digit _ = JSDate.digit _ |- _ => apply digit_inj in Hx
         end.
  lia.
Qed.

Lemma clock_in_month_range rt y m : clock_in_month rt y m -> 1 <= m <= 12.
Proof.
  intros [_ Hl].
  assert (Hm := civil_month_range (JSDate.Day (LocalTime rt (clock rt)))).
  fold (local_date rt (clock rt)) in Hm.
  destruct (local_date rt (clock rt)) as [[y0 m0] d0]. cbn [fst snd] in *.
  now inversion Hl; subst.
Qed.

Ltac Zify.zify_post_hook ::= idtac.

(** East of UTC the server's midnight on the first of a month is still the
    day before in UTC, the zone [toISOString] renders. *)
Lemma previousMonth_east rt y m d :
  0 < offset rt <= 840 ->
  100 <= y <= 9999 -> 1 <= m <= 12 -> 1 <= d <= days_in_month y m ->
  previousMonth rt (JSDate.MakeDate (JSDate.MakeDay y (m - 1) d) 0)
  = JSDate.ymd (last_of_previous_month (first_of_previous_month (y, m, 1))).
Proof.
  intros Hoff Hy Hm Hd.
  unfold previousMonth, getFullYear, getMonth, JSDate.YearFromTime,
    JSDate.MonthFromTime.
  fold (local_date rt (JSDate.MakeDate (JSDate.MakeDay y (m - 1) d) 0)).
  rewrite local_date_east by (assumption || lia). cbn [fst snd].
  unfold toISODate, Date_of_fields, UTC, JSDate.MakeDate.
  replace ((0 <=? y) && (y <=? 99)) with false
    by (symmetry; apply andb_false_iff; lia).
  destruct (MakeDay_previous_first y m Hm) as [y' [m' [E [Hm' HD]]]].
  rewrite HD, E.
  replace (JSDate.days_from_civil y' m' 1 * JSDate.msPerDay + 0
           - offset rt * JSDate.msPerMinute)
    with (JSDate.days_from_civil y' m' 1 * JSDate.msPerDay
          + ( - (offset rt * JSDate.msPerMinute))) by lia.
  rewrite Day_before by (unfold JSDate.msPerDay, JSDate.msPerMinute; lia).
  now rewrite day_before_first.
Qed.


Lemma filter_none {A : Type} (p : A -> bool) (l : list A) :
  (forall r, In r l -> p r = false) -> filter p l = [].
Proof.
  induction l as [|a l IH]; intro H; [reflexivity|].
  cbn. rewrite (H a (or_introl eq_refl)). apply IH.
  intros r Hr. apply H. now right.
Qed.

Lemma last_of_previous_month_day c :
  exists y m d, last_of_previous_month c = (y, m, d) /\ 28 <= d <= 31.
Proof.
  unfold last_of_previous_month.
  destruct (first_of_previous_month c) as [[y m] d].
  exists y, m, (days_in_month y m). split; [reflexivity|].
  apply days_in_month_range.
Qed.

(** X5.  On a server east of UTC, up to UTC+14:00, [POST /monthly-reading]
    looks the previous reading up under the last day of the month two months
    back (the UTC date of the server's midnight on the first of the previous
    month).  A meter whose readings are all keyed by a first of a month
    therefore never has that row: the request is refused with 400 and writes
    nothing, whatever month it names. *)
Theorem post_monthly_reading_east_of_utc rt s body tenant_id tenant meter_id
    meter y m d :
  0 < offset rt <= 840 ->
  100 <= y <= 9999 -> 1 <= m <= 12 -> 1 <= d <= days_in_month y m ->
  reads_date_only rt (y, m, d) ->
  Reading.p_tenant_id body = Some tenant_id ->
  single (filter (active_tenant tenant_id) (tenants s)) = Some tenant ->
  Reading.p_meter_id body = Some meter_id ->
  single (filter (active_meter meter_id) (power_meters s)) = Some meter ->
  Reading.p_month body = Some (JSDate.ymd (y, m, d)) ->
  keyed_by_month_start meter_id (monthly_readings s) ->
  respond (post_monthly_reading rt body) s
  = (Error 400
       ("Previous month ("
        ++ JSDate.ymd (last_of_previous_month (first_of_previous_month (y, m, 1)))
        ++ ") reading not found. Please enter that first."), s).
Proof.
  intros Hoff Hy Hm Hd Hread Htid Ht Hmid Hmeter Hmonth Hkeys.
  unfold reads_date_only in Hread.
  unfold post_monthly_reading, activeTenant, activeMeter. run.
  rewrite Htid. cbn. rewrite Ht. cbn. rewrite Hmid. cbn.
  fold (active_meter meter_id). rewrite Hmeter. cbn.
  rewrite Hmonth. cbn [new_Date body_field]. rewrite Hread.
  match goal with
  | |- context [toISODate (Date_of_fields rt (getFullYear rt ?t)
                                          (getMonth rt ?t - 1) 1)] =>
      fold (previousMonth rt t)
  end.
  rewrite previousMonth_east by assumption.
  rewrite filter_none; [reflexivity|].
  intros r Hr.
  destruct (Z.eqb_spec (Reading.meter_id r) meter_id) as [E|_]; [|reflexivity].
  cbn [andb]. apply String.eqb_neq. intro Heq.
  destruct (Hkeys r Hr E) as [y0 [m0 Hk]].
  destruct (last_of_previous_month_day (first_of_previous_month (y, m, 1)))
    as [y1 [m1 [d1 [E1 Hd1]]]].
  rewrite E1, Hk in Heq. apply ymd_day in Heq; lia.
Qed.

Lemma post_monthly_reading_east_of_utc_witness :
  respond (post_monthly_reading utc_plus_9 march_body) february_ledger
  = (Error 400
       ("Previous month ("
        ++ JSDate.ymd (last_of_previous_month (first_of_previous_month (2024, 3, 1)))
        ++ ") reading not found. Please enter that first."), february_ledger).
Proof.
  apply (post_monthly_reading_east_of_utc utc_plus_9 february_ledger march_body
           1 asha_v2 2 meter_2 2024 3 1);
    try reflexivity; try (cbn; lia).
  intros r [<-|[]] _. now exists 2024, 2.
Defined.

(** X6.  On a UTC server, a reading created for the first day of a month
    that had none is the row the next month's create chains to: that create
    succeeds, and its [previous_reading] is the [current_reading] the first
    request carried. *)
Theorem post_monthly_reading_two_months rt s first_body next_body first s1
    tenant_id meter_id y m d :
  offset rt = 0 ->
  100 <= y <= 9999 -> 1 <= m <= 12 -> 1 <= d <= days_in_month y m ->
  reads_date_only rt (y, m, d) ->
  Reading.p_tenant_id first_body = Some tenant_id ->
  Reading.p_meter_id first_body = Some meter_id ->
  Reading.p_month first_body
    = Some (JSDate.ymd (first_of_previous_month (y, m, d))) ->
  filter (fun r => (Reading.meter_id r =? meter_id)
                   && String.eqb (Reading.month r)
                        (JSDate.ymd (first_of_previous_month (y, m, d))))
         (monthly_readings s) = [] ->
  respond (post_monthly_reading rt first_body) s = (Json_reading first, s1) ->
  Reading.p_tenant_id next_body = Some tenant_id ->
  Reading.p_meter_id next_body = Some meter_id ->
  Reading.p_month next_body = Some (JSDate.ymd (y, m, d)) ->
  exists next s2,
    respond (post_monthly_reading rt next_body) s1 = (Json_reading next, s2)
    /\ Reading.previous_reading next = Reading.p_current_reading first_body
    /\ Reading.previous_reading next = Reading.current_reading first
    /\ Reading.current_reading next = Reading.p_current_reading next_body
    /\ Reading.month next = JSDate.ymd (y, m, d)
    /\ monthly_readings s2 = monthly_readings s ++ [first; next].
Proof.
  intros Hoff Hy Hm Hd Hread Htid Hmid Hmonth Hfree Hfirst Htid' Hmid' Hmonth'.
  unfold reads_date_only in Hread. rewrite MakeDay_civil in Hread by exact Hm.
  assert (Hkey := previousMonth_utc rt y m d Hoff ltac:(lia) Hm Hd).
  set (key := JSDate.ymd (first_of_previous_month (y, m, d))) in *.
  clearbody key.
  revert Hfirst.
  unfold post_monthly_reading, activeTenant, activeMeter. run.
  rewrite Htid, Htid', Hmid, Hmid', Hmonth, Hmonth'. cbn.
  destruct (single (filter (active_tenant tenant_id) (tenants s)))
    as [tenant|] eqn:Ht; [|discriminate].
  cbn.
  destruct (single (filter (fun m0 => (Meter.meter_id m0 =? meter_id)
                                      && is_active (Meter.status m0))
                           (power_meters s))) as [meter|] eqn:Hmeter;
    [|discriminate].
  cbn.
  destruct (Date_parse rt key) as [t|]; [|discriminate].
  cbn.
  match goal with
  | |- context [single ?l] => destruct (single l) as [last|]; [|discriminate]
  end.
  cbn. intro Hfirst. inversion Hfirst; subst first s1; clear Hfirst.
  cbn. rewrite Ht. cbn. rewrite Hmeter. cbn. rewrite Hread.
  match goal with
  | |- context [toISODate (Date_of_fields rt (getFullYear rt ?t)
                                          (getMonth rt ?t - 1) 1)] =>
      fold (previousMonth rt t)
  end.
  rewrite Hkey. cbn [monthly_readings]. rewrite filter_app, Hfree. cbn.
  rewrite Z.eqb_refl, String.eqb_refl. cbn.
  do 2 eexists. split; [reflexivity|]. cbn.
  repeat split. now rewrite <- app_assoc.
Qed.

Lemma post_monthly_reading_two_months_witness :
  exists next s2,
    respond (post_monthly_reading march_2024
               (Reading.mk_patch None (Some 1) None (Some 2) (Some "2024-04-01")
                                 None (Some 190) (Some 5)))
            (next_serial
               (with_rows from_monthly_readings
                  (monthly_readings february_ledger
                   ++ [Reading.mk 10 1 2 2 "2024-03-01" (Some 120) (Some 150)
                                  (Some 5)])
                  february_ledger))
      = (Json_reading next, s2)
    /\ Reading.previous_reading next = Reading.p_current_reading march_body
    /\ Reading.previous_reading next
       = Reading.current_reading
           (Reading.mk 10 1 2 2 "2024-03-01" (Some 120) (Some 150) (Some 5))
    /\ Reading.current_reading next = Some 190
    /\ Reading.month next = JSDate.ymd (2024, 4, 1)
    /\ monthly_readings s2
       = monthly_readings february_ledger
         ++ [Reading.mk 10 1 2 2 "2024-03-01" (Some 120) (Some 150) (Some 5);
             next].
Proof.
  apply (post_monthly_reading_two_months march_2024 february_ledger march_body
           (Reading.mk_patch None (Some 1) None (Some 2) (Some "2024-04-01")
                             None (Some 190) (Some 5))
           (Reading.mk 10 1 2 2 "2024-03-01" (Some 120) (Some 150) (Some 5))
           _ 1 2 2024 4 1);
    try reflexivity; cbn; lia.
Defined.

(** ** Tenant routes *)

Lemma filter_map_same {A : Type} (p : A -> bool) (g : A -> A) (l : list A) :
  (forall r, In r l -> p (g r) = p r) ->
  filter p (map g l) = map g (filter p l).
Proof.
  induction l as [|a l IH]; intro H; [reflexivity|].
  cbn. rewrite (H a (or_introl eq_refl)).
  rewrite IH by (intros r Hr; apply H; now right).
  now destruct (p a).
Qed.

Lemma filter_refine {A : Type} (p q : A -> bool) (l : list A) (x : A) :
  filter p l = [x] ->
  (forall r, q r = true -> p r = true) ->
  q x = true ->
  filter q l = [x].
Proof.
  intros Hp Hsub Hx. induction l as [|a l IH]; [discriminate|].
  cbn in *. destruct (p a) eqn:Ea.
  - injection Hp as -> Hnil. rewrite Hx. f_equal.
    apply filter_none. intros r Hr.
    destruct (q r) eqn:Er; [|reflexivity].
    apply Hsub in Er.
    assert (Hin : In r (filter p l)) by (apply filter_In; auto).
    rewrite Hnil in Hin. destruct Hin.
  - destruct (q a) eqn:Eq; [apply Hsub in Eq; congruence|]. now apply IH.
Qed.

Lemma get_tenant_singleton id s t :
  filter (active_tenant id) (tenants s) = [t] ->
  respond (get_tenant id) s = (Json_tenant t, s).
Proof.
  intro H. unfold get_tenant, currentTenant. run. now rewrite H.
Qed.

(** X7.  [POST /tenants] creates the row as version 1 and active with the
    normalized [start_date], whatever [tenant_version] and [status] the body
    carries; its key is the body's [tenant_id], or else the store's next one,
    and the row is appended to the table. *)
Theorem post_tenants_first_version rt s body d :
  getMonthStart rt (Tenant.p_start_date body) = Ok d ->
  exists row,
    respond (post_tenants rt body) s
      = (Json_tenant row,
         match Tenant.p_tenant_id body with
         | Some _ => with_rows from_tenants (tenants s ++ [row]) s
         | None => next_serial (with_rows from_tenants (tenants s ++ [row]) s)
         end)
    /\ Tenant.tenant_version row = 1
    /\ Tenant.status row = "active"
    /\ Tenant.start_date row = d
    /\ Tenant.tenant_id row = over (Tenant.p_tenant_id body) (serial s)
    /\ Tenant.name row = over (Tenant.p_name body) "".
Proof.
  intro Hd. unfold post_tenants. run. rewrite Hd.
  destruct (Tenant.p_tenant_id body) as [k|] eqn:Hk; cbn;
    (eexists; split; [reflexivity|]); cbn; repeat split.
Qed.

Lemma post_tenants_first_version_witness :
  exists row,
    respond (post_tenants march_2024 inactive_version_7) asha_db
      = (Json_tenant row,
         match Tenant.p_tenant_id inactive_version_7 with
         | Some _ => with_rows from_tenants (tenants asha_db ++ [row]) asha_db
         | None =>
             next_serial (with_rows from_tenants (tenants asha_db ++ [row])
                                    asha_db)
         end)
    /\ Tenant.tenant_version row = 1
    /\ Tenant.status row = "active"
    /\ Tenant.start_date row = "2024-03-01"
    /\ Tenant.tenant_id row
       = over (Tenant.p_tenant_id inactive_version_7) (serial asha_db)
    /\ Tenant.name row = over (Tenant.p_name inactive_version_7) "".
Proof.
  apply (post_tenants_first_version march_2024 asha_db inactive_version_7
           "2024-03-01"). reflexivity.
Defined.

(** X8.  An in-place tenant update whose fields leave [tenant_id],
    [tenant_version] and [status] alone rewrites the one active row where it
    stands: the version and the status are kept, [start_date] is the
    normalized one when the fields carry a date, no row is added, rows of
    other tenants are untouched, and [GET /tenants/:id] then returns the
    rewritten row. *)
Theorem put_tenant_in_place_round_trip rt s id cur fields newStartDate :
  filter (active_tenant id) (tenants s) = [cur] ->
  keeps_identity fields ->
  (if truthy_string (Tenant.p_start_date fields)
   then exists d, getMonthStart rt (Tenant.p_start_date fields) = Ok d
                  /\ newStartDate = Some d
   else newStartDate = None) ->
  exists s',
    respond (put_tenant rt id true fields) s
      = (Json_tenant_update type_inPlace (Some (revised fields newStartDate cur)),
         s')
    /\ respond (get_tenant id) s'
       = (Json_tenant (revised fields newStartDate cur), s')
    /\ Tenant.tenant_version (revised fields newStartDate cur)
       = Tenant.tenant_version cur
    /\ Tenant.status (revised fields newStartDate cur) = "active"
    /\ Tenant.end_date (revised fields newStartDate cur)
       = over_null (Tenant.p_end_date fields) (Tenant.end_date cur)
    /\ List.length (tenants s') = List.length (tenants s)
    /\ (forall r, In r (tenants s) -> Tenant.tenant_id r <> id ->
                  In r (tenants s'))
    /\ serial s' = serial s.
Proof.
  intros Hone [Hid [Hver Hst]] Hdate.
  destruct (singleton_filter_in _ _ _ Hone) as [Hin Hact].
  assert (Hthis : this_version id (Tenant.tenant_version cur) cur = true).
  { unfold this_version. unfold active_tenant in Hact.
    apply andb_prop in Hact as [Ha Hb]. now rewrite Ha, Hb, Z.eqb_refl. }
  assert (Hkeep : forall r, active_tenant id (revised fields newStartDate r)
                            = active_tenant id r).
  { intro r. unfold active_tenant, revised. cbn. now rewrite Hid, Hst. }
  assert (Hfilter :
    filter (this_version id (Tenant.tenant_version cur)) (tenants s) = [cur]).
  { apply (filter_refine (active_tenant id)); [exact Hone| |exact Hthis].
    intros r. apply this_version_active. }
  assert (Hafter :
    filter (active_tenant id)
      (map (fun r => if this_version id (Tenant.tenant_version cur) r
                     then revised fields newStartDate r else r) (tenants s))
    = [revised fields newStartDate cur]).
  { rewrite filter_map_same.
    - rewrite Hone. cbn. now rewrite Hthis.
    - intros r _. destruct (this_version _ _ r); [apply Hkeep|reflexivity]. }
  assert (Hrest :
    Tenant.tenant_version (revised fields newStartDate cur)
      = Tenant.tenant_version cur
    /\ Tenant.status (revised fields newStartDate cur) = "active"
    /\ Tenant.end_date (revised fields newStartDate cur)
       = over_null (Tenant.p_end_date fields) (Tenant.end_date cur)
    /\ List.length
         (map (fun r => if this_version id (Tenant.tenant_version cur) r
                        then revised fields newStartDate r else r) (tenants s))
       = List.length (tenants s)
    /\ (forall r, In r (tenants s) -> Tenant.tenant_id r <> id ->
          In r (map (fun r => if this_version id (Tenant.tenant_version cur) r
                              then revised fields newStartDate r else r)
                    (tenants s)))).
  { repeat split.
    - unfold revised. cbn. now rewrite Hver.
    - unfold revised. cbn. rewrite Hst.
      unfold active_tenant in Hact. apply andb_prop in Hact as [_ Hb].
      now apply String.eqb_eq in Hb.
    - now rewrite length_map.
    - intros r Hr Hne. apply in_map_iff. exists r. split; [|exact Hr].
      unfold this_version.
      destruct (Z.eqb_spec (Tenant.tenant_id r) id); [contradiction|reflexivity]. }
  destruct Hrest as [R1 [R2 [R3 [R4 R5]]]].
  exists (with_rows from_tenants
            (map (fun r => if this_version id (Tenant.tenant_version cur) r
                           then revised fields newStartDate r else r)
                 (tenants s)) s).
  split; [|split; [apply get_tenant_singleton; exact Hafter|auto 10]].
  unfold put_tenant, currentTenant. run.
  rewrite Hone, getMonthStart_now. cbn.
  destruct (truthy_string (Tenant.p_start_date fields)) eqn:Htr.
  - destruct Hdate as [d [Hd ->]]. rewrite Hd. cbn.
    fold (revised fields (Some d)). now rewrite Hfilter.
  - subst newStartDate. cbn.
    fold (revised fields None). now rewrite Hfilter.
Qed.

Lemma put_tenant_in_place_round_trip_witness :
  exists s',
    respond (put_tenant march_2024 1 true (rename_to "Asha K")) asha_db
      = (Json_tenant_update type_inPlace
           (Some (revised (rename_to "Asha K") None asha_v1)), s')
    /\ respond (get_tenant 1) s'
       = (Json_tenant (revised (rename_to "Asha K") None asha_v1), s')
    /\ Tenant.tenant_version (revised (rename_to "Asha K") None asha_v1)
       = Tenant.tenant_version asha_v1
    /\ Tenant.status (revised (rename_to "Asha K") None asha_v1) = "active"
    /\ Tenant.end_date (revised (rename_to "Asha K") None asha_v1)
       = over_null (Tenant.p_end_date (rename_to "Asha K"))
                   (Tenant.end_date asha_v1)
    /\ List.length (tenants s') = List.length (tenants asha_db)
    /\ (forall r, In r (tenants asha_db) -> Tenant.tenant_id r <> 1 ->
                  In r (tenants s'))
    /\ serial s' = serial asha_db.
Proof.
  apply (put_tenant_in_place_round_trip march_2024 asha_db 1 asha_v1
           (rename_to "Asha K") None);
    [reflexivity | repeat split | reflexivity].
Defined.

Lemma retire_tenant_columns d t :
  Tenant.tenant_id (retire_tenant d t) = Tenant.tenant_id t
  /\ Tenant.tenant_version (retire_tenant d t) = Tenant.tenant_version t
  /\ is_active (Tenant.status (retire_tenant d t)) = false.
Proof. repeat split. Qed.

Lemma active_tenant_own t :
  is_active (Tenant.status t) = true ->
  active_tenant (Tenant.tenant_id t) t = true.
Proof. intro H. unfold active_tenant. now rewrite Z.eqb_refl, H. Qed.

Lemma active_tenant_status id t :
  active_tenant id t = true -> is_active (Tenant.status t) = true.
Proof. unfold active_tenant. intro H. now apply andb_prop in H. Qed.

(** Rows rewritten where they stand, key and version kept. *)
Lemma newest_active_update (q : Tenant.t -> bool) (upd : Tenant.t -> Tenant.t)
    id cur l :
  newest_active l ->
  filter (active_tenant id) l = [cur] ->
  (forall r, In r l -> q r = true -> r = cur) ->
  (forall r, Tenant.tenant_id (upd r) = Tenant.tenant_id r
             /\ Tenant.tenant_version (upd r) = Tenant.tenant_version r) ->
  newest_active (map (fun r => if q r then upd r else r) l).
Proof.
  intros Hinv Hone Hq Hupd a r Ha Hr Hid Hacta Hinr.
  destruct (singleton_filter_in _ _ _ Hone) as [Hcur Hcura].
  apply in_map_iff in Ha as [x [<- Hx]].
  apply in_map_iff in Hr as [x' [<- Hx']].
  destruct (q x) eqn:Qx, (q x') eqn:Qx'.
  - rewrite (Hq x Hx Qx), (Hq x' Hx' Qx') in *. congruence.
  - destruct (Hupd x) as [Ei Ev]. rewrite Ev. rewrite Ei in Hid.
    apply Hinv; try assumption.
    rewrite (Hq x Hx Qx). now apply active_tenant_status in Hcura.
  - destruct (Hupd x') as [Ei Ev]. rewrite Ei in Hid.
    rewrite (Hq x' Hx' Qx') in Hid.
    assert (x = cur).
    { apply (in_singleton_filter _ _ _ _ Hone Hx).
      rewrite <- (active_tenant_id _ _ Hcura), Hid.
      now apply active_tenant_own. }
    subst x. rewrite (Hq x' Hx' Qx') in Qx'. congruence.
  - now apply Hinv.
Qed.

(** Active rows retired and the next version appended. *)
Lemma newest_active_bump (q : Tenant.t -> bool) id cur d l n :
  newest_active l ->
  filter (active_tenant id) l = [cur] ->
  (forall r, In r l -> q r = true -> r = cur) ->
  q cur = true ->
  Tenant.tenant_id n = id ->
  Tenant.tenant_version n = Tenant.tenant_version cur + 1 ->
  newest_active (map (fun r => if q r then retire_tenant d r else r) l ++ [n]).
Proof.
  intros Hinv Hone Hq Hqcur Hn Hv a r Ha Hr Hid Hacta Hinr.
  destruct (singleton_filter_in _ _ _ Hone) as [Hcur Hcura].
  assert (Hcid := active_tenant_id _ _ Hcura).
  apply in_app_or in Ha as [Ha|[<-|[]]];
    apply in_app_or in Hr as [Hr|[<-|[]]].
  - apply (newest_active_update q (retire_tenant d) id cur l Hinv Hone Hq
             (fun r => conj eq_refl eq_refl) a r); assumption.
  - apply in_map_iff in Ha as [x [<- Hx]].
    destruct (q x) eqn:Qx; [discriminate|].
    assert (x = cur).
    { apply (in_singleton_filter _ _ _ _ Hone Hx).
      rewrite <- Hn, Hid. now apply active_tenant_own. }
    subst x. congruence.
  - apply in_map_iff in Hr as [x [<- Hx]]. rewrite Hv.
    destruct (q x) eqn:Qx.
    + rewrite (Hq x Hx Qx). cbn. lia.
    + assert (Tenant.tenant_version x < Tenant.tenant_version cur); [|lia].
      apply Hinv; try assumption; [congruence|].
      now apply active_tenant_status in Hcura.
  - congruence.
Qed.

Lemma this_version_current id l cur :
  filter (active_tenant id) l = [cur] ->
  (forall r, In r l -> this_version id (Tenant.tenant_version cur) r = true ->
             r = cur)
  /\ this_version id (Tenant.tenant_version cur) cur = true.
Proof.
  intro Hone. split.
  - intros r Hr Hv. apply (in_singleton_filter _ _ _ _ Hone Hr).
    now apply this_version_active in Hv.
  - destruct (singleton_filter_in _ _ _ Hone) as [_ Ha].
    unfold this_version. unfold active_tenant in Ha.
    apply andb_prop in Ha as [Ha Hb]. now rewrite Ha, Hb, Z.eqb_refl.
Qed.

Lemma active_tenant_current id l cur :
  filter (active_tenant id) l = [cur] ->
  (forall r, In r l -> active_tenant id r = true -> r = cur)
  /\ active_tenant id cur = true.
Proof.
  intro Hone. split.
  - intros r Hr Hv. exact (in_singleton_filter _ _ _ _ Hone Hr Hv).
  - now destruct (singleton_filter_in _ _ _ Hone).
Qed.

Lemma newest_active_insert l n :
  newest_active l ->
  (forall r, In r l -> Tenant.tenant_id r <> Tenant.tenant_id n) ->
  newest_active (l ++ [n]).
Proof.
  intros Hinv Hfree a r Ha Hr Hid Hacta Hinr.
  apply in_app_or in Ha as [Ha|[<-|[]]];
    apply in_app_or in Hr as [Hr|[<-|[]]].
  - now apply Hinv.
  - symmetry in Hid. now apply Hfree in Hid.
  - now apply Hfree in Hid.
  - congruence.
Qed.

Lemma post_tenants_newest rt body s :
  newest_active (tenants s) ->
  (forall r, In r (tenants s) ->
             Tenant.tenant_id r <> over (Tenant.p_tenant_id body) (serial s)) ->
  newest_active (tenants (snd (respond (post_tenants rt body) s))).
Proof.
  intros Hinv Hfree. unfold post_tenants. run.
  destruct (getMonthStart rt (Tenant.p_start_date body)); cbn; [|exact Hinv].
  destruct (Tenant.p_tenant_id body); cbn in *;
    apply newest_active_insert; assumption.
Qed.

Lemma put_tenant_newest rt id inPlace fields s :
  one_active (tenants s) ->
  newest_active (tenants s) ->
  Tenant.p_tenant_id fields = None ->
  Tenant.p_tenant_version fields = None ->
  newest_active (tenants (snd (respond (put_tenant rt id inPlace fields) s))).
Proof.
  intros Hl Hinv Hid Hver. unfold put_tenant, currentTenant. run.
  destruct (latest (filter (active_tenant id) (tenants s))) as [cur|] eqn:Hcur;
    cbn; [|exact Hinv].
  rewrite getMonthStart_now. cbn.
  assert (Hone := one_active_current _ _ _ Hl Hcur).
  destruct (this_version_current _ _ _ Hone) as [Hq Hqcur].
  assert (Hcid : Tenant.tenant_id cur = id).
  { destruct (singleton_filter_in _ _ _ Hone) as [_ Ha].
    now apply active_tenant_id in Ha. }
  destruct inPlace.
  - assert (Hstep : forall newStartDate,
      newest_active
        (map (fun r =>
                if this_version id (Tenant.tenant_version cur) r
                then Tenant.set_start_date
                       (over newStartDate
                             (Tenant.start_date (Tenant.overlay fields r)))
                       (Tenant.overlay fields r)
                else r) (tenants s))).
    { intro d.
      apply (newest_active_update _ _ id cur); try assumption.
      intro r. cbn. now rewrite Hid, Hver. }
    destruct (truthy_string (Tenant.p_start_date fields)); cbn.
    + destruct (getMonthStart rt (Tenant.p_start_date fields)) as [d|m]; cbn;
        [exact (Hstep (Some d)) | exact Hinv].
    + exact (Hstep None).
  - cbn.
    assert (Hret : newest_active
                     (map (fun r =>
                             if this_version id (Tenant.tenant_version cur) r
                             then retire_tenant (currentMonthStart rt) r else r)
                          (tenants s))).
    { apply (newest_active_update _ _ id cur); try assumption.
      intro r. now split. }
    assert (Hnew : forall d,
      newest_active
        (map (fun r =>
                if this_version id (Tenant.tenant_version cur) r
                then retire_tenant (currentMonthStart rt) r else r) (tenants s)
         ++ [Tenant.set_tenant_id
               (over (Tenant.p_tenant_id fields) (Tenant.tenant_id cur))
               (Tenant.set_end_date None
                  (Tenant.set_start_date d
                     (Tenant.set_status "active"
                        (Tenant.set_tenant_version
                           (Tenant.tenant_version cur + 1)
                           (Tenant.overlay fields cur)))))])).
    { intro d. apply (newest_active_bump _ id cur); try assumption.
      - cbn. now rewrite Hid.
      - reflexivity. }
    destruct (truthy_string (Tenant.p_start_date fields)); cbn.
    + destruct (getMonthStart rt (Tenant.p_start_date fields)) as [d|m]; cbn;
        [exact (Hnew d) | exact Hret].
    + exact (Hnew (currentMonthStart rt)).
Qed.

Lemma delete_tenant_newest rt id s :
  one_active (tenants s) ->
  newest_active (tenants s) ->
  newest_active (tenants (snd (respond (delete_tenant rt id) s))).
Proof.
  intros Hl Hinv. unfold delete_tenant, currentTenant. run.
  destruct (latest (filter (active_tenant id) (tenants s))) as [cur|] eqn:Hcur;
    cbn; [|exact Hinv].
  rewrite getMonthStart_now. cbn.
  assert (Hone := one_active_current _ _ _ Hl Hcur).
  destruct (this_version_current _ _ _ Hone) as [Hq Hqcur].
  apply (newest_active_update _ _ id cur); try assumption.
  intro r. now split.
Qed.

(** The bump of a dependent route, from the tenant it fetched. *)
Lemma newest_active_next tenant_id tenant d l n :
  newest_active l ->
  single (filter (active_tenant tenant_id) l) = Some tenant ->
  Tenant.tenant_id n = tenant_id ->
  Tenant.tenant_version n = Tenant.tenant_version tenant + 1 ->
  newest_active
    (map (fun r => if active_tenant tenant_id r then retire_tenant d r else r) l
     ++ [n]).
Proof.
  intros Hinv Ht Hn Hv. apply single_some in Ht.
  destruct (active_tenant_current _ _ _ Ht) as [Hq Hqcur].
  now apply (newest_active_bump _ tenant_id tenant).
Qed.

Ltac bumped_newest Hinv Ht :=
  cbn; branches;
  first [ exact Hinv
        | eapply newest_active_next; [exact Hinv | exact Ht | reflexivity .. ] ].

Lemma post_power_meters_newest rt body s :
  newest_active (tenants s) ->
  newest_active (tenants (snd (respond (post_power_meters rt body) s))).
Proof.
  intro Hinv. unfold post_power_meters, activeTenant. run.
  rewrite getMonthStart_now. cbn.
  destruct (getMonthStart rt (Meter.p_start_date body)); cbn; [|exact Hinv].
  destruct (Meter.p_tenant_id body) as [tenant_id|]; cbn; [|exact Hinv].
  destruct (single (filter (active_tenant tenant_id) (tenants s)))
    as [tenant|] eqn:Ht; [|exact Hinv].
  bumped_newest Hinv Ht.
Qed.

Lemma single_active_tenant_id tenant_id l tenant :
  single (filter (active_tenant tenant_id) l) = Some tenant ->
  Tenant.tenant_id tenant = tenant_id.
Proof.
  intro H. apply single_some in H.
  destruct (singleton_filter_in _ _ _ H) as [_ Ha].
  now apply active_tenant_id in Ha.
Qed.

Lemma delete_power_meter_newest rt id s :
  newest_active (tenants s) ->
  newest_active (tenants (snd (respond (delete_power_meter rt id) s))).
Proof.
  intro Hinv. unfold delete_power_meter, activeMeter, activeTenant. run.
  rewrite getMonthStart_now. cbn.
  destruct (single (filter _ (power_meters s))) as [meter|]; cbn;
    [|exact Hinv].
  destruct (single (filter (active_tenant (Meter.tenant_id meter)) (tenants s)))
    as [tenant|] eqn:Ht; [|exact Hinv].
  rewrite <- (single_active_tenant_id _ _ _ Ht) in Ht.
  bumped_newest Hinv Ht.
Qed.

Lemma post_rent_history_newest rt body s :
  newest_active (tenants s) ->
  newest_active (tenants (snd (respond (post_rent_history rt body) s))).
Proof.
  intro Hinv. unfold post_rent_history, activeTenant. run.
  rewrite getMonthStart_now. cbn.
  destruct (getMonthStart rt (History.p_start_date body)); cbn; [|exact Hinv].
  destruct (History.p_tenant_id body) as [tenant_id|]; cbn; [|exact Hinv].
  destruct (single (filter (active_tenant tenant_id) (tenants s)))
    as [tenant|] eqn:Ht; [|exact Hinv].
  bumped_newest Hinv Ht.
Qed.

Lemma delete_rent_history_newest rt id s :
  newest_active (tenants s) ->
  newest_active (tenants (snd (respond (delete_rent_history rt id) s))).
Proof.
  intro Hinv. unfold delete_rent_history, activeHistory, activeTenant. run.
  rewrite getMonthStart_now. cbn.
  destruct (single (filter _ (rent_history s))) as [rent|]; cbn;
    [|exact Hinv].
  destruct (single (filter (active_tenant (History.tenant_id rent)) (tenants s)))
    as [tenant|] eqn:Ht; [|exact Hinv].
  rewrite <- (single_active_tenant_id _ _ _ Ht) in Ht.
  bumped_newest Hinv Ht.
Qed.

Lemma post_history_newest rt f body s :
  newest_active (tenants s) ->
  newest_active (tenants (snd (respond (post_history rt f body) s))).
Proof.
  intro Hinv. unfold post_history, activeTenant. run.
  rewrite getMonthStart_now. cbn.
  destruct (getMonthStart rt (History.p_start_date body)); cbn; [|exact Hinv].
  destruct (History.p_tenant_id body) as [tenant_id|]; cbn; [|exact Hinv].
  destruct (single (filter (active_tenant tenant_id) (tenants s)))
    as [tenant|] eqn:Ht; [|exact Hinv].
  destruct f; bumped_newest Hinv Ht.
Qed.

Lemma delete_history_newest rt f id s :
  newest_active (tenants s) ->
  newest_active (tenants (snd (respond (delete_history rt f id) s))).
Proof.
  intro Hinv. unfold delete_history, activeHistory, activeTenant. run.
  rewrite getMonthStart_now. cbn.
  destruct (single (filter _ (rows (from_history f) s))) as [history|]; cbn;
    [|exact Hinv].
  destruct (single (filter (active_tenant (History.tenant_id history))
                           (tenants s)))
    as [tenant|] eqn:Ht; [|exact Hinv].
  rewrite <- (single_active_tenant_id _ _ _ Ht) in Ht.
  destruct f; bumped_newest Hinv Ht.
Qed.

(** X9.  The version order is an invariant of the router.  If at most one
    row per tenant is active and every retired row of a tenant has a lower
    [tenant_version] than its active row, the same holds after any request,
    provided a tenant create uses an id no row has and a tenant update does
    not carry [tenant_id] or [tenant_version]. *)
Theorem newest_active_preserved rt s q :
  one_active (tenants s) ->
  newest_active (tenants s) ->
  version_safe s q ->
  one_active (tenants (snd (respond (serve rt q) s)))
  /\ newest_active (tenants (snd (respond (serve rt q) s))).
Proof.
  intros Hl Hinv Hsafe. destruct q; simpl in *.
  - split.
    + apply post_tenants_one_active; [exact Hl|].
      apply filter_none. intros r Hr. unfold active_tenant.
      destruct (Z.eqb_spec (Tenant.tenant_id r)
                  (over (Tenant.p_tenant_id body) (serial s)));
        [now apply Hsafe in Hr | reflexivity].
    + now apply post_tenants_newest.
  - destruct Hsafe as [Hid Hver]. split.
    + apply put_tenant_one_active; [exact Hl|]. now rewrite Hid.
    + now apply put_tenant_newest.
  - split; [now apply delete_tenant_one_active|now apply delete_tenant_newest].
  - split; [now apply post_power_meters_one_active
           |now apply post_power_meters_newest].
  - now rewrite put_power_meter_tenants.
  - split; [now apply delete_power_meter_one_active
           |now apply delete_power_meter_newest].
  - split; [now apply post_rent_history_one_active
           |now apply post_rent_history_newest].
  - now rewrite put_rent_history_tenants.
  - split; [now apply delete_rent_history_one_active
           |now apply delete_rent_history_newest].
  - split; [now apply post_history_one_active|now apply post_history_newest].
  - now rewrite put_history_tenants.
  - split; [now apply delete_history_one_active
           |now apply delete_history_newest].
  - now rewrite post_monthly_reading_tenants.
  - now rewrite put_monthly_reading_tenants.
  - now split.
Qed.

Lemma newest_active_rent_db : newest_active (tenants rent_db).
Proof.
  intros a r Ha Hr Hid Hacta Hinr. cbn in Ha, Hr.
  destruct Ha as [<-|[<-|[]]]; [discriminate|].
  destruct Hr as [<-|[<-|[]]]; [reflexivity|discriminate].
Qed.

Lemma one_active_rent_db : one_active (tenants rent_db).
Proof.
  intro id. unfold rent_db. cbn [tenants filter].
  rewrite retire_tenant_inactive.
  destruct (active_tenant id asha_v2); cbn; lia.
Qed.

Lemma newest_active_preserved_witness :
  one_active
    (tenants (snd (respond (serve march_2024
                              (PUT_tenants 1 false (rename_to "Asha K")))
                           rent_db)))
  /\ newest_active
       (tenants (snd (respond (serve march_2024
                                 (PUT_tenants 1 false (rename_to "Asha K")))
                              rent_db))).
Proof.
  apply (newest_active_preserved march_2024 rent_db
           (PUT_tenants 1 false (rename_to "Asha K")));
    [apply one_active_rent_db | apply newest_active_rent_db
    | split; reflexivity].
Defined.

(** The soft delete of a tenant, with the date as [getMonthStart()] gives it. *)
Lemma delete_tenant_then_gone_run rt s id cur :
  filter (active_tenant id) (tenants s) = [cur] ->
  exists s',
    respond (delete_tenant rt id) s
      = (Json_tenant_delete (Some (retire_tenant (currentMonthStart rt) cur)), s')
    /\ respond (get_tenant id) s' = (Error 404 "Active tenant not found", s')
    /\ respond (delete_tenant rt id) s'
       = (Error 404 "Active tenant not found", s')
    /\ (forall inPlace fields,
           respond (put_tenant rt id inPlace fields) s'
           = (Error 404 "Active tenant not found", s'))
    /\ In (retire_tenant (currentMonthStart rt) cur) (tenants s')
    /\ List.length (tenants s') = List.length (tenants s)
    /\ serial s' = serial s.
Proof.
  intro Hone.
  destruct (this_version_current _ _ _ Hone) as [Hq Hqcur].
  assert (Hfilter :
    filter (this_version id (Tenant.tenant_version cur)) (tenants s) = [cur]).
  { apply (filter_refine (active_tenant id)); [exact Hone| |exact Hqcur].
    intros r. apply this_version_active. }
  assert (Hgone := retire_current_none id (currentMonthStart rt) _ _ Hone).
  destruct (singleton_filter_in _ _ _ Hone) as [Hin _].
  exists (with_rows from_tenants
            (map (fun r => if this_version id (Tenant.tenant_version cur) r
                           then retire_tenant (currentMonthStart rt) r else r)
                 (tenants s)) s).
  split; [|split; [|split; [|split; [|split; [|split]]]]].
  - unfold delete_tenant, currentTenant. run.
    rewrite Hone, getMonthStart_now. cbn. now rewrite Hfilter.
  - unfold get_tenant, currentTenant. run. now rewrite Hgone.
  - unfold delete_tenant, currentTenant. run. now rewrite Hgone.
  - intros inPlace fields. unfold put_tenant, currentTenant. run.
    now rewrite Hgone.
  - cbn. now apply (in_update (this_version id (Tenant.tenant_version cur))).
  - cbn. now rewrite length_map.
  - reflexivity.
Qed.

(** X10.  [DELETE /tenants/:id] retires the tenant's one active row in
    place (no row is added or removed): on a server from UTC-12:00 to
    UTC+05:30 the row is answered and stored inactive with [end_date] the
    first day of the month the server's clock is in (a year from 1946 to
    9999).  Afterwards [GET], a second [DELETE] and any [PUT] on that id
    answer 404 "Active tenant not found". *)
Theorem delete_tenant_then_gone rt s id cur y m :
  -720 <= offset rt <= 330 ->
  clock_in_month rt y m ->
  filter (active_tenant id) (tenants s) = [cur] ->
  exists s',
    respond (delete_tenant rt id) s
      = (Json_tenant_delete (Some (retire_tenant (JSDate.ymd (y, m, 1)) cur)), s')
    /\ respond (get_tenant id) s' = (Error 404 "Active tenant not found", s')
    /\ respond (delete_tenant rt id) s'
       = (Error 404 "Active tenant not found", s')
    /\ (forall inPlace fields,
           respond (put_tenant rt id inPlace fields) s'
           = (Error 404 "Active tenant not found", s'))
    /\ In (retire_tenant (JSDate.ymd (y, m, 1)) cur) (tenants s')
    /\ List.length (tenants s') = List.length (tenants s)
    /\ serial s' = serial s.
Proof.
  intros Hzone Hclock.
  rewrite <- (proj1 (currentMonthStart_by_zone rt y m Hclock) Hzone).
  apply delete_tenant_then_gone_run.
Qed.

Lemma delete_tenant_then_gone_witness :
  exists s',
    respond (delete_tenant march_2024 1) asha_db
      = (Json_tenant_delete
           (Some (Tenant.mk 1 1 "inactive" "2024-01-01" (Some "2024-03-01")
                            "Asha" None None None None)), s')
    /\ respond (get_tenant 1) s' = (Error 404 "Active tenant not found", s')
    /\ respond (delete_tenant march_2024 1) s'
       = (Error 404 "Active tenant not found", s')
    /\ (forall inPlace fields,
           respond (put_tenant march_2024 1 inPlace fields) s'
           = (Error 404 "Active tenant not found", s'))
    /\ In (Tenant.mk 1 1 "inactive" "2024-01-01" (Some "2024-03-01") "Asha"
                     None None None None) (tenants s')
    /\ List.length (tenants s') = List.length (tenants asha_db)
    /\ serial s' = serial asha_db.
Proof.
  apply (delete_tenant_then_gone march_2024 asha_db 1 asha_v1 2024 3);
    [cbn; lia | split; [lia | reflexivity] | reflexivity].
Defined.


(** ** Power meter routes *)

Lemma getMonthStart_falsy rt x :
  truthy_string x = false -> getMonthStart rt x = Ok (currentMonthStart rt).
Proof. intro H. unfold getMonthStart. now rewrite H. Qed.

Lemma after_bump_active tenant_id d new l :
  Tenant.tenant_id new = tenant_id ->
  is_active (Tenant.status new) = true ->
  filter (active_tenant tenant_id) (after_bump tenant_id d new l) = [new].
Proof.
  intros Hid Hact. unfold after_bump.
  rewrite filter_app, retire_all_active. cbn.
  unfold active_tenant. now rewrite Hid, Z.eqb_refl, Hact.
Qed.

(** A create whose [start_date] is falsy and is no date for [new Date], with
    the date as [getMonthStart()] gives it. *)
Lemma post_power_meters_without_start_date_run rt s body tenant_id tenant :
  truthy_string (Meter.p_start_date body) = false ->
  new_Date rt (body_field (Meter.p_start_date body)) = None ->
  Meter.p_tenant_id body = Some tenant_id ->
  single (filter (active_tenant tenant_id) (tenants s)) = Some tenant ->
  exists new meter s',
    respond (post_power_meters rt body) s
      = (Error 400 "Invalid month format. Use YYYY-MM-DD.", s')
    /\ tenants s' = after_bump tenant_id (currentMonthStart rt) new (tenants s)
    /\ Tenant.tenant_version new = Tenant.tenant_version tenant + 1
    /\ Tenant.power_meter_count new
       = Some (or_zero (Tenant.power_meter_count tenant) + 1)
    /\ Tenant.status new = "active"
    /\ power_meters s' = power_meters s ++ [meter]
    /\ Meter.status meter = "active"
    /\ Meter.start_date meter = currentMonthStart rt
    /\ Meter.initial_reading meter = Meter.p_initial_reading body
    /\ monthly_readings s' = monthly_readings s.
Proof.
  intros Hfalsy Hnan Htid Ht.
  unfold post_power_meters, activeTenant. run.
  rewrite getMonthStart_now. cbn.
  rewrite (getMonthStart_falsy rt _ Hfalsy). cbn.
  rewrite Htid. cbn. rewrite Ht. cbn.
  destruct (Meter.p_meter_id body) as [k|]; cbn; rewrite Hnan;
    (do 3 eexists; split; [reflexivity|]); cbn; repeat split.
Qed.

(** X11.  [POST /power-meters] with a body that has no [start_date] key
    ends in 400 "Invalid month format" only after it has written: the tenant
    is already bumped to the next version with one meter more, its old row
    retired, and the meter row is already inserted, active; no baseline
    reading exists for it.  On a server from UTC-12:00 to UTC+05:30 the old
    tenant row ends, and the new meter starts, on the first day of the month
    the server's clock is in (a year from 1946 to 9999). *)
Theorem post_power_meters_without_start_date rt s body tenant_id tenant y m :
  -720 <= offset rt <= 330 ->
  clock_in_month rt y m ->
  Meter.p_start_date body = None ->
  Meter.p_tenant_id body = Some tenant_id ->
  single (filter (active_tenant tenant_id) (tenants s)) = Some tenant ->
  exists new meter s',
    respond (post_power_meters rt body) s
      = (Error 400 "Invalid month format. Use YYYY-MM-DD.", s')
    /\ tenants s' = after_bump tenant_id (JSDate.ymd (y, m, 1)) new (tenants s)
    /\ Tenant.tenant_version new = Tenant.tenant_version tenant + 1
    /\ Tenant.power_meter_count new
       = Some (or_zero (Tenant.power_meter_count tenant) + 1)
    /\ Tenant.status new = "active"
    /\ power_meters s' = power_meters s ++ [meter]
    /\ Meter.status meter = "active"
    /\ Meter.start_date meter = JSDate.ymd (y, m, 1)
    /\ Meter.initial_reading meter = Meter.p_initial_reading body
    /\ monthly_readings s' = monthly_readings s.
Proof.
  intros Hzone Hclock Hnone.
  rewrite <- (proj1 (currentMonthStart_by_zone rt y m Hclock) Hzone).
  apply post_power_meters_without_start_date_run; now rewrite Hnone.
Qed.

Lemma post_power_meters_without_start_date_witness :
  exists new meter s',
    respond (post_power_meters march_2024 meter_without_start_date) asha_db
      = (Error 400 "Invalid month format. Use YYYY-MM-DD.", s')
    /\ tenants s' = after_bump 1 "2024-03-01" new (tenants asha_db)
    /\ Tenant.tenant_version new = 2
    /\ Tenant.power_meter_count new = Some 1
    /\ Tenant.status new = "active"
    /\ power_meters s' = power_meters asha_db ++ [meter]
    /\ Meter.status meter = "active"
    /\ Meter.start_date meter = "2024-03-01"
    /\ Meter.initial_reading meter = Some 100
    /\ monthly_readings s' = monthly_readings asha_db.
Proof.
  apply (post_power_meters_without_start_date march_2024 asha_db
           meter_without_start_date 1 asha_v1 2024 3);
    [cbn; lia | split; [lia | reflexivity] | reflexivity | reflexivity
    | reflexivity].
Defined.


(** X12.  [DELETE /power-meters/:id] on the only row of an active meter
    whose tenant has an active row: the meter is retired in place, the
    tenant's next version carries [power_meter_count] one lower but never
    below 0, that version is what [GET /tenants/:id] returns, and the monthly
    readings of the meter stay as they are. *)
Theorem delete_power_meter_count rt s id meter tenant :
  filter (fun m => Meter.meter_id m =? id) (power_meters s) = [meter] ->
  is_active (Meter.status meter) = true ->
  single (filter (active_tenant (Meter.tenant_id meter)) (tenants s))
    = Some tenant ->
  exists new s',
    respond (delete_power_meter rt id) s
      = (Json_meter_delete (Some (retire_meter (currentMonthStart rt) meter))
                           new, s')
    /\ Tenant.power_meter_count new
       = Some (Z.max (or_zero (Tenant.power_meter_count tenant) - 1) 0)
    /\ (exists c, Tenant.power_meter_count new = Some c /\ 0 <= c)
    /\ Tenant.tenant_version new = Tenant.tenant_version tenant + 1
    /\ Tenant.status new = "active"
    /\ Tenant.start_date new = currentMonthStart rt
    /\ tenants s'
       = after_bump (Meter.tenant_id meter) (currentMonthStart rt) new (tenants s)
    /\ respond (get_tenant (Meter.tenant_id meter)) s' = (Json_tenant new, s')
    /\ filter (fun m => Meter.meter_id m =? id) (power_meters s')
       = [retire_meter (currentMonthStart rt) meter]
    /\ monthly_readings s' = monthly_readings s.
Proof.
  intros Hm Hact Ht.
  assert (Htid := single_active_tenant_id _ _ _ Ht).
  destruct (singleton_filter_in _ _ _ Hm) as [Hin Hid].
  assert (Hactive :
    filter (fun m => (Meter.meter_id m =? id) && is_active (Meter.status m))
           (power_meters s) = [meter]).
  { apply (filter_refine (fun m => Meter.meter_id m =? id)); [exact Hm| |].
    - intros r Hr. now apply andb_prop in Hr.
    - now rewrite Hid, Hact. }
  assert (Hretired :
    filter (fun m => Meter.meter_id m =? id)
      (map (fun m => if Meter.meter_id m =? id
                     then retire_meter (currentMonthStart rt) m else m)
           (power_meters s))
    = [retire_meter (currentMonthStart rt) meter]).
  { rewrite filter_map_same.
    - rewrite Hm. cbn. now rewrite Hid.
    - intros r _. now destruct (Meter.meter_id r =? id) eqn:E. }
  unfold delete_power_meter, activeMeter, activeTenant. run.
  rewrite getMonthStart_now. cbn. rewrite Hactive. cbn. rewrite Ht. cbn.
  rewrite Hretired. cbn. rewrite Htid.
  do 2 eexists. split; [reflexivity|]. cbn.
  split; [reflexivity|]. split; [eexists; split; [reflexivity|lia]|].
  split; [lia|]. split; [reflexivity|]. split; [reflexivity|].
  split; [reflexivity|]. split; [|split; [exact Hretired|reflexivity]].
  apply get_tenant_singleton. cbn [tenants].
  rewrite filter_app, retire_all_active. cbn.
  unfold active_tenant. cbn. now rewrite Z.eqb_refl.
Qed.

Lemma delete_power_meter_count_witness :
  exists new s',
    respond (delete_power_meter march_2024 2) metered_db
      = (Json_meter_delete
           (Some (retire_meter (currentMonthStart march_2024) meter_2)) new, s')
    /\ Tenant.power_meter_count new = Some (Z.max (or_zero (Some 1) - 1) 0)
    /\ (exists c, Tenant.power_meter_count new = Some c /\ 0 <= c)
    /\ Tenant.tenant_version new = 2 + 1
    /\ Tenant.status new = "active"
    /\ Tenant.start_date new = currentMonthStart march_2024
    /\ tenants s'
       = after_bump (Meter.tenant_id meter_2) (currentMonthStart march_2024) new
                (tenants metered_db)
    /\ respond (get_tenant (Meter.tenant_id meter_2)) s' = (Json_tenant new, s')
    /\ filter (fun m => Meter.meter_id m =? 2) (power_meters s')
       = [retire_meter (currentMonthStart march_2024) meter_2]
    /\ monthly_readings s' = monthly_readings metered_db.
Proof.
  apply (delete_power_meter_count march_2024 metered_db 2 meter_2
           (Tenant.mk 1 2 "active" "2024-02-01" None "Asha" (Some 1) None None
                      None)); reflexivity.
Defined.

Lemma post_monthly_reading_no_meter rt body s meter_id :
  Reading.p_meter_id body = Some meter_id ->
  filter (active_meter meter_id) (power_meters s) = [] ->
  exists message,
    respond (post_monthly_reading rt body) s = (Error 404 message, s).
Proof.
  intros Hmid Hgone. unfold post_monthly_reading, activeTenant, activeMeter.
  run. destruct (Reading.p_tenant_id body) as [tenant_id|];
    [|eexists; reflexivity].
  cbn. destruct (single (filter (active_tenant tenant_id) (tenants s)));
    [|eexists; reflexivity].
  cbn. rewrite Hmid. cbn. fold (active_meter meter_id). rewrite Hgone.
  eexists; reflexivity.
Qed.

Lemma post_monthly_reading_unread rt body s meter_id :
  Reading.p_meter_id body = Some meter_id ->
  (forall r, In r (monthly_readings s) -> Reading.meter_id r <> meter_id) ->
  exists status message,
    respond (post_monthly_reading rt body) s = (Error status message, s).
Proof.
  intros Hmid Hunread. unfold post_monthly_reading, activeTenant, activeMeter.
  run. destruct (Reading.p_tenant_id body) as [tenant_id|];
    [|do 2 eexists; reflexivity].
  cbn. destruct (single (filter (active_tenant tenant_id) (tenants s)));
    [|do 2 eexists; reflexivity].
  cbn. rewrite Hmid. cbn.
  destruct (single (filter _ (power_meters s)));
    [|do 2 eexists; reflexivity].
  cbn. destruct (new_Date rt (body_field (Reading.p_month body)));
    [|do 2 eexists; reflexivity].
  cbn. rewrite filter_none; [do 2 eexists; reflexivity|].
  intros r Hr. apply andb_false_iff. left. apply Z.eqb_neq.
  now apply Hunread.
Qed.

(** A versioned meter update, with the date as [getMonthStart()] gives it. *)
Lemma put_power_meter_versioned_ledger_run rt s id cur fields :
  single (filter (active_meter id) (power_meters s)) = Some cur ->
  truthy_string (Meter.p_start_date fields) = false ->
  Meter.p_meter_id fields = None ->
  (forall m, In m (power_meters s) -> Meter.meter_id m <> serial s) ->
  (forall r, In r (monthly_readings s) -> Reading.meter_id r <> serial s) ->
  exists new s',
    respond (put_power_meter rt id false fields) s
      = (Json_meter_update type_versioned (Some new), s')
    /\ Meter.meter_id new = serial s
    /\ Meter.meter_id new <> id
    /\ Meter.status new = "active"
    /\ Meter.start_date new = currentMonthStart rt
    /\ tenants s' = tenants s
    /\ monthly_readings s' = monthly_readings s
    /\ filter (active_meter id) (power_meters s') = []
    /\ (forall body,
           Reading.p_meter_id body = Some id ->
           exists message,
             respond (post_monthly_reading rt body) s' = (Error 404 message, s'))
    /\ (forall body,
           Reading.p_meter_id body = Some (serial s) ->
           exists status message,
             respond (post_monthly_reading rt body) s'
             = (Error status message, s')).
Proof.
  intros Hcur Hfalsy Hkey Hfresh Hunread.
  unfold active_meter in Hcur.
  assert (Hone := Hcur). apply single_some in Hone.
  destruct (singleton_filter_in _ _ _ Hone) as [Hin Hact].
  apply andb_prop in Hact as [Hid _]. apply Z.eqb_eq in Hid.
  assert (Hne : serial s <> id).
  { intro E. apply (Hfresh cur Hin). congruence. }
  set (new := Meter.set_meter_id (serial s)
                (Meter.set_status "active"
                   (Meter.set_start_date (currentMonthStart rt)
                      (Meter.overlay fields cur)))).
  set (s' := next_serial
               (with_rows from_power_meters
                  (map (fun m => if Meter.meter_id m =? id
                                 then retire_meter (currentMonthStart rt) m
                                 else m) (power_meters s) ++ [new]) s)).
  assert (Hgone : filter (active_meter id) (power_meters s') = []).
  { subst s'. cbn [power_meters next_serial with_rows from_power_meters].
    rewrite filter_app. unfold active_meter at 2. cbn [filter].
    replace (Meter.meter_id new =? id) with false
      by (symmetry; apply Z.eqb_neq; exact Hne).
    cbn. rewrite app_nil_r. apply filter_update_none.
    - intros r _ _. unfold active_meter. cbn. apply andb_false_r.
    - intros r _ Hr. unfold active_meter. now rewrite Hr. }
  exists new, s'.
  split; [|split; [reflexivity|split; [exact Hne|split; [reflexivity|
    split; [reflexivity|split; [reflexivity|split; [reflexivity|
    split; [exact Hgone|split]]]]]]]].
  - unfold put_power_meter, activeMeter. run.
    rewrite getMonthStart_now. cbn. rewrite Hcur. cbn.
    rewrite Hfalsy. cbn. now rewrite Hkey.
  - intros body Hmid. now apply post_monthly_reading_no_meter with id.
  - intros body Hmid. apply post_monthly_reading_unread with (serial s);
      [exact Hmid|exact Hunread].
Qed.

(** X13.  A versioned power meter update (no [start_date], no [meter_id]
    among the fields) retires the meter and inserts its copy under the
    store's next key, without touching the tenants or the monthly readings;
    on a server from UTC-12:00 to UTC+05:30 the copy starts on the first day
    of the month the server's clock is in (a year from 1946 to 9999).  The
    old id has no active meter any more, so a monthly reading for it is
    refused with 404; the new id has no reading at all, so a monthly reading
    for it is refused as well. *)
Theorem put_power_meter_versioned_ledger rt s id cur fields y month :
  -720 <= offset rt <= 330 ->
  clock_in_month rt y month ->
  single (filter (active_meter id) (power_meters s)) = Some cur ->
  truthy_string (Meter.p_start_date fields) = false ->
  Meter.p_meter_id fields = None ->
  (forall m, In m (power_meters s) -> Meter.meter_id m <> serial s) ->
  (forall r, In r (monthly_readings s) -> Reading.meter_id r <> serial s) ->
  exists new s',
    respond (put_power_meter rt id false fields) s
      = (Json_meter_update type_versioned (Some new), s')
    /\ Meter.meter_id new = serial s
    /\ Meter.meter_id new <> id
    /\ Meter.status new = "active"
    /\ Meter.start_date new = JSDate.ymd (y, month, 1)
    /\ tenants s' = tenants s
    /\ monthly_readings s' = monthly_readings s
    /\ filter (active_meter id) (power_meters s') = []
    /\ (forall body,
           Reading.p_meter_id body = Some id ->
           exists message,
             respond (post_monthly_reading rt body) s' = (Error 404 message, s'))
    /\ (forall body,
           Reading.p_meter_id body = Some (serial s) ->
           exists status message,
             respond (post_monthly_reading rt body) s'
             = (Error status message, s')).
Proof.
  intros Hzone Hclock.
  rewrite <- (proj1 (currentMonthStart_by_zone rt y month Hclock) Hzone).
  apply put_power_meter_versioned_ledger_run.
Qed.

Lemma put_power_meter_versioned_ledger_witness :
  exists new s',
    respond (put_power_meter march_2024 2 false Meter.no_fields) metered_db
      = (Json_meter_update type_versioned (Some new), s')
    /\ Meter.meter_id new = 10
    /\ Meter.meter_id new <> 2
    /\ Meter.status new = "active"
    /\ Meter.start_date new = "2024-03-01"
    /\ tenants s' = tenants metered_db
    /\ monthly_readings s' = monthly_readings metered_db
    /\ filter (active_meter 2) (power_meters s') = []
    /\ (forall body,
           Reading.p_meter_id body = Some 2 ->
           exists message,
             respond (post_monthly_reading march_2024 body) s'
             = (Error 404 message, s'))
    /\ (forall body,
           Reading.p_meter_id body = Some 10 ->
           exists status message,
             respond (post_monthly_reading march_2024 body) s'
             = (Error status message, s')).
Proof.
  apply (put_power_meter_versioned_ledger march_2024 metered_db 2 meter_2
           Meter.no_fields 2024 3);
    [cbn; lia | split; [lia | reflexivity] | reflexivity | reflexivity
    | reflexivity | |].
  - intros m [<-|[]]. discriminate.
  - intros r [<-|[]]. discriminate.
Defined.


(** X14.  An in-place power meter update that sets [initial_reading] to 0
    and carries no [start_date] takes the plain branch, because 0 is falsy:
    the meter row gets [initial_reading] 0 while the monthly readings, the
    baseline among them, are left as they were. *)
Theorem put_power_meter_zero_reading rt s id cur fields :
  single (filter (active_meter id) (power_meters s)) = Some cur ->
  truthy_string (Meter.p_start_date fields) = false ->
  Meter.p_initial_reading fields = Some 0 ->
  exists s',
    respond (put_power_meter rt id true fields) s
      = (Json_meter_update type_inPlace (Some (Meter.overlay fields cur)), s')
    /\ Meter.initial_reading (Meter.overlay fields cur) = Some 0
    /\ In (Meter.overlay fields cur) (power_meters s')
    /\ monthly_readings s' = monthly_readings s
    /\ tenants s' = tenants s.
Proof.
  intros Hcur Hfalsy Hzero. unfold active_meter in Hcur.
  assert (Hone := Hcur). apply single_some in Hone.
  destruct (singleton_filter_in _ _ _ Hone) as [Hin Hact].
  unfold put_power_meter, activeMeter. run.
  rewrite getMonthStart_now. cbn. rewrite Hcur. cbn.
  rewrite Hfalsy, Hzero. cbn. rewrite Hone. cbn.
  eexists. split; [reflexivity|]. cbn.
  split; [reflexivity|]. split; [|split; reflexivity].
  now apply (in_update
               (fun m => (Meter.meter_id m =? id) && is_active (Meter.status m))).
Qed.

Lemma put_power_meter_zero_reading_witness :
  exists s',
    respond (put_power_meter march_2024 2 true reading_zero) metered_db
      = (Json_meter_update type_inPlace
           (Some (Meter.overlay reading_zero meter_2)), s')
    /\ Meter.initial_reading (Meter.overlay reading_zero meter_2) = Some 0
    /\ In (Meter.overlay reading_zero meter_2) (power_meters s')
    /\ monthly_readings s' = monthly_readings metered_db
    /\ tenants s' = tenants metered_db.
Proof.
  apply (put_power_meter_zero_reading march_2024 metered_db 2 meter_2
           reading_zero); reflexivity.
Defined.

(** ** Rent, water and maintenance history routes *)

(** The rent create, with the tenant's dates as [getMonthStart()] gives them. *)
Lemma post_rent_history_bump_run rt s body tenant_id tenant d :
  History.p_tenant_id body = Some tenant_id ->
  single (filter (active_tenant tenant_id) (tenants s)) = Some tenant ->
  getMonthStart rt (History.p_start_date body) = Ok d ->
  exists rent new s',
    respond (post_rent_history rt body) s = (Json_history_create rent new, s')
    /\ Tenant.rent_portion_count new
       = Some (or_zero (Tenant.rent_portion_count tenant) + 1)
    /\ Tenant.tenant_version new = Tenant.tenant_version tenant + 1
    /\ Tenant.status new = "active"
    /\ Tenant.start_date new = currentMonthStart rt
    /\ Tenant.end_date new = None
    /\ tenants s' = after_bump tenant_id (currentMonthStart rt) new (tenants s)
    /\ respond (get_tenant tenant_id) s' = (Json_tenant new, s')
    /\ History.tenant_id rent = tenant_id
    /\ History.tenant_version rent
       = over (History.p_tenant_version body) (Tenant.tenant_version new)
    /\ History.status rent = "active"
    /\ History.start_date rent = d
    /\ History.id rent = over (History.p_id body) (serial s)
    /\ rent_history s' = rent_history s ++ [rent].
Proof.
  intros Htid Ht Hd.
  assert (Hget : forall new l,
    Tenant.tenant_id new = tenant_id ->
    is_active (Tenant.status new) = true ->
    forall s0, tenants s0 = after_bump tenant_id (currentMonthStart rt) new l ->
    respond (get_tenant tenant_id) s0 = (Json_tenant new, s0)).
  { intros new l Hi Ha s0 Hs0. apply get_tenant_singleton.
    rewrite Hs0. now apply after_bump_active. }
  unfold post_rent_history, activeTenant. run.
  rewrite getMonthStart_now. cbn. rewrite Hd. cbn.
  rewrite Htid. cbn. rewrite Ht. cbn.
  destruct (History.p_id body) as [k|] eqn:Hk; cbn;
    (do 3 eexists; split; [reflexivity|]); cbn;
    (repeat split; try (eapply Hget; reflexivity)).
Qed.

(** X15.  [POST /rent-history] for a tenant with one active row and a
    [start_date] that normalizes.  The tenant's next version is active, has
    no [end_date] and counts one rent portion more; it is what
    [GET /tenants/:id] returns.  On a server from UTC-12:00 to UTC+05:30 it
    starts, and the row it replaces ends, on the first day of the month the
    server's clock is in (a year from 1946 to 9999).  The rent row is active,
    starts on the normalized date and is pinned to that new version, unless
    the body carries a [tenant_version], which is then stored as given. *)
Theorem post_rent_history_bump rt s body tenant_id tenant d y m :
  -720 <= offset rt <= 330 ->
  clock_in_month rt y m ->
  History.p_tenant_id body = Some tenant_id ->
  single (filter (active_tenant tenant_id) (tenants s)) = Some tenant ->
  getMonthStart rt (History.p_start_date body) = Ok d ->
  exists rent new s',
    respond (post_rent_history rt body) s = (Json_history_create rent new, s')
    /\ Tenant.rent_portion_count new
       = Some (or_zero (Tenant.rent_portion_count tenant) + 1)
    /\ Tenant.tenant_version new = Tenant.tenant_version tenant + 1
    /\ Tenant.status new = "active"
    /\ Tenant.start_date new = JSDate.ymd (y, m, 1)
    /\ Tenant.end_date new = None
    /\ tenants s' = after_bump tenant_id (JSDate.ymd (y, m, 1)) new (tenants s)
    /\ respond (get_tenant tenant_id) s' = (Json_tenant new, s')
    /\ History.tenant_id rent = tenant_id
    /\ History.tenant_version rent
       = over (History.p_tenant_version body) (Tenant.tenant_version new)
    /\ History.status rent = "active"
    /\ History.start_date rent = d
    /\ History.id rent = over (History.p_id body) (serial s)
    /\ rent_history s' = rent_history s ++ [rent].
Proof.
  intros Hzone Hclock.
  rewrite <- (proj1 (currentMonthStart_by_zone rt y m Hclock) Hzone).
  apply post_rent_history_bump_run.
Qed.

Lemma post_rent_history_bump_witness :
  (exists rent new s',
      respond (post_rent_history march_2024 (rent_body "2024-03-09")) asha_db
        = (Json_history_create rent new, s')
      /\ new = Tenant.mk 1 2 "active" "2024-03-01" None "Asha" None (Some 1)
                         None None
      /\ tenants s'
         = [Tenant.mk 1 1 "inactive" "2024-01-01" (Some "2024-03-01") "Asha"
                      None None None None; new]
      /\ respond (get_tenant 1) s' = (Json_tenant new, s')
      /\ rent = History.mk 2 1 2 "active" "2024-03-01" None
      /\ rent_history s' = [rent])
  /\ (exists rent new s',
         respond (post_rent_history march_2024
                    (History.mk_patch None (Some 1) (Some 7) None
                                      (Some "2024-03-09") None)) asha_db
           = (Json_history_create rent new, s')
         /\ Tenant.tenant_version new = 2
         /\ History.tenant_version rent = 7).
Proof.
  split.
  - destruct (post_rent_history_bump march_2024 asha_db
                (rent_body "2024-03-09") 1 asha_v1 "2024-03-01" 2024 3)
      as (rent & new & s' & Hpost & _ & _ & _ & _ & _ & Hrows & Hget & _ & _
          & _ & _ & _ & Hrents);
      [cbn; lia | split; [lia | reflexivity] | reflexivity | reflexivity
      | reflexivity |].
    vm_compute in Hpost. inversion Hpost; subst rent new s'.
    exists (History.mk 2 1 2 "active" "2024-03-01" None),
      (Tenant.mk 1 2 "active" "2024-03-01" None "Asha" None (Some 1) None None).
    eexists. repeat split; reflexivity.
  - destruct (post_rent_history_bump march_2024 asha_db
                (History.mk_patch None (Some 1) (Some 7) None
                                  (Some "2024-03-09") None)
                1 asha_v1 "2024-03-01" 2024 3)
      as (rent & new & s' & Hpost & _ & Hv & _ & _ & _ & _ & _ & _ & Hpin & _);
      [cbn; lia | split; [lia | reflexivity] | reflexivity | reflexivity
      | reflexivity |].
    exists rent, new, s'. repeat split; assumption.
Defined.


(** X16.  [DELETE /water-history/:id] and [DELETE /maintenance-history/:id]
    look the tenant up before they write: when the row's tenant has no active
    row the answer is 404 "Active tenant not found" and the store is
    unchanged. *)
Theorem delete_history_without_tenant rt f s id history :
  single (filter (active_history id) (rows (from_history f) s)) = Some history ->
  filter (active_tenant (History.tenant_id history)) (tenants s) = [] ->
  respond (delete_history rt f id) s = (Error 404 "Active tenant not found", s).
Proof.
  intros Hh Ht. unfold active_history in Hh.
  unfold delete_history, activeHistory, activeTenant. run.
  rewrite getMonthStart_now. cbn. rewrite Hh. cbn. now rewrite Ht.
Qed.

Lemma delete_history_without_tenant_witness :
  respond (delete_history march_2024 water 5) orphan_history_db
  = (Error 404 "Active tenant not found", orphan_history_db).
Proof.
  apply (delete_history_without_tenant march_2024 water orphan_history_db 5
           orphan_history); reflexivity.
Defined.

(** The rent delete without a tenant, with the date as [getMonthStart()] gives
    it. *)
Lemma delete_rent_history_without_tenant_run rt s id rent :
  single (filter (active_history id) (rent_history s)) = Some rent ->
  filter (active_tenant (History.tenant_id rent)) (tenants s) = [] ->
  exists s',
    respond (delete_rent_history rt id) s
      = (Error 404 "Active tenant not found", s')
    /\ rent_history s'
       = map (fun h => if History.id h =? id
                       then retire_history (currentMonthStart rt) h else h)
             (rent_history s)
    /\ In (retire_history (currentMonthStart rt) rent) (rent_history s')
    /\ filter (active_history id) (rent_history s') = []
    /\ tenants s' = tenants s
    /\ serial s' = serial s.
Proof.
  intros Hh Ht. unfold active_history in Hh.
  assert (Hone := Hh). apply single_some in Hone.
  destruct (singleton_filter_in _ _ _ Hone) as [Hin Hp].
  apply andb_prop in Hp as [Hid _].
  unfold delete_rent_history, activeHistory, activeTenant. run.
  rewrite getMonthStart_now. cbn. rewrite Hh. cbn. rewrite Ht. cbn.
  eexists. split; [reflexivity|]. cbn.
  repeat split.
  - now apply (in_update (fun h => History.id h =? id)).
  - apply filter_update_none.
    + intros r _ _. unfold active_history. cbn. apply andb_false_r.
    + intros r _ Hr. unfold active_history. now rewrite Hr.
Qed.

(** X17.  [DELETE /rent-history/:id] retires the rent row before it looks
    the tenant up: when the tenant has no active row the answer is 404
    "Active tenant not found", the rent row is already inactive, and the
    tenants table is as it was.  On a server from UTC-12:00 to UTC+05:30 the
    [end_date] written is the first day of the month the server's clock is
    in (a year from 1946 to 9999). *)
Theorem delete_rent_history_without_tenant rt s id rent y m :
  -720 <= offset rt <= 330 ->
  clock_in_month rt y m ->
  single (filter (active_history id) (rent_history s)) = Some rent ->
  filter (active_tenant (History.tenant_id rent)) (tenants s) = [] ->
  exists s',
    respond (delete_rent_history rt id) s
      = (Error 404 "Active tenant not found", s')
    /\ rent_history s'
       = map (fun h => if History.id h =? id
                       then retire_history (JSDate.ymd (y, m, 1)) h else h)
             (rent_history s)
    /\ In (retire_history (JSDate.ymd (y, m, 1)) rent) (rent_history s')
    /\ filter (active_history id) (rent_history s') = []
    /\ tenants s' = tenants s
    /\ serial s' = serial s.
Proof.
  intros Hzone Hclock.
  rewrite <- (proj1 (currentMonthStart_by_zone rt y m Hclock) Hzone).
  apply delete_rent_history_without_tenant_run.
Qed.

Lemma delete_rent_history_without_tenant_witness :
  exists s',
    respond (delete_rent_history march_2024 5) orphan_history_db
      = (Error 404 "Active tenant not found", s')
    /\ rent_history s'
       = [History.mk 5 1 1 "inactive" "2024-01-01" (Some "2024-03-01")]
    /\ filter (active_history 5) (rent_history s') = []
    /\ tenants s' = tenants orphan_history_db
    /\ serial s' = serial orphan_history_db.
Proof.
  destruct (delete_rent_history_without_tenant march_2024 orphan_history_db 5
              orphan_history 2024 3)
    as (s' & Hdel & Hrows & _ & Hnone & Htenants & Hserial);
    [cbn; lia | split; [lia | reflexivity] | reflexivity | reflexivity |].
  exists s'. repeat split; assumption.
Defined.


(** A versioned rent update, with the date as [getMonthStart()] gives it. *)
Lemma put_rent_history_versioned_start_date_run rt s id cur fields :
  single (filter (active_history id) (rent_history s)) = Some cur ->
  exists new s',
    respond (put_rent_history rt id false fields) s
      = (Json_history_update type_versioned (Some new), s')
    /\ History.start_date new = currentMonthStart rt
    /\ History.end_date new = None
    /\ History.status new = "active"
    /\ History.id new = over (History.p_id fields) (serial s)
    /\ rent_history s'
       = map (fun h => if History.id h =? id
                       then retire_history (currentMonthStart rt) h else h)
             (rent_history s) ++ [new]
    /\ In (retire_history (currentMonthStart rt) cur) (rent_history s').
Proof.
  intro Hcur. unfold active_history in Hcur.
  assert (Hone := Hcur). apply single_some in Hone.
  destruct (singleton_filter_in _ _ _ Hone) as [Hin Hp].
  apply andb_prop in Hp as [Hid _].
  unfold put_rent_history, activeHistory. run.
  rewrite getMonthStart_now. cbn. rewrite Hcur. cbn.
  destruct (History.p_id fields) as [k|]; cbn;
    (do 2 eexists; split; [reflexivity|]); cbn; repeat split;
    apply in_or_app; left;
    now apply (in_update (fun h => History.id h =? id)).
Qed.

(** X18.  A versioned rent history update never reads the [start_date]
    among its fields: whatever it is, parsable or not, the update succeeds.
    On a server from UTC-12:00 to UTC+05:30, with [day] the first day of the
    month the server's clock is in (a year from 1946 to 9999), the old row is
    retired with [end_date] [day], and the new row is active, without
    [end_date], and starts on [day]. *)
Theorem put_rent_history_versioned_start_date rt s id cur fields y m :
  -720 <= offset rt <= 330 ->
  clock_in_month rt y m ->
  single (filter (active_history id) (rent_history s)) = Some cur ->
  exists new s',
    respond (put_rent_history rt id false fields) s
      = (Json_history_update type_versioned (Some new), s')
    /\ History.start_date new = JSDate.ymd (y, m, 1)
    /\ History.end_date new = None
    /\ History.status new = "active"
    /\ History.id new = over (History.p_id fields) (serial s)
    /\ rent_history s'
       = map (fun h => if History.id h =? id
                       then retire_history (JSDate.ymd (y, m, 1)) h else h)
             (rent_history s) ++ [new]
    /\ In (retire_history (JSDate.ymd (y, m, 1)) cur) (rent_history s').
Proof.
  intros Hzone Hclock.
  rewrite <- (proj1 (currentMonthStart_by_zone rt y m Hclock) Hzone).
  apply put_rent_history_versioned_start_date_run.
Qed.

Lemma put_rent_history_versioned_start_date_witness :
  exists new s',
    respond (put_rent_history march_2024 3 false junk_history_start) rent_db
      = (Json_history_update type_versioned (Some new), s')
    /\ History.p_start_date junk_history_start = Some "next month"
    /\ new = History.mk 4 1 2 "active" "2024-03-01" None
    /\ rent_history s'
       = [History.mk 3 1 2 "inactive" "2024-02-01" (Some "2024-03-01"); new].
Proof.
  destruct (put_rent_history_versioned_start_date march_2024 rent_db 3 rent_row
              junk_history_start 2024 3)
    as (new & s' & Hput & _ & _ & _ & _ & Hrows & _);
    [cbn; lia | split; [lia | reflexivity] | reflexivity |].
  vm_compute in Hput. inversion Hput; subst new s'.
  eexists. eexists. repeat split; reflexivity.
Defined.


(** X19.  A versioned water or maintenance history update without a
    [start_date] retires the old row and inserts a copy that keeps the old
    row's [start_date] (not the current month), active and without
    [end_date]. *)
Theorem put_history_versioned_keeps_start_date rt f s id cur fields :
  single (filter (active_history id) (rows (from_history f) s)) = Some cur ->
  History.p_start_date fields = None ->
  exists new s',
    respond (put_history rt f id false fields) s
      = (Json_history_update type_versioned (Some new), s')
    /\ History.start_date new = History.start_date cur
    /\ History.end_date new = None
    /\ History.status new = "active"
    /\ History.id new = over (History.p_id fields) (serial s)
    /\ rows (from_history f) s'
       = map (fun h => if History.id h =? id
                       then retire_history (currentMonthStart rt) h else h)
             (rows (from_history f) s) ++ [new]
    /\ In (retire_history (currentMonthStart rt) cur)
          (rows (from_history f) s').
Proof.
  intros Hcur Hnone. unfold active_history in Hcur.
  assert (Hone := Hcur). apply single_some in Hone.
  destruct (singleton_filter_in _ _ _ Hone) as [Hin Hp].
  apply andb_prop in Hp as [Hid _].
  assert (Hret : forall l new,
    l = rows (from_history f) s ->
    In (retire_history (currentMonthStart rt) cur)
       (map (fun h => if History.id h =? id
                      then retire_history (currentMonthStart rt) h else h) l
        ++ [new])).
  { intros l new ->. apply in_or_app. left.
    now apply (in_update (fun h => History.id h =? id)). }
  unfold put_history, activeHistory. run. rewrite Hcur. cbn.
  rewrite Hnone. cbn. rewrite getMonthStart_now. cbn.
  destruct f; cbn in *; destruct (History.p_id fields) as [k|]; cbn;
    (do 2 eexists; split; [reflexivity|]); cbn; rewrite Hnone;
    (repeat split); now apply Hret.
Qed.

Lemma put_history_versioned_keeps_start_date_witness :
  exists new s',
    respond (put_history march_2024 water 2 false History.no_fields) watered_db
      = (Json_history_update type_versioned (Some new), s')
    /\ History.start_date new = History.start_date water_row
    /\ History.end_date new = None
    /\ History.status new = "active"
    /\ History.id new = over (History.p_id History.no_fields) (serial watered_db)
    /\ rows (from_history water) s'
       = map (fun h => if History.id h =? 2
                       then retire_history (currentMonthStart march_2024) h
                       else h)
             (rows (from_history water) watered_db) ++ [new]
    /\ In (retire_history (currentMonthStart march_2024) water_row)
          (rows (from_history water) s').
Proof.
  apply (put_history_versioned_keeps_start_date march_2024 water watered_db 2
           water_row History.no_fields); reflexivity.
Defined.


(** X20.  A water or maintenance history that was just created can be
    deleted again: the delete retires the row, and the tenant's next version
    (one above the version the create made) has the flag back to false and
    is what [GET /tenants/:id] returns; the history table keeps the retired
    row. *)
Theorem post_then_delete_history rt f s body history new s1 :
  respond (post_history rt f body) s = (Json_history_create history new, s1) ->
  (forall h, In h (rows (from_history f) s) ->
             History.id h <> History.id history) ->
  exists final s2,
    respond (delete_history rt f (History.id history)) s1
      = (Json_history_delete
           (Some (retire_history (currentMonthStart rt) history)) final, s2)
    /\ required f new = Some true
    /\ required f final = Some false
    /\ Tenant.tenant_id final = Tenant.tenant_id new
    /\ Tenant.tenant_version final = Tenant.tenant_version new + 1
    /\ Tenant.status final = "active"
    /\ respond (get_tenant (Tenant.tenant_id new)) s2 = (Json_tenant final, s2)
    /\ filter (active_history (History.id history)) (rows (from_history f) s2)
       = []
    /\ List.length (rows (from_history f) s2)
       = S (List.length (rows (from_history f) s)).
Proof.
  intros Hfirst Hfresh.
  unfold post_history, activeTenant in Hfirst. revert Hfirst. run.
  rewrite getMonthStart_now.
  destruct (getMonthStart rt (History.p_start_date body)) as [d|m];
    [|discriminate].
  destruct (History.p_tenant_id body) as [tenant_id|]; [|discriminate].
  cbn.
  destruct (single (filter (active_tenant tenant_id) (tenants s)))
    as [old|]; [|discriminate].
  destruct (truthy_bool (required f old)); [discriminate|].
  set (cms := currentMonthStart rt).
  assert (Hfilter : forall (l : list History.t) h,
    (forall r, In r l -> History.id r <> History.id h) ->
    is_active (History.status h) = true ->
    filter (fun r => (History.id r =? History.id h)
                     && is_active (History.status r)) (l ++ [h]) = [h]
    /\ filter (fun r => History.id r =? History.id h)
         (map (fun r => if History.id r =? History.id h
                        then retire_history cms r else r) (l ++ [h]))
       = [retire_history cms h]
    /\ filter (active_history (History.id h))
         (map (fun r => if History.id r =? History.id h
                        then retire_history cms r else r) (l ++ [h]))
       = []
    /\ List.length (map (fun r => if History.id r =? History.id h
                                  then retire_history cms r else r) (l ++ [h]))
       = S (List.length l)).
  { intros l h Hl Hact.
    assert (Hno : forall (p : History.t -> bool),
               filter (fun r => (History.id r =? History.id h) && p r) l = []).
    { intro p. apply filter_none. intros r Hr.
      apply andb_false_iff. left. apply Z.eqb_neq. now apply Hl. }
    split; [|split; [|split]].
    - rewrite filter_app, Hno. cbn. now rewrite Z.eqb_refl, Hact.
    - rewrite filter_map_same
        by (intros r _; now destruct (History.id r =? History.id h) eqn:E).
      rewrite filter_app.
      rewrite (filter_ext _ (fun r => (History.id r =? History.id h) && true))
        by (intro; now rewrite andb_true_r).
      rewrite Hno. cbn. rewrite Z.eqb_refl. cbn. now rewrite ?Z.eqb_refl.
    - apply filter_update_none.
      + intros r _ _. unfold active_history. cbn. apply andb_false_r.
      + intros r _ Hr. unfold active_history. now rewrite Hr.
    - rewrite length_map, length_app. cbn. lia. }
  destruct f; cbn; destruct (History.p_id body) as [k|]; cbn;
    intro Hfirst; inversion Hfirst; subst history new s1; clear Hfirst;
    cbn in Hfresh;
    (match goal with
     | |- context [retire_history _ ?h] =>
         destruct (Hfilter _ h Hfresh eq_refl) as [F1 [F2 [F3 F4]]]
     end);
    cbn in F1, F2, F3, F4;
    unfold delete_history, activeHistory, activeTenant; run;
    rewrite getMonthStart_now; cbn;
    rewrite F1; cbn;
    rewrite filter_app, retire_all_active; cbn;
    unfold active_tenant at 1; cbn; rewrite Z.eqb_refl; cbn;
    fold cms; rewrite F2; cbn;
    (do 2 eexists; split; [reflexivity|]); cbn;
    (repeat split; try assumption);
    apply get_tenant_singleton; cbn [tenants];
    rewrite filter_app, retire_all_active; cbn;
    unfold active_tenant; cbn; now rewrite Z.eqb_refl.
Qed.

Lemma post_then_delete_history_witness :
  exists history new s1 final s2,
    respond (post_history march_2024 water (water_body "2024-03-09")) asha_db
      = (Json_history_create history new, s1)
    /\ respond (delete_history march_2024 water (History.id history)) s1
       = (Json_history_delete
            (Some (retire_history (currentMonthStart march_2024) history))
            final, s2)
    /\ required water new = Some true
    /\ required water final = Some false
    /\ Tenant.tenant_id final = Tenant.tenant_id new
    /\ Tenant.tenant_version final = Tenant.tenant_version new + 1
    /\ Tenant.status final = "active"
    /\ respond (get_tenant (Tenant.tenant_id new)) s2 = (Json_tenant final, s2)
    /\ filter (active_history (History.id history))
              (rows (from_history water) s2) = []
    /\ List.length (rows (from_history water) s2)
       = S (List.length (rows (from_history water) asha_db)).
Proof.
  do 3 eexists.
  assert (H : respond (post_history march_2024 water (water_body "2024-03-09"))
                      asha_db
              = (Json_history_create
                   (History.mk 2 1 2 "active" "2024-03-01" None)
                   (Tenant.mk 1 2 "active" "2024-03-01" None "Asha" None None
                              (Some true) None),
                 mk_db [retire_tenant "2024-03-01" asha_v1;
                        Tenant.mk 1 2 "active" "2024-03-01" None "Asha" None
                                  None (Some true) None]
                       [] [] [] [History.mk 2 1 2 "active" "2024-03-01" None]
                       [] 3)) by reflexivity.
  destruct (post_then_delete_history march_2024 water asha_db
              (water_body "2024-03-09") _ _ _ H) as [final [s2 Hrest]].
  - intros h [].
  - exists final, s2. split; [exact H|exact Hrest].
Defined.

Ltac lengths :=
  cbn; branches; cbn;
  repeat rewrite ?length_app, ?length_map; cbn; lia.

(** X21.  No request removes a row from the tenants, power meters, or
    rent, water or maintenance history tables, and only
    [DELETE /monthly-reading/:id] removes monthly readings: every other
    request leaves each table at least as long as it was. *)
Theorem rows_never_removed rt s q :
  let s' := snd (respond (serve rt q) s) in
  (List.length (tenants s) <= List.length (tenants s'))%nat
  /\ (List.length (power_meters s) <= List.length (power_meters s'))%nat
  /\ (List.length (rent_history s) <= List.length (rent_history s'))%nat
  /\ (List.length (water_history s) <= List.length (water_history s'))%nat
  /\ (List.length (maintenance_history s)
      <= List.length (maintenance_history s'))%nat
  /\ match q with
     | DELETE_monthly_reading _ =>
         (List.length (monthly_readings s') <= List.length (monthly_readings s))%nat
     | _ =>
         (List.length (monthly_readings s) <= List.length (monthly_readings s'))%nat
     end.
Proof.
  destruct q; cbv zeta; cbn [serve].
  - unfold post_tenants. run. repeat split; lengths.
  - unfold put_tenant, currentTenant. run.
    destruct (latest _); cbn; [rewrite getMonthStart_now|];
      repeat split; lengths.
  - unfold delete_tenant, currentTenant. run.
    destruct (latest _); cbn; [rewrite getMonthStart_now|];
      repeat split; lengths.
  - unfold post_power_meters, activeTenant. run. rewrite getMonthStart_now.
    repeat split; lengths.
  - unfold put_power_meter, activeMeter. run. rewrite getMonthStart_now.
    repeat split; lengths.
  - unfold delete_power_meter, activeMeter, activeTenant. run.
    rewrite getMonthStart_now. repeat split; lengths.
  - unfold post_rent_history, activeTenant. run. rewrite getMonthStart_now.
    repeat split; lengths.
  - unfold put_rent_history, activeHistory. run. rewrite getMonthStart_now.
    repeat split; lengths.
  - unfold delete_rent_history, activeHistory, activeTenant. run.
    rewrite getMonthStart_now. repeat split; lengths.
  - unfold post_history, activeTenant. run. rewrite getMonthStart_now.
    destruct f; repeat split; lengths.
  - unfold put_history, activeHistory. run. rewrite getMonthStart_now.
    destruct f; repeat split; lengths.
  - unfold delete_history, activeHistory, activeTenant. run.
    rewrite getMonthStart_now. destruct f; repeat split; lengths.
  - unfold post_monthly_reading, activeTenant, activeMeter. run.
    repeat split; lengths.
  - unfold put_monthly_reading. run. repeat split; lengths.
  - unfold delete_monthly_reading. run. cbn.
    repeat split; try lia. apply filter_length_le.
Qed.

(** ** Deleting a monthly reading *)

(** The delete and the create after it, in the route's own terms: [t] is
    the instant the requested month parses to, and the row removed is the
    one under [previousMonth rt t]. *)
Lemma delete_monthly_reading_breaks_chain_run rt s id body tenant_id tenant
    meter_id meter month t last :
  Reading.p_tenant_id body = Some tenant_id ->
  single (filter (active_tenant tenant_id) (tenants s)) = Some tenant ->
  Reading.p_meter_id body = Some meter_id ->
  single (filter (active_meter meter_id) (power_meters s)) = Some meter ->
  Reading.p_month body = Some month ->
  Date_parse rt month = Some t ->
  filter (fun r => (Reading.meter_id r =? meter_id)
                   && String.eqb (Reading.month r) (previousMonth rt t))
         (monthly_readings s) = [last] ->
  Reading.reading_id last = id ->
  exists row s1 s',
    respond (post_monthly_reading rt body) s = (Json_reading row, s1)
    /\ respond (delete_monthly_reading id) s = (Json_success, s')
    /\ monthly_readings s'
       = filter (fun r => negb (Reading.reading_id r =? id)) (monthly_readings s)
    /\ tenants s' = tenants s
    /\ power_meters s' = power_meters s
    /\ respond (post_monthly_reading rt body) s'
       = (Error 400 ("Previous month (" ++ previousMonth rt t
                     ++ ") reading not found. Please enter that first."), s').
Proof.
  intros Htid Ht Hmid Hm Hmonth Hparse Hlast Hid. unfold active_meter in Hm.
  assert (Hgone :
    filter (fun r => (Reading.meter_id r =? meter_id)
                     && String.eqb (Reading.month r) (previousMonth rt t))
           (filter (fun r => negb (Reading.reading_id r =? id))
                   (monthly_readings s)) = []).
  { apply filter_none. intros r Hr. apply filter_In in Hr as [Hr Hq].
    match goal with |- ?p = false => destruct p eqn:Hp end; [|reflexivity].
    rewrite (in_singleton_filter _ _ _ _ Hlast Hr Hp), Hid, Z.eqb_refl in Hq.
    discriminate. }
  do 2 eexists.
  exists (with_rows from_monthly_readings
            (filter (fun r => negb (Reading.reading_id r =? id))
                    (monthly_readings s)) s).
  split; [|split; [reflexivity|split; [reflexivity|split; [reflexivity|
    split; [reflexivity|]]]]].
  - unfold post_monthly_reading, activeTenant, activeMeter. run.
    rewrite Htid. cbn. rewrite Ht. cbn. rewrite Hmid. cbn. rewrite Hm. cbn.
    rewrite Hmonth. cbn. rewrite Hparse. cbn.
    fold (previousMonth rt t). rewrite Hlast. reflexivity.
  - unfold post_monthly_reading, activeTenant, activeMeter. run.
    rewrite Htid. cbn. rewrite Ht. cbn. rewrite Hmid. cbn. rewrite Hm. cbn.
    rewrite Hmonth. cbn. rewrite Hparse. cbn.
    fold (previousMonth rt t). rewrite Hgone. reflexivity.
Qed.

(** X22.  [DELETE /monthly-reading/:id] removes the rows with that id and
    nothing else, and always answers success.  On a UTC server, when the
    row removed is the meter's one reading for the month before the month
    [y]-[m]-[d] (the row stored under the first day of that month), the
    create for [y]-[m]-[d], which would have succeeded before, is refused
    with 400 "Previous month ... reading not found" afterwards. *)
Theorem delete_monthly_reading_breaks_chain rt s id body tenant_id tenant
    meter_id meter y m d last :
  offset rt = 0 ->
  Reading.p_tenant_id body = Some tenant_id ->
  single (filter (active_tenant tenant_id) (tenants s)) = Some tenant ->
  Reading.p_meter_id body = Some meter_id ->
  single (filter (active_meter meter_id) (power_meters s)) = Some meter ->
  Reading.p_month body = Some (JSDate.ymd (y, m, d)) ->
  reads_date_only rt (y, m, d) ->
  100 <= y <= 9999 -> 1 <= m <= 12 -> 1 <= d <= days_in_month y m ->
  filter (fun r => (Reading.meter_id r =? meter_id)
                   && String.eqb (Reading.month r)
                        (JSDate.ymd (first_of_previous_month (y, m, d))))
         (monthly_readings s) = [last] ->
  Reading.reading_id last = id ->
  exists row s1 s',
    respond (post_monthly_reading rt body) s = (Json_reading row, s1)
    /\ Reading.previous_reading row = Reading.current_reading last
    /\ respond (delete_monthly_reading id) s = (Json_success, s')
    /\ monthly_readings s'
       = filter (fun r => negb (Reading.reading_id r =? id)) (monthly_readings s)
    /\ tenants s' = tenants s
    /\ power_meters s' = power_meters s
    /\ respond (post_monthly_reading rt body) s'
       = (Error 400 ("Previous month ("
                     ++ JSDate.ymd (first_of_previous_month (y, m, d))
                     ++ ") reading not found. Please enter that first."), s').
Proof.
  intros Hutc Htid Ht Hmid Hm Hmonth Hread Hy Hmo Hd Hlast Hid.
  unfold reads_date_only in Hread. rewrite MakeDay_civil in Hread by exact Hmo.
  rewrite <- (previousMonth_utc rt y m d Hutc ltac:(lia) Hmo Hd) in Hlast |- *.
  destruct (delete_monthly_reading_breaks_chain_run rt s id body tenant_id
              tenant meter_id meter _ _ last Htid Ht Hmid Hm Hmonth Hread
              Hlast Hid)
    as (row & s1 & s' & Hpost & Hdel & Hrows & Htenants & Hmeters & Hagain).
  exists row, s1, s'.
  repeat (split; [assumption|]).
  split; [|repeat (split; [assumption|]); exact Hagain].
  destruct (post_monthly_reading_lookup rt s body tenant_id tenant meter_id
              meter _ _ Htid Ht Hmid Hm Hmonth Hread) as [_ Hone].
  unfold active_meter in Hm.
  specialize (Hone last Hlast). cbv zeta in Hone.
  rewrite Hone in Hpost. now inversion Hpost.
Qed.

Lemma delete_monthly_reading_breaks_chain_witness :
  exists row s1 s',
    respond (post_monthly_reading march_2024 march_body) february_ledger
      = (Json_reading row, s1)
    /\ Reading.previous_reading row = Some 120
    /\ respond (delete_monthly_reading 3) february_ledger = (Json_success, s')
    /\ monthly_readings s' = []
    /\ tenants s' = tenants february_ledger
    /\ power_meters s' = power_meters february_ledger
    /\ respond (post_monthly_reading march_2024 march_body) s'
       = (Error 400 "Previous month (2024-02-01) reading not found. Please enter that first.",
          s').
Proof.
  apply (delete_monthly_reading_breaks_chain march_2024 february_ledger 3
           march_body 1 asha_v2 2 meter_2 2024 3 1 (february 3 120));
    [reflexivity | reflexivity | reflexivity | reflexivity | reflexivity
    | reflexivity | reflexivity | lia | lia | vm_compute; split; discriminate
    | reflexivity | reflexivity].
Defined.
(** ** General setup *)

Lemma setup_get_singleton id includeInactive s r :
  filter (fun r => (Setup.entry_id r =? id) && Setup.listed includeInactive r)
         (Setup.general_setup s) = [r] ->
  Setup.get id includeInactive s = (Setup.Json r, s).
Proof. intro H. unfold Setup.get. now rewrite H. Qed.

Lemma setup_get_none id includeInactive s :
  filter (fun r => (Setup.entry_id r =? id) && Setup.listed includeInactive r)
         (Setup.general_setup s) = [] ->
  Setup.get id includeInactive s = (Setup.Error 404 "Setup not found", s).
Proof. intro H. unfold Setup.get. now rewrite H. Qed.

Lemma setup_retired id d l cur :
  filter (fun r => Setup.entry_id r =? id) l = [cur] ->
  filter (fun r => Setup.entry_id r =? id)
         (map (fun r => if Setup.entry_id r =? id then Setup.retire d r else r) l)
  = [Setup.retire d cur]
  /\ filter (fun r => (Setup.entry_id r =? id) && is_active (Setup.status r))
       (map (fun r => if Setup.entry_id r =? id then Setup.retire d r else r) l)
     = [].
Proof.
  intro Hone. destruct (singleton_filter_in _ _ _ Hone) as [_ Hid]. split.
  - rewrite filter_map_same.
    + rewrite Hone. cbn. now rewrite Hid.
    + intros r _. now destruct (Setup.entry_id r =? id) eqn:E.
  - apply filter_update_none.
    + intros r _ _. cbn. apply andb_false_r.
    + intros r _ Hr. now rewrite Hr.
Qed.

(** A versioned setup update, with the date as [getMonthStart()] gives it. *)
Lemma setup_versioned_update_new_entry_run rt s id cur fields :
  filter (fun r => Setup.entry_id r =? id) (Setup.general_setup s) = [cur] ->
  is_active (Setup.status cur) = true ->
  Setup.p_entry_id fields = None ->
  (forall r, In r (Setup.general_setup s) ->
             Setup.entry_id r <> Setup.next_entry_id s) ->
  exists new s',
    Setup.put rt id false fields s
      = (Setup.Json_update type_versioned (Some new), s')
    /\ Setup.entry_id new = Setup.next_entry_id s
    /\ Setup.entry_id new <> id
    /\ Setup.start_date new = currentMonthStart rt
    /\ Setup.status new = "active"
    /\ Setup.end_date new = None
    /\ Setup.settings new
       = over_null (Setup.p_settings fields) (Setup.settings cur)
    /\ Setup.get id None s' = (Setup.Error 404 "Setup not found", s')
    /\ Setup.get id (Some "true") s'
       = (Setup.Json (Setup.retire (currentMonthStart rt) cur), s')
    /\ Setup.get (Setup.entry_id new) None s' = (Setup.Json new, s')
    /\ (forall rt' inPlace fields',
           Setup.put rt' id inPlace fields' s'
           = (Setup.Error 404 "Active setup not found", s')).
Proof.
  intros Hone Hact Hkey Hfresh.
  destruct (singleton_filter_in _ _ _ Hone) as [Hin Hid].
  assert (Hne : Setup.next_entry_id s <> id).
  { intro E. apply (Hfresh cur Hin). apply Z.eqb_eq in Hid. congruence. }
  assert (Hcur :
    filter (fun r => (Setup.entry_id r =? id) && is_active (Setup.status r))
           (Setup.general_setup s) = [cur]).
  { apply (filter_refine (fun r => Setup.entry_id r =? id)); [exact Hone| |].
    - intros r Hr. now apply andb_prop in Hr.
    - now rewrite Hid, Hact. }
  destruct (setup_retired id (currentMonthStart rt) _ _ Hone) as [Hret Hgone].
  set (new := Setup.set_entry_id (Setup.next_entry_id s)
                (Setup.set_status "active"
                   (Setup.set_end_date None
                      (Setup.set_start_date (currentMonthStart rt)
                         (Setup.overlay fields cur))))).
  set (old := map (fun r => if Setup.entry_id r =? id
                            then Setup.retire (currentMonthStart rt) r else r)
                  (Setup.general_setup s)) in *.
  assert (Hold : forall r, In r old -> Setup.entry_id r <> Setup.next_entry_id s).
  { intros r Hr. apply in_map_iff in Hr as [x [<- Hx]].
    destruct (Setup.entry_id x =? id); [cbn|]; now apply Hfresh. }
  exists new, (Setup.mk_store (old ++ [new]) (Setup.next_entry_id s + 1)).
  split; [|split; [reflexivity|split; [exact Hne|split; [reflexivity|
    split; [reflexivity|split; [reflexivity|split; [reflexivity|
    split; [|split; [|split]]]]]]]]].
  - unfold Setup.put. rewrite getMonthStart_now, Hcur.
    cbn [single Setup.update Setup.insert]. now rewrite Hkey.
  - apply setup_get_none. cbn [Setup.general_setup].
    rewrite filter_app. cbn [filter].
    replace (Setup.entry_id new =? id) with false
      by (symmetry; apply Z.eqb_neq; exact Hne).
    cbn. rewrite app_nil_r. exact Hgone.
  - apply setup_get_singleton. cbn [Setup.general_setup].
    rewrite filter_app. cbn [filter].
    replace (Setup.entry_id new =? id) with false
      by (symmetry; apply Z.eqb_neq; exact Hne).
    cbn [andb]. rewrite app_nil_r.
    rewrite (filter_ext _ (fun r => Setup.entry_id r =? id))
      by (intro r; cbn; apply andb_true_r).
    exact Hret.
  - apply setup_get_singleton. cbn [Setup.general_setup].
    rewrite filter_app, filter_none.
    + cbn. now rewrite Z.eqb_refl.
    + intros r Hr. apply andb_false_iff. left. apply Z.eqb_neq.
      now apply Hold.
  - intros rt' inPlace fields'. unfold Setup.put.
    rewrite getMonthStart_now. cbn [Setup.general_setup].
    rewrite filter_app. cbn [filter].
    replace (Setup.entry_id new =? id) with false
      by (symmetry; apply Z.eqb_neq; exact Hne).
    cbn [andb]. rewrite app_nil_r, Hgone. reflexivity.
Qed.

(** X23.  A versioned general setup update whose fields carry no
    [entry_id] gives the setup a new key.  The new row takes the store's next
    [entry_id], is active and has no [end_date]; on a server from UTC-12:00
    to UTC+05:30 it starts, whatever [start_date] the fields carry, and the
    old row ends, on the first day of the month the server's clock is in (a
    year from 1946 to 9999).  Under the old id [GET] answers 404 unless
    [includeInactive] is set, which shows the retired row, and every further
    [PUT] answers 404 "Active setup not found". *)
Theorem setup_versioned_update_new_entry rt s id cur fields y m :
  -720 <= offset rt <= 330 ->
  clock_in_month rt y m ->
  filter (fun r => Setup.entry_id r =? id) (Setup.general_setup s) = [cur] ->
  is_active (Setup.status cur) = true ->
  Setup.p_entry_id fields = None ->
  (forall r, In r (Setup.general_setup s) ->
             Setup.entry_id r <> Setup.next_entry_id s) ->
  exists new s',
    Setup.put rt id false fields s
      = (Setup.Json_update type_versioned (Some new), s')
    /\ Setup.entry_id new = Setup.next_entry_id s
    /\ Setup.entry_id new <> id
    /\ Setup.start_date new = JSDate.ymd (y, m, 1)
    /\ Setup.status new = "active"
    /\ Setup.end_date new = None
    /\ Setup.settings new
       = over_null (Setup.p_settings fields) (Setup.settings cur)
    /\ Setup.get id None s' = (Setup.Error 404 "Setup not found", s')
    /\ Setup.get id (Some "true") s'
       = (Setup.Json (Setup.retire (JSDate.ymd (y, m, 1)) cur), s')
    /\ Setup.get (Setup.entry_id new) None s' = (Setup.Json new, s')
    /\ (forall rt' inPlace fields',
           Setup.put rt' id inPlace fields' s'
           = (Setup.Error 404 "Active setup not found", s')).
Proof.
  intros Hzone Hclock.
  rewrite <- (proj1 (currentMonthStart_by_zone rt y m Hclock) Hzone).
  apply setup_versioned_update_new_entry_run.
Qed.

Lemma setup_versioned_update_new_entry_witness :
  exists new s',
    Setup.put march_2024 4 false junk_setup_start tariff_db
      = (Setup.Json_update type_versioned (Some new), s')
    /\ Setup.p_start_date junk_setup_start = Some "next month"
    /\ new = Setup.mk 5 "active" "2024-03-01" None (Some "rate 7")
    /\ Setup.get 4 None s' = (Setup.Error 404 "Setup not found", s')
    /\ Setup.get 4 (Some "true") s'
       = (Setup.Json (Setup.mk 4 "inactive" "2023-04-01" (Some "2024-03-01")
                               (Some "rate 6")), s')
    /\ Setup.get 5 None s' = (Setup.Json new, s')
    /\ (forall rt' inPlace fields',
           Setup.put rt' 4 inPlace fields' s'
           = (Setup.Error 404 "Active setup not found", s')).
Proof.
  destruct (setup_versioned_update_new_entry march_2024 tariff_db 4 tariff_2023
              junk_setup_start 2024 3)
    as (new & s' & Hput & Hkey & _ & _ & _ & _ & _ & Hgone & Hold & Hnew
        & Hputs);
    [cbn; lia | split; [lia | reflexivity] | reflexivity | reflexivity
    | reflexivity | intros r [<-|[]]; discriminate |].
  rewrite Hkey in Hnew.
  vm_compute in Hput. inversion Hput; subst new s'.
  eexists. eexists. split; [reflexivity|]. split; [reflexivity|].
  split; [reflexivity|]. repeat split; assumption.
Defined.


(** Two deletes of one setup, with the dates as [getMonthStart()] gives
    them. *)
Lemma setup_delete_again_run rt later s id cur :
  filter (fun r => Setup.entry_id r =? id) (Setup.general_setup s) = [cur] ->
  exists s' s'',
    Setup.delete rt id s
      = (Setup.Json_delete (Setup.retire (currentMonthStart rt) cur), s')
    /\ Setup.get id None s' = (Setup.Error 404 "Setup not found", s')
    /\ Setup.delete later id s'
       = (Setup.Json_delete (Setup.retire (currentMonthStart later) cur), s'')
    /\ Setup.end_date (Setup.retire (currentMonthStart later) cur)
       = Some (currentMonthStart later)
    /\ Setup.get id (Some "true") s''
       = (Setup.Json (Setup.retire (currentMonthStart later) cur), s'')
    /\ List.length (Setup.general_setup s'')
       = List.length (Setup.general_setup s).
Proof.
  intro Hone.
  destruct (setup_retired id (currentMonthStart rt) _ _ Hone) as [Hret Hgone].
  destruct (setup_retired id (currentMonthStart later) _ _ Hret)
    as [Hret' Hgone'].
  do 2 eexists.
  split; [|split; [|split; [|split; [reflexivity|split]]]].
  - unfold Setup.delete. rewrite getMonthStart_now.
    cbn [Setup.update]. rewrite Hone. reflexivity.
  - apply setup_get_none. cbn [Setup.general_setup]. exact Hgone.
  - unfold Setup.delete. rewrite getMonthStart_now.
    cbn [Setup.update Setup.general_setup]. rewrite Hret. reflexivity.
  - apply setup_get_singleton. cbn [Setup.general_setup].
    rewrite (filter_ext _ (fun r => Setup.entry_id r =? id))
      by (intro r; cbn; apply andb_true_r).
    exact Hret'.
  - cbn [Setup.general_setup]. now rewrite !length_map.
Qed.

(** X24.  [DELETE /general-setup/:id] does not look at the status: a setup
    that is already retired is retired again, with success and a fresh
    [end_date], and no row is removed.  On servers from UTC-12:00 to
    UTC+05:30 the first delete writes the first day of the month its server's
    clock is in, the later one the first day of its own month (years from
    1946 to 9999): a different date whenever the month has changed. *)
Theorem setup_delete_again rt later s id cur y m y' m' :
  -720 <= offset rt <= 330 ->
  clock_in_month rt y m ->
  -720 <= offset later <= 330 ->
  clock_in_month later y' m' ->
  filter (fun r => Setup.entry_id r =? id) (Setup.general_setup s) = [cur] ->
  exists s' s'',
    Setup.delete rt id s
      = (Setup.Json_delete (Setup.retire (JSDate.ymd (y, m, 1)) cur), s')
    /\ Setup.end_date (Setup.retire (JSDate.ymd (y, m, 1)) cur)
       = Some (JSDate.ymd (y, m, 1))
    /\ Setup.get id None s' = (Setup.Error 404 "Setup not found", s')
    /\ Setup.delete later id s'
       = (Setup.Json_delete (Setup.retire (JSDate.ymd (y', m', 1)) cur), s'')
    /\ Setup.end_date (Setup.retire (JSDate.ymd (y', m', 1)) cur)
       = Some (JSDate.ymd (y', m', 1))
    /\ Setup.get id (Some "true") s''
       = (Setup.Json (Setup.retire (JSDate.ymd (y', m', 1)) cur), s'')
    /\ List.length (Setup.general_setup s'')
       = List.length (Setup.general_setup s)
    /\ ((y, m) <> (y', m') -> JSDate.ymd (y', m', 1) <> JSDate.ymd (y, m, 1)).
Proof.
  intros Hzone Hclock Hzone' Hclock' Hone.
  assert (Hm := clock_in_month_range _ _ _ Hclock).
  assert (Hm' := clock_in_month_range _ _ _ Hclock').
  destruct (setup_delete_again_run rt later s id cur Hone)
    as (s' & s'' & Hdel & Hgone & Hdel' & Hend & Hget & Hlen).
  rewrite (proj1 (currentMonthStart_by_zone rt y m Hclock) Hzone) in Hdel.
  rewrite (proj1 (currentMonthStart_by_zone later y' m' Hclock') Hzone')
    in Hdel', Hend, Hget.
  exists s', s''.
  repeat (split; [assumption || reflexivity|]).
  intros Hne E. apply Hne.
  destruct Hclock as [Hy _]. destruct Hclock' as [Hy' _].
  apply ymd_month in E; [|lia|lia|lia|lia]. destruct E. congruence.
Qed.

Lemma setup_delete_again_witness :
  exists s' s'',
    Setup.delete march_2024 4 tariff_db
      = (Setup.Json_delete
           (Setup.mk 4 "inactive" "2023-04-01" (Some "2024-03-01")
                     (Some "rate 6")), s')
    /\ Setup.get 4 None s' = (Setup.Error 404 "Setup not found", s')
    /\ Setup.delete april_2024 4 s'
       = (Setup.Json_delete
            (Setup.mk 4 "inactive" "2023-04-01" (Some "2024-04-01")
                      (Some "rate 6")), s'')
    /\ Setup.get 4 (Some "true") s''
       = (Setup.Json (Setup.mk 4 "inactive" "2023-04-01" (Some "2024-04-01")
                               (Some "rate 6")), s'')
    /\ List.length (Setup.general_setup s'') = 1%nat
    /\ JSDate.ymd (2024, 4, 1) <> JSDate.ymd (2024, 3, 1).
Proof.
  destruct (setup_delete_again march_2024 april_2024 tariff_db 4 tariff_2023
              2024 3 2024 4)
    as (s' & s'' & Hdel & _ & Hgone & Hdel' & _ & Hget & Hlen & Hfresh);
    [cbn; lia | split; [lia | reflexivity] | cbn; lia
    | split; [lia | reflexivity] | reflexivity |].
  exists s', s''. repeat split; try assumption.
  apply Hfresh. discriminate.
Defined.

(** ** Accounts *)

(** X25.  [POST /login/google] never touches the invitations and writes at
    most one user: either the store is unchanged, or one user is appended
    whose e-mail no earlier user has, without any scope, with role
    "superadmin" when the table was empty and "tenant" otherwise. *)
Theorem login_google_users P id_token a :
  let a' := snd (Accounts.post_login_google P id_token a) in
  Accounts.invitations a' = Accounts.invitations a
  /\ (a' = a
      \/ exists user,
           fst (Accounts.post_login_google P id_token a)
             = Accounts.Json_login (Accounts.payload_of user) user
           /\ Accounts.users a' = Accounts.users a ++ [user]
           /\ (forall u, In u (Accounts.users a) ->
                         Accounts.User.email u <> Accounts.User.email user)
           /\ (Accounts.users a = [] -> Accounts.User.role user = "superadmin")
           /\ (Accounts.users a <> [] -> Accounts.User.role user = "tenant")
           /\ Accounts.User.organization_id user = None
           /\ Accounts.User.owner_id user = None
           /\ Accounts.User.tenant_id user = None).
Proof.
  cbv zeta. unfold Accounts.post_login_google.
  destruct (negb (truthy_string id_token)); [cbn; auto|].
  destruct (Accounts.verifyGoogleToken P (over id_token "")) as [[email gid]|];
    [|cbn; auto].
  destruct (hd_error _) as [user|] eqn:Hfirst; [cbn; auto|].
  cbn [fst snd Accounts.invitations Accounts.users]. split; [reflexivity|].
  right. eexists. split; [reflexivity|]. split; [reflexivity|].
  cbn [Accounts.User.email Accounts.User.role Accounts.User.organization_id
       Accounts.User.owner_id Accounts.User.tenant_id].
  split; [|split; [|split; [|auto]]].
  - intros u Hu E.
    assert (Hin : In u (filter (fun u => String.eqb (Accounts.User.email u) email)
                               (Accounts.users a))).
    { apply filter_In. split; [exact Hu|]. now apply String.eqb_eq. }
    destruct (filter _ (Accounts.users a)); [destruct Hin|discriminate].
  - intros ->. reflexivity.
  - intro Hne. destruct (Accounts.users a); [contradiction|reflexivity].
Qed.

Lemma is_role_eq x r : Accounts.is_role x r = true -> x = Some r.
Proof.
  destruct x as [v|]; [|discriminate]. cbn. intro H.
  apply String.eqb_eq in H. now subst.
Qed.

Lemma includes_cases l x :
  Accounts.includes l x = true -> exists v, x = Some v /\ In v l.
Proof.
  destruct x as [v|]; [|discriminate]. cbn. intro H.
  apply existsb_exists in H as [y [Hy E]]. apply String.eqb_eq in E.
  subst. eauto.
Qed.

(** X26.  An invitation that [POST /invite] creates is for one of the
    roles orgadmin, owner and tenant, and for a role strictly below the
    inviter's; it carries an organization unless it is for an orgadmin, and
    an owner when it is for a tenant; it is not accepted yet, expires seven
    days after the request, and is the one row added to the store. *)
Theorem invite_below_inviter rt user body token a invite a' :
  Accounts.post_invite rt user body token a = (Accounts.Json_invite invite, a') ->
  Accounts.b_role body = Some (Accounts.Invitation.role invite)
  /\ 1 <= rank (Some (Accounts.Invitation.role invite)) <= 3
  /\ rank (Some (Accounts.Invitation.role invite)) < rank (Accounts.role user)
  /\ (Accounts.Invitation.role invite <> "orgadmin" ->
      truthy_number (Accounts.Invitation.organization_id invite) = true)
  /\ (Accounts.Invitation.role invite = "tenant" ->
      truthy_number (Accounts.Invitation.owner_id invite) = true)
  /\ Accounts.Invitation.accepted invite = false
  /\ Accounts.Invitation.expires_at invite = clock rt + 604800000
  /\ Accounts.Invitation.token invite = token
  /\ Accounts.Invitation.created_by invite = Accounts.sub user
  /\ Accounts.users a' = Accounts.users a
  /\ Accounts.invitations a' = Accounts.invitations a ++ [invite].
Proof.
  unfold Accounts.post_invite.
  destruct (negb (Accounts.includes _ (Accounts.b_role body))) eqn:Hrole;
    [discriminate|].
  apply negb_false_iff, includes_cases in Hrole as [r [Hr Hin]].
  rewrite Hr.
  destruct (Accounts.role user) as [inviter|] eqn:Hinv;
    cbn in Hin; destruct Hin as [<-|[<-|[<-|[]]]]; cbn;
    repeat match goal with
           | |- context [String.eqb ?x ?y] =>
               destruct (String.eqb_spec x y); cbn
           end;
    try discriminate;
    unfold Accounts.or_null;
    try (destruct (truthy_number (Accounts.b_organization_id body)) eqn:Horg;
         cbn; try discriminate);
    try (destruct (truthy_number (Accounts.b_owner_id body)) eqn:Hown;
         cbn; try discriminate);
    intro H; inversion H; subst; clear H; cbn;
    repeat split; try lia; try reflexivity; try assumption;
    try (intros; congruence);
    try (unfold rank; cbn; lia).
Qed.

Lemma invite_below_inviter_witness :
  exists invite a',
    Accounts.post_invite march_2024 root_session invite_bina "t0k3n" people
      = (Accounts.Json_invite invite, a')
    /\ Accounts.b_role invite_bina = Some (Accounts.Invitation.role invite)
    /\ 1 <= rank (Some (Accounts.Invitation.role invite)) <= 3
    /\ rank (Some (Accounts.Invitation.role invite))
       < rank (Accounts.role root_session)
    /\ (Accounts.Invitation.role invite <> "orgadmin" ->
        truthy_number (Accounts.Invitation.organization_id invite) = true)
    /\ (Accounts.Invitation.role invite = "tenant" ->
        truthy_number (Accounts.Invitation.owner_id invite) = true)
    /\ Accounts.Invitation.accepted invite = false
    /\ Accounts.Invitation.expires_at invite = clock march_2024 + 604800000
    /\ Accounts.Invitation.token invite = "t0k3n"
    /\ Accounts.Invitation.created_by invite = Accounts.sub root_session
    /\ Accounts.users a' = Accounts.users people
    /\ Accounts.invitations a' = Accounts.invitations people ++ [invite].
Proof.
  do 2 eexists.
  assert (H : Accounts.post_invite march_2024 root_session invite_bina "t0k3n"
                people
              = (Accounts.Json_invite
                   (Accounts.Invitation.mk 3 (Some "bina@example.com") "owner"
                      (Some 7) None None "t0k3n" 1711533600000 false 1),
                 Accounts.mk_store [root_user; bina_user]
                   [Accounts.Invitation.mk 3 (Some "bina@example.com") "owner"
                      (Some 7) None None "t0k3n" 1711533600000 false 1] 4))
    by reflexivity.
  split; [exact H|].
  exact (invite_below_inviter march_2024 root_session invite_bina "t0k3n" people
           _ _ H).
Defined.

Lemma invite_fields rt user body token a invite a' :
  Accounts.post_invite rt user body token a = (Accounts.Json_invite invite, a') ->
  Accounts.b_role body = Some (Accounts.Invitation.role invite)
  /\ Accounts.Invitation.accepted invite = false
  /\ Accounts.Invitation.expires_at invite = clock rt + 604800000
  /\ Accounts.Invitation.token invite = token
  /\ Accounts.Invitation.email invite = Accounts.b_email body
  /\ Accounts.Invitation.invite_id invite = Accounts.next_id a
  /\ Accounts.users a' = Accounts.users a
  /\ Accounts.invitations a' = Accounts.invitations a ++ [invite].
Proof.
  unfold Accounts.post_invite.
  destruct (negb (Accounts.includes _ (Accounts.b_role body))) eqn:Hrole;
    [discriminate|].
  apply negb_false_iff, includes_cases in Hrole as [r [Hr Hin]].
  rewrite Hr. cbn [over].
  repeat match goal with
         | |- context [if ?c then _ else _] =>
             destruct c; [discriminate|]
         end.
  intro H. inversion H; subst; clear H. cbn. repeat split.
Qed.

(** X27.  An invitation under a fresh token, accepted with that token by
    a user whose e-mail is the invited one up to case: up to and including
    the instant of expiry [POST /accept] succeeds, gives every user row of
    that e-mail the invited role, and marks the invitation accepted, after
    which the token is refused for everyone with 400 "Invalid or used
    invite"; after the expiry the answer is 400 "Invite expired" and nothing
    is written. *)
Theorem invite_then_accept rt P inviter body token a invite a1 user invited :
  Accounts.post_invite rt inviter body token a
    = (Accounts.Json_invite invite, a1) ->
  token <> "" ->
  (forall i, In i (Accounts.invitations a) ->
             Accounts.Invitation.token i <> token) ->
  (forall i, In i (Accounts.invitations a) ->
             Accounts.Invitation.invite_id i <> Accounts.next_id a) ->
  Accounts.b_email body = Some invited ->
  Accounts.toLowerCase P invited
    = Accounts.toLowerCase P (Accounts.email user) ->
  (forall later,
      clock later <= clock rt + 604800000 ->
      exists a2,
        Accounts.post_accept later P user (Some token) a1
          = (Accounts.Json_success, a2)
        /\ Accounts.users a2
           = map (fun u => if String.eqb (Accounts.User.email u)
                                         (Accounts.email user)
                           then Accounts.promote invite u else u)
                 (Accounts.users a)
        /\ (forall u, In u (Accounts.users a) ->
                      Accounts.User.email u = Accounts.email user ->
                      In (Accounts.promote invite u) (Accounts.users a2)
                      /\ Some (Accounts.User.role (Accounts.promote invite u))
                         = Accounts.b_role body)
        /\ Accounts.invitations a2
           = Accounts.invitations a ++ [Accounts.Invitation.accept invite]
        /\ (forall again anyone,
               Accounts.post_accept again P anyone (Some token) a2
               = (Accounts.Error 400 "Invalid or used invite", a2)))
  /\ (forall later,
         clock rt + 604800000 < clock later ->
         Accounts.post_accept later P user (Some token) a1
         = (Accounts.Error 400 "Invite expired", a1)).
Proof.
  intros Hinvite Hne Htoken Hid Hemail Hsame.
  destruct (invite_fields _ _ _ _ _ _ _ Hinvite)
    as [Hrole [Hacc [Hexp [Htok [Hmail [Hkey [Husers Hinvs]]]]]]].
  assert (Hfind :
    filter (fun i => String.eqb (Accounts.Invitation.token i) token
                     && negb (Accounts.Invitation.accepted i))
           (Accounts.invitations a1) = [invite]).
  { rewrite Hinvs, filter_app, filter_none.
    - cbn. now rewrite Htok, String.eqb_refl, Hacc.
    - intros i Hi. apply andb_false_iff. left. apply String.eqb_neq.
      now apply Htoken. }
  assert (Hmarked :
    map (fun i => if Accounts.Invitation.invite_id i
                     =? Accounts.Invitation.invite_id invite
                  then Accounts.Invitation.accept i else i)
        (Accounts.invitations a1)
    = Accounts.invitations a ++ [Accounts.Invitation.accept invite]).
  { rewrite Hinvs, map_app. cbn. rewrite Z.eqb_refl. f_equal.
    rewrite <- (map_id (Accounts.invitations a)) at 2.
    apply map_ext_in. intros i Hi. rewrite Hkey.
    destruct (Z.eqb_spec (Accounts.Invitation.invite_id i) (Accounts.next_id a));
      [now apply Hid in Hi|reflexivity]. }
  assert (Htruthy : negb (truthy_string (Some token)) = false).
  { cbn. apply String.eqb_neq in Hne. now rewrite Hne. }
  split.
  - intros later Hlater.
    eexists. split; [|split; [|split; [|split]]].
    + unfold Accounts.post_accept. rewrite Htruthy.
      cbn [over]. rewrite Hfind. cbn [hd_error].
      replace (Accounts.Invitation.expires_at invite <? clock later) with false
        by (symmetry; apply Z.ltb_ge; lia).
      rewrite Hmail, Hemail, Hsame, String.eqb_refl. cbn [negb].
      reflexivity.
    + cbn [Accounts.users]. now rewrite Husers.
    + intros u Hu E. cbn [Accounts.users]. rewrite Husers. split.
      * apply in_map_iff. exists u. split; [|exact Hu].
        apply String.eqb_eq in E. now rewrite E.
      * cbn. now rewrite Hrole.
    + cbn [Accounts.invitations]. exact Hmarked.
    + intros again anyone. unfold Accounts.post_accept. rewrite Htruthy.
      cbn [over Accounts.invitations]. rewrite Hmarked, filter_app, filter_none.
      * cbn. rewrite andb_false_r. reflexivity.
      * intros i Hi. apply andb_false_iff. left. apply String.eqb_neq.
        now apply Htoken.
  - intros later Hlater. unfold Accounts.post_accept. rewrite Htruthy.
    cbn [over]. rewrite Hfind. cbn [hd_error].
    replace (Accounts.Invitation.expires_at invite <? clock later) with true
      by (symmetry; apply Z.ltb_lt; lia).
    reflexivity.
Qed.

Lemma invite_then_accept_witness :
  (forall later,
      clock later <= clock march_2024 + 604800000 ->
      exists a2,
        Accounts.post_accept later plain_tokens bina_session (Some "t0k3n")
          (Accounts.mk_store [root_user; bina_user]
             [Accounts.Invitation.mk 3 (Some "bina@example.com") "owner"
                (Some 7) None None "t0k3n" 1711533600000 false 1] 4)
          = (Accounts.Json_success, a2)
        /\ Accounts.users a2
           = map (fun u => if String.eqb (Accounts.User.email u)
                                         (Accounts.email bina_session)
                           then Accounts.promote
                                  (Accounts.Invitation.mk 3
                                     (Some "bina@example.com") "owner" (Some 7)
                                     None None "t0k3n" 1711533600000 false 1) u
                           else u)
                 (Accounts.users people)
        /\ (forall u, In u (Accounts.users people) ->
                      Accounts.User.email u = Accounts.email bina_session ->
                      In (Accounts.promote
                            (Accounts.Invitation.mk 3 (Some "bina@example.com")
                               "owner" (Some 7) None None "t0k3n" 1711533600000
                               false 1) u) (Accounts.users a2)
                      /\ Some (Accounts.User.role
                                 (Accounts.promote
                                    (Accounts.Invitation.mk 3
                                       (Some "bina@example.com") "owner"
                                       (Some 7) None None "t0k3n" 1711533600000
                                       false 1) u))
                         = Accounts.b_role invite_bina)
        /\ Accounts.invitations a2
           = Accounts.invitations people
             ++ [Accounts.Invitation.accept
                   (Accounts.Invitation.mk 3 (Some "bina@example.com") "owner"
                      (Some 7) None None "t0k3n" 1711533600000 false 1)]
        /\ (forall again anyone,
               Accounts.post_accept again plain_tokens anyone (Some "t0k3n") a2
               = (Accounts.Error 400 "Invalid or used invite", a2)))
  /\ (forall later,
         clock march_2024 + 604800000 < clock later ->
         Accounts.post_accept later plain_tokens bina_session (Some "t0k3n")
           (Accounts.mk_store [root_user; bina_user]
              [Accounts.Invitation.mk 3 (Some "bina@example.com") "owner"
                 (Some 7) None None "t0k3n" 1711533600000 false 1] 4)
         = (Accounts.Error 400 "Invite expired",
            Accounts.mk_store [root_user; bina_user]
              [Accounts.Invitation.mk 3 (Some "bina@example.com") "owner"
                 (Some 7) None None "t0k3n" 1711533600000 false 1] 4)).
Proof.
  apply (invite_then_accept march_2024 plain_tokens root_session invite_bina
           "t0k3n" people _ _ bina_session "bina@example.com");
    [reflexivity | discriminate | intros i [] | intros i [] | reflexivity
    | reflexivity].
Defined.

Lemma substring_all s : substring 0 (String.length s) s = s.
Proof. induction s as [|c s IH]; cbn; [reflexivity|now rewrite IH]. Qed.

Lemma prefix_slice p s :
  String.prefix p s = true ->
  s = (p ++ Accounts.slice (String.length p) s)%string.
Proof.
  revert s. induction p as [|a p IH]; intros s H.
  - unfold Accounts.slice. cbn. rewrite Nat.sub_0_r. now rewrite substring_all.
  - destruct s as [|b s]; [discriminate|]. cbn in H.
    destruct (ascii_dec a b) as [->|]; [|discriminate].
    cbn. f_equal. rewrite (IH s H) at 1. reflexivity.
Qed.

Lemma slice_append p s : Accounts.slice (String.length p) (p ++ s) = s.
Proof.
  unfold Accounts.slice. induction p as [|a p IH]; cbn.
  - rewrite Nat.sub_0_r. apply substring_all.
  - exact IH.
Qed.

Lemma prefix_append p s : String.prefix p (p ++ s) = true.
Proof.
  induction p as [|a p IH]; cbn; [now destruct s|].
  destruct (ascii_dec a a); [exact IH|contradiction].
Qed.

(** X28.  [requireAuth] lets a request through, with the token's payload
    as [req.user], exactly when the Authorization header is "Bearer "
    followed by a non-empty token that [jwt.verify] accepts. *)
Theorem requireAuth_bearer P authorization user :
  Accounts.requireAuth P authorization = Accounts.Continue user
  <-> exists token,
        authorization = Some ("Bearer " ++ token)%string
        /\ token <> ""
        /\ Accounts.jwt_verify P token = Some user.
Proof.
  unfold Accounts.requireAuth. split.
  - destruct authorization as [auth|]; [|discriminate]. cbn [truthy_string over].
    destruct (String.eqb_spec auth "") as [->|Hauth]; [discriminate|].
    cbn [negb].
    destruct (String.prefix "Bearer " auth) eqn:Hp; [|discriminate].
    apply prefix_slice in Hp. change (String.length "Bearer ") with 7%nat in Hp.
    cbn [truthy_string over].
    destruct (String.eqb_spec (Accounts.slice 7 auth) "") as [E|Hne];
      [discriminate|].
    cbn [negb].
    destruct (Accounts.jwt_verify P (Accounts.slice 7 auth)) as [payload|] eqn:Hv;
      [|discriminate].
    intro H. inversion H; subst payload.
    exists (Accounts.slice 7 auth). split; [now f_equal|]. now split.
  - intros [token [-> [Hne Hv]]]. cbn [truthy_string over].
    destruct (String.eqb_spec ("Bearer " ++ token) "") as [E|_];
      [discriminate|].
    cbn [negb].
    rewrite (prefix_append "Bearer " token).
    rewrite (slice_append "Bearer " token : Accounts.slice 7 _ = _).
    cbn [truthy_string over].
    destruct (String.eqb_spec token ""); [contradiction|].
    cbn [negb]. now rewrite Hv.
Qed.

(** X29.  The scope checks nest: whoever passes [requireTenantScope]
    passes [requireOwnerScope], and whoever passes that passes
    [requireOrgScope].  A superadmin passes [requireRole] for any list and
    every scope check; anyone else passes [requireRole] only with a listed
    role, and [requireOrgScope] only with an organization; a request without
    a user is refused by [requireRole] with 403. *)
Theorem scope_checks_nest user allowed :
  (Accounts.requireTenantScope user = Accounts.Continue tt ->
   Accounts.requireOwnerScope user = Accounts.Continue tt)
  /\ (Accounts.requireOwnerScope user = Accounts.Continue tt ->
      Accounts.requireOrgScope user = Accounts.Continue tt)
  /\ (Accounts.role user = Some "superadmin" ->
      Accounts.requireRole allowed (Some user) = Accounts.Continue tt
      /\ Accounts.requireTenantScope user = Accounts.Continue tt)
  /\ (Accounts.requireRole allowed (Some user) = Accounts.Continue tt ->
      Accounts.role user = Some "superadmin"
      \/ Accounts.includes allowed (Accounts.role user) = true)
  /\ (Accounts.role user <> Some "superadmin" ->
      Accounts.requireOrgScope user = Accounts.Continue tt ->
      truthy_number (Accounts.organization_id user) = true)
  /\ Accounts.requireRole allowed None = Accounts.Reply 403 "Forbidden".
Proof.
  unfold Accounts.requireTenantScope, Accounts.requireOwnerScope,
    Accounts.requireOrgScope, Accounts.requireRole.
  split; [|split; [|split; [|split; [|split]]]].
  - destruct (Accounts.is_role (Accounts.role user) "superadmin");
      [reflexivity|].
    destruct (truthy_number (Accounts.organization_id user)),
      (truthy_number (Accounts.owner_id user)),
      (truthy_number (Accounts.tenant_id user)); cbn;
      (discriminate || reflexivity).
  - destruct (Accounts.is_role (Accounts.role user) "superadmin");
      [reflexivity|].
    destruct (truthy_number (Accounts.organization_id user)),
      (truthy_number (Accounts.owner_id user)); cbn;
      (discriminate || reflexivity).
  - intros ->. now cbn.
  - destruct (truthy_string (Accounts.role user)); cbn; [|discriminate].
    destruct (Accounts.is_role (Accounts.role user) "superadmin") eqn:Hsuper.
    + intros _. left. now apply is_role_eq.
    + destruct (Accounts.includes allowed (Accounts.role user)); cbn;
        [auto|discriminate].
  - intro Hne.
    destruct (Accounts.is_role (Accounts.role user) "superadmin") eqn:Hsuper.
    + apply is_role_eq in Hsuper. contradiction.
    + destruct (truthy_number (Accounts.organization_id user)); cbn;
        [reflexivity|discriminate].
  - reflexivity.
Qed.

(** ** Dates that do not parse *)

(** X30.  A non-empty [start_date] that does not parse is refused with
    400 before anything is written by every create (tenant, power meter,
    rent, water and maintenance history, general setup), by the in-place
    tenant, rent and general setup updates, and by the water and maintenance
    history update in either mode. *)
Theorem bad_start_date_refused rt sd :
  sd <> "" ->
  Date_parse rt sd = None ->
  (forall s body,
      Tenant.p_start_date body = Some sd ->
      respond (post_tenants rt body) s
      = (Error 400 "Invalid date format. Use YYYY-MM-DD.", s))
  /\ (forall s id cur fields,
         Tenant.p_start_date fields = Some sd ->
         latest (filter (active_tenant id) (tenants s)) = Some cur ->
         respond (put_tenant rt id true fields) s
         = (Error 400 "Invalid date format. Use YYYY-MM-DD.", s))
  /\ (forall s body,
         Meter.p_start_date body = Some sd ->
         respond (post_power_meters rt body) s
         = (Error 400 "Invalid date format. Use YYYY-MM-DD.", s))
  /\ (forall s body,
         History.p_start_date body = Some sd ->
         respond (post_rent_history rt body) s
         = (Error 400 "Invalid date format. Use YYYY-MM-DD.", s))
  /\ (forall s id cur fields,
         History.p_start_date fields = Some sd ->
         single (filter (active_history id) (rent_history s)) = Some cur ->
         respond (put_rent_history rt id true fields) s
         = (Error 400 "Invalid date format. Use YYYY-MM-DD.", s))
  /\ (forall f s body,
         History.p_start_date body = Some sd ->
         respond (post_history rt f body) s
         = (Error 400 "Invalid date format. Use YYYY-MM-DD.", s))
  /\ (forall f s id cur inPlace fields,
         History.p_start_date fields = Some sd ->
         single (filter (active_history id) (rows (from_history f) s))
           = Some cur ->
         respond (put_history rt f id inPlace fields) s
         = (Error 400 "Invalid date format. Use YYYY-MM-DD.", s))
  /\ (forall s body,
         Setup.p_start_date body = Some sd ->
         Setup.post rt body s
         = (Setup.Error 400 "Invalid date format. Use YYYY-MM-DD.", s))
  /\ (forall s id cur fields,
         Setup.p_start_date fields = Some sd ->
         single (filter (fun r => (Setup.entry_id r =? id)
                                  && is_active (Setup.status r))
                        (Setup.general_setup s)) = Some cur ->
         Setup.put rt id true fields s
         = (Setup.Error 400 "Invalid date format. Use YYYY-MM-DD.", s)).
Proof.
  intros Hne Hparse.
  assert (Hthrow := getMonthStart_unparsable rt sd Hne Hparse).
  assert (Htruthy : truthy_string (Some sd) = true).
  { cbn. apply String.eqb_neq in Hne. now rewrite Hne. }
  repeat split.
  - intros s body Hsd. unfold post_tenants. run. now rewrite Hsd, Hthrow.
  - intros s id cur fields Hsd Hcur. unfold put_tenant, currentTenant. run.
    rewrite Hcur, getMonthStart_now. cbn. now rewrite Hsd, Htruthy, Hthrow.
  - intros s body Hsd. unfold post_power_meters. run.
    rewrite getMonthStart_now. cbn. now rewrite Hsd, Hthrow.
  - intros s body Hsd. unfold post_rent_history. run.
    rewrite getMonthStart_now. cbn. now rewrite Hsd, Hthrow.
  - intros s id cur fields Hsd Hcur. unfold active_history in Hcur.
    unfold put_rent_history, activeHistory. run.
    rewrite getMonthStart_now. cbn. rewrite Hcur. cbn.
    now rewrite Hsd, Htruthy, Hthrow.
  - intros f s body Hsd. unfold post_history. run.
    rewrite getMonthStart_now. cbn. now rewrite Hsd, Hthrow.
  - intros f s id cur inPlace fields Hsd Hcur. unfold active_history in Hcur.
    unfold put_history, activeHistory. run. rewrite Hcur. cbn.
    now rewrite Hsd, Htruthy, Hthrow.
  - intros s body Hsd. unfold Setup.post. now rewrite Hsd, Hthrow.
  - intros s id cur fields Hsd Hcur. unfold Setup.put.
    rewrite getMonthStart_now, Hcur. now rewrite Hsd, Htruthy, Hthrow.
Qed.

Lemma bad_start_date_refused_witness :
  respond (put_tenant march_2024 1 true junk_start_date) asha_db
    = (Error 400 "Invalid date format. Use YYYY-MM-DD.", asha_db)
  /\ respond (put_history march_2024 water 2 false junk_history_start)
             watered_db
     = (Error 400 "Invalid date format. Use YYYY-MM-DD.", watered_db)
  /\ respond (put_rent_history march_2024 3 true junk_history_start) rent_db
     = (Error 400 "Invalid date format. Use YYYY-MM-DD.", rent_db)
  /\ Setup.put march_2024 4 true junk_setup_start tariff_db
     = (Setup.Error 400 "Invalid date format. Use YYYY-MM-DD.", tariff_db).
Proof.
  destruct (bad_start_date_refused march_2024 "next month")
    as [_ [Htenant [_ [_ [Hrent [_ [Hhistory [_ Hsetup]]]]]]]];
    [discriminate | reflexivity |].
  split; [|split; [|split]].
  - apply (Htenant asha_db 1 asha_v1 junk_start_date); reflexivity.
  - apply (Hhistory water watered_db 2 water_row false junk_history_start);
      reflexivity.
  - apply (Hrent rent_db 3 rent_row junk_history_start); reflexivity.
  - apply (Hsetup tariff_db 4 tariff_2023 junk_setup_start); reflexivity.
Defined.

